(** * GestionGastos: category registry, category mutations and report
      aggregation of [app.py], as a shallow embedding.

    The Flask views of [app.py] are embedded as functions over an explicit
    snapshot of the Firestore collections they touch.  Names of definitions
    follow the Python source.

    - The global [db] is the state of a request: [None] when Firebase could
      not be initialised, or a client of a store.  A request on a collection
      may raise; the store says on which collections it does.
    - A view is a computation in a state and exception monad, run under the
      [try]/[except] of the source; its result is the pair that Flask
      receives, with the text of the JSON body.
    - Amounts are Python floats.  The aggregator is written over any type
      of amounts with the operations it uses; [Float64] gives them at
      binary64 floats, and the examples are evaluated there.
    - A [datetime] of the store is an instant, written by its fields in
      UTC; [now] is the clock of the zone [TZ]. *)

From Stdlib Require Import ZArith Ascii Floats.
From stdpp Require Import base option list strings pretty gmap sorting.

(* stdpp's solvers clear hypotheses that may be gone already. *)
Set Warnings "-clear-no-such-hyp".

Local Open Scope string_scope.
Local Open Scope list_scope.

(** ** Strings: [str.strip] and [str.title]

    Category names are modelled as Rocq strings, that is, as sequences of
    8-bit characters.  On these, case mapping is the ASCII one; characters
    above 127 are uncased and are not white space.  On ASCII strings these
    are the methods of Python. *)

Module PyStr.

Definition ord (c : ascii) : nat := nat_of_ascii c.

(** [str.isspace] on one character: TAB..CR, FS..US and the blank. *)
Definition isspace (c : ascii) : bool :=
  let n := ord c in
  ((9 <=? n)%nat && (n <=? 13)%nat) || ((28 <=? n)%nat && (n <=? 32)%nat).

Definition isupper (c : ascii) : bool :=
  let n := ord c in (65 <=? n)%nat && (n <=? 90)%nat.

Definition islower (c : ascii) : bool :=
  let n := ord c in (97 <=? n)%nat && (n <=? 122)%nat.

Definition iscased (c : ascii) : bool := isupper c || islower c.

Definition upper (c : ascii) : ascii :=
  if islower c then ascii_of_nat (ord c - 32) else c.

Definition lower (c : ascii) : ascii :=
  if isupper c then ascii_of_nat (ord c + 32) else c.

Fixpoint lstrip (s : string) : string :=
  match s with
  | EmptyString => EmptyString
  | String c s' => if isspace c then lstrip s' else s
  end.

Fixpoint rstrip (s : string) : string :=
  match s with
  | EmptyString => EmptyString
  | String c s' =>
      match rstrip s' with
      | EmptyString => if isspace c then EmptyString else String c EmptyString
      | r => String c r
      end
  end.

(** [s.strip()] *)
Definition strip (s : string) : string := rstrip (lstrip s).

(** The loop of [str.title]: a character that follows a cased character
    is lowered, any other one is raised. *)
Fixpoint title_from (previous_is_cased : bool) (s : string) : string :=
  match s with
  | EmptyString => EmptyString
  | String c s' =>
      String (if previous_is_cased then lower c else upper c)
             (title_from (iscased c) s')
  end.

(** [s.title()] *)
Definition title (s : string) : string := title_from false s.

(** Python's [<=] on [str]: lexicographic on code points. *)
Definition le (a b : string) : Prop := String.leb a b = true.

#[global] Instance le_dec (a b : string) : Decision (le a b).
Proof. unfold le. apply _. Defined.

(** [x] is truthy, as in [if x:] on a [str]. *)
Definition truthy (s : string) : bool :=
  match s with EmptyString => false | _ => true end.

End PyStr.

(** [raw.strip().title()], the normalisation every handler applies to the
    category names it receives. *)
Definition normalize (raw : string) : string := PyStr.title (PyStr.strip raw).

Definition DEFAULT_CATEGORIES : list string :=
  ["Transporte"; "Comida"; "Entretenimiento"; "Servicios"; "Renta"].

Definition OTROS : string := "Otros".

(** ** Python list helpers *)

(** [l.remove(x)] where [x in l]: drops the first occurrence. *)
Fixpoint list_remove (x : string) (l : list string) : list string :=
  match l with
  | [] => []
  | y :: l' => if decide (x = y) then l' else y :: list_remove x l'
  end.

(** [sorted(l)] on strings. *)
Definition sorted (l : list string) : list string := merge_sort PyStr.le l.

(** ** Dates *)

(** A [datetime]: calendar date and the time of day in microseconds.  The
    date of a document, and the date of a query, is an instant in UTC: a
    naive [datetime] is stored as one. *)
Record datetime := { year : Z; month : Z; day : Z; micros : Z }.

(** [a >= b] on datetimes, field by field from the year down. *)
Definition datetime_geb (a b : datetime) : bool :=
  match (year a ?= year b)%Z with
  | Gt => true | Lt => false
  | Eq =>
    match (month a ?= month b)%Z with
    | Gt => true | Lt => false
    | Eq =>
      match (day a ?= day b)%Z with
      | Gt => true | Lt => false
      | Eq => (micros b <=? micros a)%Z
      end
    end
  end.

Definition digit (n : Z) : ascii := ascii_of_nat (48 + Z.to_nat (n mod 10)).

Definition two_digits (n : Z) : string :=
  String (digit (n / 10)) (String (digit n) EmptyString).

Definition four_digits (n : Z) : string :=
  String (digit (n / 1000)) (String (digit (n / 100)) (two_digits n)).

(** [d.strftime("%Y-%m")], for a year from 1000 to 9999 and a month from 1
    to 12.  An earlier year, which [%Y] pads or not with the platform and
    the version of Python, is outside the model. *)
Definition strftime_Ym (d : datetime) : string :=
  four_digits (year d) +:+ "-" +:+ two_digits (month d).

(** [TZ = pytz.timezone('America/Mexico_City')], as [tzinfo=TZ] hands it
    to the constructor of [datetime]: the offset of the first entry of the
    zone, the local mean time of Mexico City, which pytz rounds to 6 hours
    and 37 minutes behind UTC.  In microseconds. *)
Definition TZ : Z := - (6 * 3600 + 37 * 60) * 1000000.

(** ** Documents, collections and the storage handle *)

Inductive collection := Categories | Transactions | Settings.

(** A document of [categories].  [c_name] is [data.get("name")]. *)
Record category_doc := {
  c_userId : string;
  c_name : option string;
  c_createdAt : datetime
}.

Definition set_name (name : string) (d : category_doc) : category_doc :=
  {| c_userId := c_userId d; c_name := Some name; c_createdAt := c_createdAt d |}.

Inductive outcome (A : Type) := Return (a : A) | Raise.
Arguments Return {A} a.
Arguments Raise {A}.

Section Firestore.

(** Amounts are Python floats; the embedding takes their type as a
    parameter, and their operations where they are used. *)
Context {amount : Type}.

(** A document of [transactions]; an optional field is a key that a
    document may lack, read with [data.get]. *)
Record transaction_doc := {
  t_userId : string;
  t_type : option string;
  t_amount : option amount;
  t_category : option string;
  t_description : string;
  t_date : datetime
}.

Definition set_category (category : string) (d : transaction_doc) : transaction_doc :=
  {| t_userId := t_userId d; t_type := t_type d; t_amount := t_amount d;
     t_category := Some category; t_description := t_description d;
     t_date := t_date d |}.

(** A document of [settings], stored under the user's id. *)
Record settings_doc := { s_monthlyGoal : option amount }.

(** An element of the list that [monthly_report] answers with. *)
Record trend_entry := {
  category_name : string;
  total_amount : amount;
  monthly_trend : list amount;
  entry_type : string
}.

(** The dictionary that [get_most_problematic_category] returns;
    [category] is [None] or a string. *)
Record problematic := {
  category : option string;
  current_spend : amount;
  goal_amount : amount;
  exceeds_goal : bool
}.

(** What a view hands to Flask: [jsonify(body), status].  The ["details"]
    entry of an error body, the text of the exception, is left out. *)
Inductive json :=
| Body_categories (categories : list string)
| Body_status (status : string)
| Body_status_name (status name : string)
| Body_error (error : string)
| Body_report (entries : list trend_entry)
| Body_problematic (data : problematic).

Definition response : Type := json * nat.

(** A snapshot of the store.  Collections list their documents in stream
    order; [unavailable c] tells that a request on [c] raises. *)
Record firestore := {
  categories : list category_doc;
  transactions : list transaction_doc;
  settings : gmap string settings_doc;
  unavailable : collection → bool
}.

Definition with_categories (l : list category_doc) (st : firestore) : firestore :=
  {| categories := l; transactions := transactions st;
     settings := settings st; unavailable := unavailable st |}.

Definition with_transactions (l : list transaction_doc) (st : firestore) : firestore :=
  {| categories := categories st; transactions := l;
     settings := settings st; unavailable := unavailable st |}.

(** The state of a request is the global [db]: [None], or a client of a
    store.  A computation returns or raises, and leaves a [db] behind in
    both cases. *)
Definition M (A : Type) : Type := option firestore → outcome A * option firestore.

#[global] Instance M_ret : MRet M := λ A (a : A) db, (Return a, db).

#[global] Instance M_bind : MBind M := λ A B (k : A → M B) (m : M A) db,
  match m db with
  | (Return a, db') => k a db'
  | (Raise, db') => (Raise, db')
  end.

(** [try: body  except Exception: return fallback] at the top of a view. *)
Definition try_except {A} (body : M A) (fallback : A)
    (db : option firestore) : A * option firestore :=
  match body db with
  | (Return a, db') => (a, db')
  | (Raise, db') => (fallback, db')
  end.

(** *** Requests on the store

    A query result is a list of document snapshots: the position of the
    document in its collection, which stands for [doc.reference], and its
    data, [doc.to_dict()]. *)

Definition on_collection {A} (c : collection)
    (k : firestore → A * firestore) : M A :=
  λ db, match db with
        | None => (Raise, None)
        | Some st =>
            if unavailable st c then (Raise, Some st)
            else let '(a, st') := k st in (Return a, Some st')
        end.

(** [collection.where(...)...stream()] *)
Definition where_ {D} (p : D → bool) (l : list D) : list (nat * D) :=
  filter (λ s, p s.2) (imap pair l).

Definition stream_categories (p : category_doc → bool) : M (list (nat * category_doc)) :=
  on_collection Categories (λ st, (where_ p (categories st), st)).

Definition stream_transactions (p : transaction_doc → bool) : M (list (nat * transaction_doc)) :=
  on_collection Transactions (λ st, (where_ p (transactions st), st)).

(** [.limit(n)] *)
Definition limit {D} (n : nat) (q : M (list (nat * D))) : M (list (nat * D)) :=
  l ← q; mret (take n l).

(** [db.collection("categories").add(doc)] *)
Definition add_category (doc : category_doc) : M unit :=
  on_collection Categories (λ st, (tt, with_categories (categories st ++ [doc]) st)).

(** [ref.update({"name": name})] on a category document *)
Definition update_category_ref (ref : nat) (name : string) : M unit :=
  on_collection Categories
    (λ st, (tt, with_categories (alter (set_name name) ref (categories st)) st)).

(** [ref.delete()] on a category document *)
Definition delete_category_ref (ref : nat) : M unit :=
  on_collection Categories
    (λ st, (tt, with_categories (delete ref (categories st)) st)).

(** [batch.commit()], for a batch of [batch.update(ref, {"category": c})]
    on transaction documents, queued as pairs [(ref, c)]. *)
Definition batch_commit (batch : list (nat * string)) : M unit :=
  on_collection Transactions
    (λ st, (tt, with_transactions
                  (foldl (λ l w, alter (set_category w.2) w.1 l) (transactions st) batch)
                  st)).

(** [db.collection("settings").document(id).get()]: [None] when the
    snapshot does not exist. *)
Definition get_settings (id : string) : M (option settings_doc) :=
  on_collection Settings (λ st, (settings st !! id, st)).

(** [for x in l: s = body(s, x)], for a body that may raise. *)
Fixpoint for_each {D S} (l : list D) (body : S → D → M S) (s : S) : M S :=
  match l with
  | [] => mret s
  | d :: l' => s' ← body s d; for_each l' body s'
  end.

(** ** CategoryRegistry: [_get_user_categories] *)

Definition _get_user_categories (user_id : string) : M (list string) :=
  λ db,
    if db is None then (Return DEFAULT_CATEGORIES, db)
    else
      (categories_ref ← stream_categories (λ d, bool_decide (c_userId d = user_id));
       let all_categories : gset string :=
         foldl (λ acc doc,
                  match c_name doc.2 with
                  | Some category_name =>
                      if PyStr.truthy category_name then acc ∪ {[category_name]} else acc
                  | None => acc
                  end)
               (list_to_set DEFAULT_CATEGORIES) categories_ref in
       let result := sorted (elements all_categories) in
       mret (if bool_decide (OTROS ∈ result)
             then list_remove OTROS result ++ [OTROS]
             else result ++ [OTROS])) db.

(** [GET /api/categories/<user_id>] *)
Definition get_categories (user_id : string)
    (db : option firestore) : response * option firestore :=
  try_except
    (categories ← _get_user_categories user_id;
     mret (Body_categories categories, 200))
    (Body_error "Fallo interno al obtener categorías", 500) db.

(** ** CategoryMutationService *)

Definition db_is_None : response := (Body_error "Firestore no inicializado", 500).

(** [POST /api/categories/<user_id>], with [name] the ["name"] entry of the
    JSON body (the empty string when absent) and [now] the value of
    [datetime.now()]. *)
Definition create_category (now : datetime) (user_id name : string)
    (db : option firestore) : response * option firestore :=
  if db is None then (db_is_None, db)
  else
    try_except
      (let new_category_name := normalize name in
       if negb (PyStr.truthy new_category_name)
       then mret (Body_error "Nombre de categoría requerido", 400)
       else
         existing_categories ← _get_user_categories user_id;
         if bool_decide (new_category_name ∈ existing_categories)
         then mret (Body_error "La categoría ya existe.", 409)
         else
           let category_doc :=
             {| c_userId := user_id; c_name := Some new_category_name;
                c_createdAt := now |} in
           add_category category_doc;;
           mret (Body_status_name "Categoría creada ✅" new_category_name, 201))
      (Body_error "Fallo interno al crear categoría", 500) db.

(** The loop that queues one [batch.update] for each streamed transaction
    and counts them. *)
Definition queue_updates (category : string)
    (transactions_to_update : list (nat * transaction_doc)) : list (nat * string) * nat :=
  foldl (λ bc transaction_doc, (bc.1 ++ [(transaction_doc.1, category)], S bc.2))
        ([], 0) transactions_to_update.

(** Step 1 of [update_category]: renames the first matching category
    document; the result is [found]. *)
Definition update_category_doc (user_id old_name new_name : string) : M bool :=
  category_ref ←
    limit 1 (stream_categories
               (λ d, bool_decide (c_userId d = user_id ∧ c_name d = Some old_name)));
  match category_ref with
  | doc :: _ => update_category_ref doc.1 new_name;; mret true
  | [] => mret false
  end.

(** Step 2 of [update_category]: moves the transactions of [old_name] to
    [new_name] in one batch; the result is [count]. *)
Definition update_category_transactions (user_id old_name new_name : string) : M nat :=
  transactions_to_update ←
    stream_transactions
      (λ d, bool_decide (t_userId d = user_id ∧ t_category d = Some old_name));
  let '(batch, count) := queue_updates new_name transactions_to_update in
  batch_commit batch;;
  mret count.

(** [PUT /api/categories/<user_id>], with [arg_old_name] the query
    parameter ["old_name"] and [arg_new_name] the ["new_name"] entry of the
    JSON body (the empty string when absent). *)
Definition update_category (user_id arg_old_name arg_new_name : string)
    (db : option firestore) : response * option firestore :=
  if db is None then (db_is_None, db)
  else
    try_except
      (let old_name := normalize arg_old_name in
       let new_name := normalize arg_new_name in
       if negb (PyStr.truthy old_name) || negb (PyStr.truthy new_name)
       then mret (Body_error "Los nombres de categoría viejo y nuevo son requeridos", 400)
       else
         found ← update_category_doc user_id old_name new_name;
         if negb found && negb (bool_decide (old_name ∈ DEFAULT_CATEGORIES))
         then mret (Body_error ("Categoría '" +:+ old_name +:+
                                "' no encontrada o no es personalizable."), 404)
         else
           count ← update_category_transactions user_id old_name new_name;
           mret (Body_status ("Categoría actualizada de '" +:+ old_name +:+ "' a '" +:+
                              new_name +:+ "' y " +:+ pretty count +:+
                              " transacciones actualizadas."), 200))
      (Body_error "Fallo interno al modificar categoría", 500) db.

(** Step 1 of [delete_category]: deletes the streamed category documents
    (at most one, by [limit(1)]); the result is [deleted_count]. *)
Definition delete_category_doc (user_id category_to_delete : string) : M nat :=
  category_ref ←
    limit 1 (stream_categories
               (λ d, bool_decide (c_userId d = user_id ∧
                                  c_name d = Some category_to_delete)));
  for_each category_ref
           (λ deleted_count doc, delete_category_ref doc.1;; mret (S deleted_count)) 0.

(** Step 2 of [delete_category]: moves the transactions of the deleted
    category to ['Otros'] in one batch; the result is [count]. *)
Definition delete_category_transactions (user_id category_to_delete : string) : M nat :=
  transactions_to_update ←
    stream_transactions
      (λ d, bool_decide (t_userId d = user_id ∧ t_category d = Some category_to_delete));
  let '(batch, count) := queue_updates OTROS transactions_to_update in
  batch_commit batch;;
  mret count.

(** [DELETE /api/categories/<user_id>], with [name] the query parameter
    ["name"] (the empty string when absent). *)
Definition delete_category (user_id name : string)
    (db : option firestore) : response * option firestore :=
  if db is None then (db_is_None, db)
  else
    try_except
      (let category_to_delete := normalize name in
       if negb (PyStr.truthy category_to_delete)
       then mret (Body_error "Nombre de categoría a eliminar requerido", 400)
       else if bool_decide (category_to_delete ∈ DEFAULT_CATEGORIES)
       then mret (Body_error ("La categoría '" +:+ category_to_delete +:+
                              "' es estándar y no puede ser eliminada."), 403)
       else
         deleted_count ← delete_category_doc user_id category_to_delete;
         if bool_decide (deleted_count = 0)
         then mret (Body_error ("Categoría '" +:+ category_to_delete +:+
                                "' no encontrada en las categorías personalizadas."), 404)
         else
           count ← delete_category_transactions user_id category_to_delete;
           mret (Body_status ("Categoría '" +:+ category_to_delete +:+ "' eliminada y " +:+
                              pretty count +:+ " transacciones reasignadas a 'Otros'."), 200))
      (Body_error "Fallo interno al eliminar categoría", 500) db.

(** ** Python dictionaries, in insertion order *)

(** [d[k] = f(d.get(k))]: an existing key keeps its place, a new key goes
    last. *)
Fixpoint dict_upsert {V} (k : string) (f : option V → V)
    (d : list (string * V)) : list (string * V) :=
  match d with
  | [] => [(k, f None)]
  | (k', v) :: d' =>
      if decide (k = k') then (k', f (Some v)) :: d'
      else (k', v) :: dict_upsert k f d'
  end.

Fixpoint dict_get {V} (k : string) (d : list (string * V)) : option V :=
  match d with
  | [] => None
  | (k', v) :: d' => if decide (k = k') then Some v else dict_get k d'
  end.

(** ** TransactionAggregator *)

Section Aggregator.

(** The float operations in use: [0.0] (and the integer [0] that Python
    adds to floats), [+], the built-in [sum], [>], and the float of the
    literal ["500.0"].  [sum] is an operation of its own: CPython adds the
    elements one after the other before 3.12, and with a compensated
    summation from 3.12 on. *)
Context (azero : amount) (aplus : amount → amount → amount)
        (asum : list amount → amount)
        (agtb : amount → amount → bool) (a500 : amount).

(** [t = 0.0] and then [t += a] for each [a] of [l], in this order. *)
Definition total (l : list amount) : amount := foldl aplus azero l.

(** [max(d, key=d.get)] on a non-empty dictionary whose first key is
    [best]: a later key wins only with a strictly greater value. *)
Definition max_by_value (best : string * amount)
    (rest : list (string * amount)) : string * amount :=
  foldl (λ best item, if agtb item.2 best.2 then item else best) best rest.

(** One turn of the loop of [monthly_report] over the streamed
    documents. *)
Definition monthly_step
    (acc : list (string * gmap string amount) * gmap string string)
    (doc : nat * transaction_doc)
  : list (string * gmap string amount) * gmap string string :=
  let data := doc.2 in
  match t_type data with
  | Some type =>
      if bool_decide (type ∈ ["expense"; "income"]) then
        let category := normalize (default OTROS (t_category data)) in
        let amount := default azero (t_amount data) in
        let month_key := strftime_Ym (t_date data) in
        (dict_upsert category
           (λ months,
              let months := default ∅ months in
              <[month_key := aplus (default azero (months !! month_key)) amount]> months)
           acc.1,
         <[category := type]> acc.2)
      else acc
  | None => acc
  end.

(** One turn of the loop that builds the answer of [monthly_report]. *)
Definition trend_of (types_dict : gmap string string)
    (item : string * gmap string amount) : trend_entry :=
  let '(category, months) := item in
  let sorted_months := sorted (elements (dom months)) in
  let trend := (λ m, default azero (months !! m)) <$> sorted_months in
  let trend := match trend with [x] => [azero; x] | _ => trend end in
  {| category_name := category;
     total_amount := asum trend;
     monthly_trend := trend;
     entry_type := default "expense" (types_dict !! category) |}.

(** [GET /api/reports/monthly], with [user_id] the query parameter
    (the empty string when absent). *)
Definition monthly_report (user_id : string)
    (db : option firestore) : response * option firestore :=
  if db is None then (db_is_None, db)
  else if negb (PyStr.truthy user_id)
  then ((Body_error "user_id requerido", 400), db)
  else
    try_except
      (transactions ← stream_transactions (λ d, bool_decide (t_userId d = user_id));
       let '(monthly_data, types_dict) := foldl monthly_step ([], ∅) transactions in
       let response := trend_of types_dict <$> monthly_data in
       mret (Body_report response, 200))
      (Body_error "Fallo interno del servidor", 500) db.

(** [datetime(now.year, now.month, 1, 0, 0, 0, tzinfo=TZ)], with [now] the
    clock of the zone: the instant of the first day of the month at 0:00 in
    the offset [TZ], which the store compares the dates with. *)
Definition start_of_month (now : datetime) : datetime :=
  {| year := year now; month := month now; day := 1; micros := - TZ |}.

(** One turn of the loop of [get_most_problematic_category]. *)
Definition totals_step (category_totals : list (string * amount))
    (doc : nat * transaction_doc) : list (string * amount) :=
  let data := doc.2 in
  let category := normalize (default OTROS (t_category data)) in
  let amount := default azero (t_amount data) in
  dict_upsert category (λ spent, aplus (default azero spent) amount) category_totals.

(** [get_most_problematic_category(user_id)], with [now] the value of
    [datetime.now(TZ)]. *)
Definition get_most_problematic_category (now : datetime) (user_id : string)
    (db : option firestore) : problematic :=
  if db is None
  then {| category := None; current_spend := azero; goal_amount := azero;
          exceeds_goal := false |}
  else
    (try_except
       (goal_ref ← get_settings user_id;
        let goal_amount :=
          match goal_ref with
          | Some data => default a500 (s_monthlyGoal data)
          | None => a500
          end in
        let start_of_month := start_of_month now in
        transactions_ref ←
          stream_transactions
            (λ d, bool_decide (t_userId d = user_id ∧ t_type d = Some "expense")
                  && datetime_geb (t_date d) start_of_month);
        let category_totals := foldl totals_step [] transactions_ref in
        let '(most_problematic_category, max_spend) :=
          match category_totals with
          | [] => (OTROS, azero)
          | first :: rest => max_by_value first rest
          end in
        let exceeds_goal := agtb max_spend goal_amount in
        mret {| category := Some most_problematic_category;
                current_spend := max_spend;
                goal_amount := goal_amount;
                exceeds_goal := exceeds_goal |})
       {| category := Some "Error"; current_spend := azero; goal_amount := azero;
          exceeds_goal := false |} db).1.

(** [GET /api/reports/problematic_category/<user_id>] *)
Definition problematic_category (now : datetime) (user_id : string)
    (db : option firestore) : response :=
  (Body_problematic (get_most_problematic_category now user_id db), 200).

End Aggregator.

End Firestore.

Arguments transaction_doc : clear implicits.
Arguments settings_doc : clear implicits.
Arguments firestore : clear implicits.
Arguments M : clear implicits.
Arguments trend_entry : clear implicits.
Arguments problematic : clear implicits.
Arguments json : clear implicits.
Arguments response : clear implicits.

(** ** Notions used in the statements *)

Section Views.

Context {amount : Type}.

(** The names that [_get_user_categories] reads from the store: the
    non-empty [name] entries of the category documents of [user_id], as
    they are stored. *)
Definition custom_names (st : firestore amount) (user_id : string) : list string :=
  omap (λ d, if bool_decide (c_userId d = user_id)
             then match c_name d with
                  | Some n => if PyStr.truthy n then Some n else None
                  | None => None
                  end
             else None)
       (categories st).

(** [d] is a category document of [user_id] named [name]. *)
Definition names_category (user_id name : string) (d : category_doc) : Prop :=
  c_userId d = user_id ∧ c_name d = Some name.

(** Every stored category name is a normalised one. *)
Definition names_normalized (st : firestore amount) : Prop :=
  ∀ d n, d ∈ categories st → c_name d = Some n → normalize n = n.

(** [d] is a transaction of [user_id] stored under the category [name]. *)
Definition in_category (user_id name : string) (d : transaction_doc amount) : Prop :=
  t_userId d = user_id ∧ t_category d = Some name.

#[global] Instance names_category_dec user_id name d :
  Decision (names_category user_id name d).
Proof. unfold names_category. apply _. Defined.

#[global] Instance in_category_dec user_id name d :
  Decision (in_category user_id name d).
Proof. unfold in_category. apply _. Defined.

(** Every transaction of [user_id] under [old] moved to [new], the others
    as they were. *)
Definition reassigned (user_id old new : string)
    (l : list (transaction_doc amount)) : list (transaction_doc amount) :=
  (λ d, if decide (in_category user_id old d) then set_category new d else d) <$> l.

End Views.

Section Ledger.

Context {amount : Type} (azero : amount) (aplus : amount → amount → amount).

(** The category, amount and month key that the report loops read from a
    transaction. *)
Definition category_of (d : transaction_doc amount) : string :=
  normalize (default OTROS (t_category d)).

Definition amount_of (d : transaction_doc amount) : amount :=
  default azero (t_amount d).

Definition month_of (d : transaction_doc amount) : string :=
  strftime_Ym (t_date d).

(** [d] has one of the two types that [monthly_report] keeps. *)
Definition typed (d : transaction_doc amount) : Prop :=
  ∃ type, t_type d = Some type ∧ type ∈ ["expense"; "income"].

(** [d] is a transaction of [user_id] that [monthly_report] keeps. *)
Definition reported (user_id : string) (d : transaction_doc amount) : Prop :=
  t_userId d = user_id ∧ typed d.

(** [d] is an expense of [user_id] that is dated, in UTC, no earlier than
    the first day of the month of [now] at 0:00 in the offset [TZ]: on that
    day from that time on, later in the month, or in a later month. *)
Definition expense_of_month (now : datetime) (user_id : string)
    (d : transaction_doc amount) : Prop :=
  (t_userId d = user_id ∧ t_type d = Some "expense")
  ∧ (year now < year (t_date d)
     ∨ year (t_date d) = year now
       ∧ (month now < month (t_date d)
          ∨ month (t_date d) = month now
            ∧ (1 < day (t_date d)
               ∨ day (t_date d) = 1 ∧ - TZ ≤ micros (t_date d))))%Z.

#[global] Instance typed_dec d : Decision (typed d).
Proof.
  unfold typed. destruct (t_type d) as [type|].
  - destruct (decide (type ∈ ["expense"; "income"])) as [Hin|Hout].
    + left. by exists type.
    + right. intros (type' & [= <-] & Hin). done.
  - right. intros (type' & [=] & _).
Defined.

#[global] Instance reported_dec user_id d : Decision (reported user_id d).
Proof. unfold reported. apply _. Defined.

#[global] Instance expense_of_month_dec now user_id d :
  Decision (expense_of_month now user_id d).
Proof. unfold expense_of_month. apply _. Defined.

(** The amounts of [docs] under the category [c] in the month [m], added
    up in the order of [docs]. *)
Definition month_total (c m : string) (docs : list (transaction_doc amount)) : amount :=
  total azero aplus (amount_of <$> filter (λ d, category_of d = c ∧ month_of d = m) docs).



End Ledger.

(** ** Python floats

    The operations of the aggregator at binary64 floats. *)

Module Float64.

(** [0.0] *)
Definition zero : float := 0%float.

(** [a + b] *)
Definition add (a b : float) : float := PrimFloat.add a b.

(** [a > b] *)
Definition gt (a b : float) : bool := PrimFloat.ltb b a.

(** [sum(l)] with plain additions, from the integer [0].  The compensated
    summation of CPython 3.12 gives the same float whenever these additions
    are exact, as they are in the examples below. *)
Definition sum (l : list float) : float := total zero add l.

(** [float("500.0")] *)
Definition goal : float := 500%float.

End Float64.

(** ** Sample stores *)

Module Sample.

Definition date (y m d : Z) : datetime :=
  {| year := y; month := m; day := d; micros := 0 |}.

Definition custom (user_id name : string) : category_doc :=
  {| c_userId := user_id; c_name := Some name; c_createdAt := date 2024 1 1 |}.

Definition expense {amount} (user_id category : string) (a : amount) (on : datetime)
  : transaction_doc amount :=
  {| t_userId := user_id; t_type := Some "expense"; t_amount := Some a;
     t_category := Some category; t_description := ""; t_date := on |}.

Definition store {amount} (cs : list category_doc) (ts : list (transaction_doc amount))
    (goals : gmap string (settings_doc amount)) : firestore amount :=
  {| categories := cs; transactions := ts; settings := goals;
     unavailable := λ _, false |}.

(** One custom category, three transactions under it, and others. *)
Definition viajes : firestore float :=
  store [custom "u2" "Mascotas"; custom "u1" "Viajes"]
        [expense "u1" "Viajes" 120%float (date 2024 2 3);
         expense "u1" "Comida" 45%float (date 2024 2 9);
         expense "u2" "Viajes" 80%float (date 2024 2 11);
         expense "u1" "Viajes" 60%float (date 2024 3 1);
         expense "u1" "Viajes" 15%float (date 2024 3 20)]
        ∅.


(** Transactions under a category that has no category document. *)
Definition unregistered : firestore float :=
  store [] [expense "u1" "Viajes" 120%float (date 2024 2 3);
            expense "u1" "Viajes" 60%float (date 2024 3 1)] ∅.

(** A category with transactions in one month only. *)
Definition one_month : firestore float :=
  store [] [expense "u1" "Comida" 60%float (date 2024 3 2);
            expense "u1" "Renta" 400%float (date 2024 2 1);
            expense "u1" " comida" 40%float (date 2024 3 28);
            expense "u1" "Renta" 410%float (date 2024 3 1)] ∅.

(** Expenses of March 2024 and a goal of 500. *)
Definition march : firestore float :=
  store [] [expense "u1" "Comida" 350%float (date 2024 3 2);
            expense "u1" "Renta" 400%float (date 2024 3 5);
            expense "u1" "Comida" 900%float (date 2024 2 27);
            expense "u1" "comida " 250%float (date 2024 3 9)]
        {[ "u1" := {| s_monthlyGoal := Some 500%float |} ]}.

(** No transaction at all and a negative goal. *)
Definition negative_goal : firestore float :=
  store [] [] {[ "u1" := {| s_monthlyGoal := Some (-1)%float |} ]}.

(** [march], with the [transactions] collection out of reach. *)
Definition unreachable : firestore float :=
  {| categories := []; transactions := transactions march;
     settings := settings march;
     unavailable := λ c, match c with Transactions => true | _ => false end |}.

End Sample.

(** ** Notions used in the statements on the other views *)

(** [s.isascii()].  On such strings [PyStr.strip] and [PyStr.title] are
    the methods of Python, which know more white space and more letters on
    the other strings; the statements that rest on what normalisation does
    to a name are made for ASCII names. *)
Fixpoint isascii (s : string) : bool :=
  match s with
  | EmptyString => true
  | String c s' => (PyStr.ord c <? 128)%nat && isascii s'
  end.

(** [not s.strip()] on an ASCII string: [s] is made of white space
    only. *)
Fixpoint blank (s : string) : bool :=
  match s with
  | EmptyString => true
  | String c s' => PyStr.isspace c && blank s'
  end.

(** An ASCII name that normalisation leaves as it is. *)
Definition plain (n : string) : Prop := isascii n = true ∧ normalize n = n.

(** Every stored category name is plain. *)
Definition names_plain {amount} (st : firestore amount) : Prop :=
  ∀ d n, d ∈ categories st → c_name d = Some n → plain n.

(** Every stored category of a transaction is plain. *)
Definition categories_plain {amount} (st : firestore amount) : Prop :=
  ∀ d c, d ∈ transactions st → t_category d = Some c → plain c.

(** ** More sample stores *)

Module Cases.

(** [Sample.viajes], with the [transactions] collection out of reach. *)
Definition half_down : firestore float :=
  {| categories := categories Sample.viajes;
     transactions := transactions Sample.viajes;
     settings := settings Sample.viajes;
     unavailable := λ c, match c with Transactions => true | _ => false end |}.

(** The transactions of ["u1"] in [Sample.viajes], among a transfer of
    ["u1"] and an income of ["u3"]. *)
Definition mixed : firestore float :=
  Sample.store []
    [Sample.expense "u1" "Viajes" 120%float (Sample.date 2024 2 3);
     {| t_userId := "u1"; t_type := Some "transfer"; t_amount := Some 300%float;
        t_category := Some "Ahorro"; t_description := ""; t_date := Sample.date 2024 2 5 |};
     Sample.expense "u1" "Comida" 45%float (Sample.date 2024 2 9);
     {| t_userId := "u3"; t_type := Some "income"; t_amount := Some 1000%float;
        t_category := None; t_description := ""; t_date := Sample.date 2024 2 10 |};
     Sample.expense "u1" "Viajes" 60%float (Sample.date 2024 3 1);
     Sample.expense "u1" "Viajes" 15%float (Sample.date 2024 3 20)]
    ∅.



End Cases.

(** The fields of a transaction other than its category. *)
Definition without_category {amount} (d : transaction_doc amount)
  : string * option string * option amount * string * datetime :=
  (t_userId d, t_type d, t_amount d, t_description d, t_date d).

(** ** TransactionLedger: the views on transactions

    [add_transaction], [get_latest_transactions], [get_balance],
    [generar_pdf_real] and [download_report]. *)

(** [d.strftime("%Y-%m-%d")], for the years 1000 to 9999. *)
Definition strftime_Ymd (d : datetime) : string :=
  strftime_Ym d +:+ "-" +:+ two_digits (day d).

(** [letter]: the page is 612 points wide and 792 points high.  The
    heights that the source computes from it are floats with integer
    values, which are written as integers here. *)
Definition height : Z := 792.

(** A JSON value that a view handles as text: a string, or a value of
    another type ([null], a number, a list, an object), on which a method
    of [str] raises. *)
Inductive entry := Text (s : string) | Other.

Definition text_of (e : entry) : option string :=
  match e with Text s => Some s | Other => None end.

Section TransactionLedger.

Context {amount : Type}.

(** The JSON body of [add_transaction]: an object, with [None] for a key
    that it lacks.  The entries ["category"] and ["date"], which the view
    handles as text, are any JSON value; the entry ["amount"] is any JSON
    value, of the type [raw]; the entries ["type"] and ["description"],
    which are stored as they are, are taken as strings. *)
Context {raw : Type}.

Record transaction_body := {
  b_type : option string;
  b_amount : option raw;
  b_category : option entry;
  b_description : option string;
  b_date : option entry
}.

(** [float(x)] on the amount of a body and
    [datetime.strptime(s, "%Y-%m-%d")]: [None] when the call raises. *)
Context (to_float : raw → option amount) (strptime_Ymd : string → option datetime).

(** The float operations of the ledger: [0.0], [+] and [-]. *)
Context (azero : amount) (aplus aminus : amount → amount → amount).

Definition required_fields : list string :=
  ["type"; "amount"; "category"; "description"; "date"].

(** [field in data] *)
Definition has_field (data : transaction_body) (field : string) : bool :=
  if decide (field = "type") then bool_decide (is_Some (b_type data))
  else if decide (field = "amount") then bool_decide (is_Some (b_amount data))
  else if decide (field = "category") then bool_decide (is_Some (b_category data))
  else if decide (field = "description") then bool_decide (is_Some (b_description data))
  else if decide (field = "date") then bool_decide (is_Some (b_date data))
  else false.

(** [data[k]], [float(x)], [strptime(s, f)], [x.strip()]: the value, or an
    exception. *)
Definition or_raise {A} (x : option A) : M amount A :=
  λ db, (match x with Some a => Return a | None => Raise end, db).

(** [db.collection("transactions").add(doc)] *)
Definition add_transaction_ref (doc : transaction_doc amount) : M amount unit :=
  on_collection Transactions (λ st, (tt, with_transactions (transactions st ++ [doc]) st)).

(** [POST /api/transactions/<user_id>], with [data] the JSON body. *)
Definition add_transaction (user_id : string) (data : transaction_body)
    (db : option (firestore amount)) : response amount * option (firestore amount) :=
  if db is None then (db_is_None, db)
  else
    try_except
      (match list_find (λ field, has_field data field = false) required_fields with
       | Some (_, field) => mret (Body_error ("Falta campo " +:+ field), 400)
       | None =>
           raw_amount ← or_raise (b_amount data);
           amount ← or_raise (to_float raw_amount);
           raw_date ← or_raise (b_date data);
           date_text ← or_raise (text_of raw_date);
           date_obj ← or_raise (strptime_Ymd date_text);
           type ← or_raise (b_type data);
           raw_category ← or_raise (b_category data);
           category ← or_raise (text_of raw_category);
           description ← or_raise (b_description data);
           let transaction_doc :=
             {| t_userId := user_id; t_type := Some type; t_amount := Some amount;
                t_category := Some (normalize category);
                t_description := description; t_date := date_obj |} in
           add_transaction_ref transaction_doc;;
           mret (Body_status "Transacción guardada ✅", 201)
       end)
      (Body_error "Fallo interno del servidor", 500) db.

(** An element of the list that [get_latest_transactions] answers with:
    the data of a document, its id, and its date as a string. *)
Record transaction_json := {
  j_id : nat;
  j_userId : string;
  j_type : option string;
  j_amount : option amount;
  j_category : option string;
  j_description : string;
  j_date : string
}.

(** A row of the listing of the PDF report. *)
Record movimiento := {
  fecha : string;
  cat : string;
  monto : amount;
  tipo : string
}.

(** What [generar_pdf_real] draws: the user, the totals of the summary,
    and the rows of the listing, each with the page (counted from 0) and
    the height it is drawn at.  Fonts, colours, rules, column headers and
    the date of issue are left out. *)
Record pdf := {
  pdf_user : string;
  pdf_ingresos : amount;
  pdf_gastos : amount;
  pdf_balance : amount;
  pdf_rows : list (nat * Z * movimiento)
}.

(** The bodies of the views on transactions; [Body_pdf] is the file that
    [send_file] sends, without its name. *)
Inductive ledger_json :=
| Body_transactions (entries : list transaction_json)
| Body_balance (current_balance : amount)
| Body_pdf (file : pdf)
| Body_failure (error : string).

Definition ledger_response : Type := ledger_json * nat.

(** [d1 >= d2] on the dates of two snapshots. *)
Definition newer (a b : nat * transaction_doc amount) : Prop :=
  datetime_geb (t_date a.2) (t_date b.2) = true.

#[global] Instance newer_dec a b : Decision (newer a b).
Proof. unfold newer. apply _. Defined.

(** [.order_by("date", direction=firestore.Query.DESCENDING)]: the most
    recent first.  Every document of the model has a date.  The store
    orders the documents of one date by their ids, which the model does not
    hold: it keeps them in stream order, and the statements do not depend
    on the order among them. *)
Definition order_by_date_descending (q : M amount (list (nat * transaction_doc amount)))
  : M amount (list (nat * transaction_doc amount)) :=
  l ← q; mret (merge_sort newer l).

(** The entry that the loop of [get_latest_transactions] makes of a
    snapshot: [doc.to_dict()] with [doc.id] and the date as a string. *)
Definition entry_of (doc : nat * transaction_doc amount) : transaction_json :=
  let data := doc.2 in
  {| j_id := doc.1; j_userId := t_userId data; j_type := t_type data;
     j_amount := t_amount data; j_category := t_category data;
     j_description := t_description data;
     j_date := strftime_Ymd (t_date data) |}.

(** [GET /api/transactions/<user_id>/latest], with [limit_arg] the value
    of [int(request.args.get("limit", 5))], a natural number. *)
Definition get_latest_transactions (user_id : string) (limit_arg : nat)
    (db : option (firestore amount)) : ledger_response * option (firestore amount) :=
  if db is None then ((Body_failure "Firestore no inicializado", 500), db)
  else
    try_except
      (transactions_ref ←
         limit limit_arg
           (order_by_date_descending
              (stream_transactions (λ d, bool_decide (t_userId d = user_id))));
       let transactions :=
         foldl (λ transactions doc, transactions ++ [entry_of doc]) [] transactions_ref in
       mret (Body_transactions transactions, 200))
      (Body_failure "Error al obtener transacciones", 500) db.

(** One turn of the loop of [get_balance]. *)
Definition balance_step (balance : amount) (doc : nat * transaction_doc amount) : amount :=
  let data := doc.2 in
  let amount := default azero (t_amount data) in
  if bool_decide (t_type data = Some "income") then aplus balance amount
  else if bool_decide (t_type data = Some "expense") then aminus balance amount
  else balance.

(** [GET /api/balance/<user_id>] *)
Definition get_balance (user_id : string)
    (db : option (firestore amount)) : ledger_response * option (firestore amount) :=
  if db is None then ((Body_failure "Firestore no inicializado", 500), db)
  else
    try_except
      (transactions ← stream_transactions (λ d, bool_decide (t_userId d = user_id));
       let balance := foldl balance_step azero transactions in
       mret (Body_balance balance, 200))
      (Body_failure "Fallo interno del servidor", 500) db.

(** One turn of the first loop of [generar_pdf_real], over the streamed
    documents. *)
Definition movimientos_step (acc : list movimiento * amount * amount)
    (doc : nat * transaction_doc amount) : list movimiento * amount * amount :=
  let '(lista_movimientos, total_ingresos, total_gastos) := acc in
  let data := doc.2 in
  let monto := default azero (t_amount data) in
  let tipo := default "expense" (t_type data) in
  let categoria := normalize (default "Varios" (t_category data)) in
  let fecha_str := strftime_Ymd (t_date data) in
  let '(total_ingresos, total_gastos) :=
    if bool_decide (tipo = "income") then (aplus total_ingresos monto, total_gastos)
    else if bool_decide (tipo = "expense") then (total_ingresos, aplus total_gastos monto)
    else (total_ingresos, total_gastos) in
  (lista_movimientos ++ [{| fecha := fecha_str; cat := categoria; monto := monto;
                            tipo := tipo |}],
   total_ingresos, total_gastos).

(** One turn of the second loop of [generar_pdf_real], which draws the
    rows: [page] counts the calls of [showPage], and [y] is the height of
    the next row. *)
Definition draw_step (acc : list (nat * Z * movimiento) * nat * Z)
    (mov : movimiento) : list (nat * Z * movimiento) * nat * Z :=
  let '(drawn, page, y) := acc in
  let '(page, y) :=
    if (y <? 50)%Z then (S page, (height - 50 - 20)%Z) else (page, y) in
  (drawn ++ [(page, y, mov)], page, (y - 15)%Z).

Definition draw_rows (lista_movimientos : list movimiento) : list (nat * Z * movimiento) :=
  (foldl draw_step ([], 0, (height - 200 - 20)%Z) lista_movimientos).1.1.

(** [generar_pdf_real(user_id)]: [None], or the report. *)
Definition generar_pdf_real (user_id : string)
    (db : option (firestore amount)) : option pdf * option (firestore amount) :=
  if db is None then (None, db)
  else
    try_except
      (transactions_ref ← stream_transactions (λ d, bool_decide (t_userId d = user_id));
       let '(lista_movimientos, total_ingresos, total_gastos) :=
         foldl movimientos_step ([], azero, azero) transactions_ref in
       let balance_total := aminus total_ingresos total_gastos in
       mret (Some {| pdf_user := user_id; pdf_ingresos := total_ingresos;
                     pdf_gastos := total_gastos; pdf_balance := balance_total;
                     pdf_rows := draw_rows lista_movimientos |}))
      None db.

(** [GET /api/reports/download], with [user_id] the query parameter (the
    empty string when absent). *)
Definition download_report (user_id : string)
    (db : option (firestore amount)) : ledger_response * option (firestore amount) :=
  if db is None then ((Body_failure "Firestore no inicializado", 500), db)
  else if negb (PyStr.truthy user_id)
  then ((Body_failure "user_id requerido", 400), db)
  else
    try_except
      (pdf_bytes ← (λ db, let '(file, db') := generar_pdf_real user_id db in
                          (Return file, db'));
       match pdf_bytes with
       | None =>
           mret (Body_failure "Error interno al generar el PDF o datos no encontrados", 500)
       | Some file => mret (Body_pdf file, 200)
       end)
      (Body_failure "Fallo interno al procesar el PDF", 500) db.

End TransactionLedger.

Arguments transaction_body : clear implicits.
Arguments transaction_json : clear implicits.
Arguments movimiento : clear implicits.
Arguments pdf : clear implicits.
Arguments ledger_json : clear implicits.
Arguments ledger_response : clear implicits.

(** ** Notions used in the statements on the views on transactions *)

Section LedgerNotions.

Context {amount raw : Type}.
Context (to_float : raw → option amount) (strptime_Ymd : string → option datetime).

(** The document that [add_transaction] makes of a body for [user_id]:
    none when an entry is absent, when the category or the date is no
    string, or when the amount or the date does not parse. *)
Definition document_of (user_id : string) (data : transaction_body raw)
  : option (transaction_doc amount) :=
  type ← b_type data;
  raw_amount ← b_amount data;
  amount ← to_float raw_amount;
  raw_category ← b_category data;
  category ← text_of raw_category;
  description ← b_description data;
  raw_date ← b_date data;
  date_text ← text_of raw_date;
  date_obj ← strptime_Ymd date_text;
  Some {| t_userId := user_id; t_type := Some type; t_amount := Some amount;
          t_category := Some (normalize category);
          t_description := description; t_date := date_obj |}.

End LedgerNotions.

(** The page and the height of the row number [i] of the listing of the
    PDF report, counted from 0: 35 rows on the first page and 45 rows on
    each of the following ones, 15 points apart. *)
Definition row_page (i : nat) : nat :=
  if decide (i < 35)%nat then 0%nat else S ((i - 35) / 45)%nat.

Definition row_height (i : nat) : Z :=
  if decide (i < 35)%nat then (572 - 15 * Z.of_nat i)%Z
  else (722 - 15 * Z.of_nat ((i - 35) mod 45))%Z.

(** ** Sample requests *)

Module Requests.

(** [a - b] at binary64 floats. *)
Definition sub (a b : float) : float := PrimFloat.sub a b.

(** [float(x)] on a JSON number. *)
Definition to_float (x : float) : option float := Some x.

(** [datetime.strptime(s, "%Y-%m-%d")], restricted to the dates of the
    sample requests: every other string is taken as one that does not
    parse. *)
Definition strptime_Ymd (s : string) : option datetime :=
  if decide (s = "2024-04-02") then Some (Sample.date 2024 4 2)
  else if decide (s = "2024-03-15") then Some (Sample.date 2024 3 15)
  else None.

(** A complete body. *)
Definition taxi : transaction_body float :=
  {| b_type := Some "expense"; b_amount := Some 85%float;
     b_category := Some (Text " taxi "); b_description := Some "Aeropuerto";
     b_date := Some (Text "2024-04-02") |}.

(** A body that lacks its category and its date. *)
Definition incomplete : transaction_body float :=
  {| b_type := Some "expense"; b_amount := Some 85%float;
     b_category := None; b_description := Some "Aeropuerto";
     b_date := None |}.

End Requests.

(** * Properties *)

(** ** The order on names *)

Lemma ascii_compare_refl c : Ascii.compare c c = Eq.
Proof. unfold Ascii.compare. apply N.compare_refl. Qed.

Lemma string_compare_refl s : String.compare s s = Eq.
Proof. induction s as [|c s IH]; simpl; [done|]. by rewrite ascii_compare_refl. Qed.

Lemma string_compare_trans c s1 s2 s3 :
  String.compare s1 s2 = c → String.compare s2 s3 = c → String.compare s1 s3 = c.
Proof.
  revert s2 s3. induction s1 as [|c1 s1 IH]; intros [|c2 s2] [|c3 s3]; simpl;
    try congruence.
  unfold Ascii.compare.
  destruct (N.compare_spec (N_of_ascii c1) (N_of_ascii c2)) as [E12|L12|G12],
           (N.compare_spec (N_of_ascii c2) (N_of_ascii c3)) as [E23|L23|G23];
    try congruence.
  - rewrite E12, E23, N.compare_refl. apply IH.
  - intros _ <-. rewrite E12. by apply N.compare_lt_iff in L23 as ->.
  - intros _ <-. rewrite E12. by apply N.compare_gt_iff in G23 as ->.
  - intros <- _. rewrite <- E23. by apply N.compare_lt_iff in L12 as ->.
  - intros <- _. assert (N_of_ascii c1 < N_of_ascii c3)%N as L13 by lia.
    by apply N.compare_lt_iff in L13 as ->.
  - intros <- _. rewrite <- E23. by apply N.compare_gt_iff in G12 as ->.
  - intros <- _. assert (N_of_ascii c3 < N_of_ascii c1)%N as G13 by lia.
    by apply N.compare_gt_iff in G13 as ->.
Qed.

#[global] Instance PyStr_le_total : Total PyStr.le.
Proof. intros a b. apply String.leb_total. Qed.

#[global] Instance PyStr_le_antisym : AntiSymm (=) PyStr.le.
Proof. intros a b. apply String.leb_antisym. Qed.

#[global] Instance PyStr_le_refl : Reflexive PyStr.le.
Proof. intros a. unfold PyStr.le, String.leb. by rewrite string_compare_refl. Qed.

#[global] Instance PyStr_le_trans : Transitive PyStr.le.
Proof.
  intros a b c. unfold PyStr.le, String.leb.
  destruct (String.compare a b) eqn:Hab; [| |done].
  - apply String.compare_eq_iff in Hab as ->. done.
  - intros _. destruct (String.compare b c) eqn:Hbc; [| |done]; intros _.
    + apply String.compare_eq_iff in Hbc as <-. by rewrite Hab.
    + by rewrite (string_compare_trans Lt a b c).
Qed.

(** ** Normalisation *)

Lemma upper_upper c : PyStr.upper (PyStr.upper c) = PyStr.upper c.
Proof. by destruct c as [[] [] [] [] [] [] [] []]. Qed.

Lemma lower_lower c : PyStr.lower (PyStr.lower c) = PyStr.lower c.
Proof. by destruct c as [[] [] [] [] [] [] [] []]. Qed.

Lemma iscased_upper c : PyStr.iscased (PyStr.upper c) = PyStr.iscased c.
Proof. by destruct c as [[] [] [] [] [] [] [] []]. Qed.

Lemma iscased_lower c : PyStr.iscased (PyStr.lower c) = PyStr.iscased c.
Proof. by destruct c as [[] [] [] [] [] [] [] []]. Qed.

Lemma isspace_upper c : PyStr.isspace (PyStr.upper c) = PyStr.isspace c.
Proof. by destruct c as [[] [] [] [] [] [] [] []]. Qed.

Lemma isspace_lower c : PyStr.isspace (PyStr.lower c) = PyStr.isspace c.
Proof. by destruct c as [[] [] [] [] [] [] [] []]. Qed.

Lemma title_from_idemp b s :
  PyStr.title_from b (PyStr.title_from b s) = PyStr.title_from b s.
Proof.
  revert b. induction s as [|c s IH]; intros b; simpl; [done|].
  destruct b; by rewrite ?lower_lower, ?upper_upper, ?iscased_lower, ?iscased_upper, IH.
Qed.

(** A string that [strip] leaves alone: it neither starts nor ends with
    white space. *)
Lemma lstrip_head s :
  match PyStr.lstrip s with
  | String c _ => PyStr.isspace c = false
  | EmptyString => True
  end.
Proof.
  induction s as [|c s IH]; simpl; [done|].
  destruct (PyStr.isspace c) eqn:Hc; [done|]. done.
Qed.

Lemma lstrip_fixed c s : PyStr.isspace c = false → PyStr.lstrip (String c s) = String c s.
Proof. intros Hc. simpl. by rewrite Hc. Qed.

Lemma rstrip_title_from b s :
  PyStr.rstrip (PyStr.title_from b s) = PyStr.title_from b (PyStr.rstrip s).
Proof.
  revert b. induction s as [|c s IH]; intros b; simpl; [done|].
  rewrite IH. destruct (PyStr.rstrip s) as [|c' r] eqn:Hr; simpl.
  - destruct b; rewrite ?isspace_lower, ?isspace_upper; by destruct (PyStr.isspace c).
  - done.
Qed.

Lemma rstrip_idemp s : PyStr.rstrip (PyStr.rstrip s) = PyStr.rstrip s.
Proof.
  induction s as [|c s IH]; simpl; [done|].
  destruct (PyStr.rstrip s) as [|c' r] eqn:Hr; simpl.
  - destruct (PyStr.isspace c) eqn:Hc; simpl; [done|]. by rewrite Hc.
  - simpl in IH. by rewrite IH.
Qed.

Lemma rstrip_head s c :
  PyStr.isspace c = false →
  ∀ r, PyStr.rstrip (String c s) = r → ∃ r', r = String c r'.
Proof. intros Hc r <-. simpl. destruct (PyStr.rstrip s); rewrite ?Hc; eauto. Qed.

Lemma strip_idemp s : PyStr.strip (PyStr.strip s) = PyStr.strip s.
Proof.
  unfold PyStr.strip. pose proof (lstrip_head s) as Hh.
  destruct (PyStr.lstrip s) as [|c t] eqn:Hl; [done|].
  destruct (rstrip_head t c Hh _ eq_refl) as [r' Hr]. rewrite Hr.
  rewrite lstrip_fixed by done. by rewrite <- Hr, rstrip_idemp.
Qed.

Lemma lstrip_title s :
  PyStr.lstrip (PyStr.title s) = PyStr.title (PyStr.lstrip s).
Proof.
  unfold PyStr.title. induction s as [|c s IH]; simpl; [done|].
  rewrite isspace_upper. destruct (PyStr.isspace c) eqn:Hc; [|done].
  assert (PyStr.iscased c = false) as ->; [|done].
  by destruct c as [[] [] [] [] [] [] [] []].
Qed.

Lemma strip_title s : PyStr.strip (PyStr.title s) = PyStr.title (PyStr.strip s).
Proof. unfold PyStr.strip. rewrite lstrip_title. apply rstrip_title_from. Qed.

(** [normalize] is idempotent: a normalised name is left as it is. *)
Lemma normalize_idemp raw : normalize (normalize raw) = normalize raw.
Proof.
  unfold normalize. rewrite strip_title, strip_idemp. apply title_from_idemp.
Qed.

(** ** Sorting and removing *)

Lemma sorted_StronglySorted l : StronglySorted PyStr.le (sorted l).
Proof. apply (StronglySorted_merge_sort _). Qed.

Lemma sorted_Permutation l : sorted l ≡ₚ l.
Proof. apply merge_sort_Permutation. Qed.

Lemma elem_of_list_remove_sub x y l : y ∈ list_remove x l → y ∈ l.
Proof.
  induction l as [|z l IH]; simpl; [done|].
  case_decide; [by right|]. intros [->|Hy]%elem_of_cons; [by left|]. right. by apply IH.
Qed.

Lemma elem_of_list_remove x y l : y ≠ x → y ∈ list_remove x l ↔ y ∈ l.
Proof.
  intros Hne. induction l as [|z l IH]; simpl; [done|].
  case_decide as Hx.
  - subst z. rewrite elem_of_cons. split; [by right|]. by intros [?|?].
  - by rewrite !elem_of_cons, IH.
Qed.

Lemma list_remove_NoDup x l : NoDup l → NoDup (list_remove x l) ∧ x ∉ list_remove x l.
Proof.
  induction 1 as [|z l Hz Hl IH]; simpl.
  - split; [constructor | apply not_elem_of_nil].
  - case_decide as Hx; [by subst|].
    destruct IH as [IH1 IH2]. split.
    + constructor; [|done]. intros Hin. by apply Hz, elem_of_list_remove_sub with x.
    + intros [?|?]%elem_of_cons; done.
Qed.

Lemma list_remove_StronglySorted x l :
  StronglySorted PyStr.le l → StronglySorted PyStr.le (list_remove x l).
Proof.
  induction 1 as [|z l Hl IH Hz]; simpl; [constructor|].
  case_decide; [done|]. constructor; [done|].
  rewrite Forall_forall in Hz |- *. intros y Hy. by apply Hz, elem_of_list_remove_sub with x.
Qed.

(** ** Querying *)

Section Where.

Context {D : Type} (p : D → bool).

Lemma elem_of_where_ (l : list D) i d :
  (i, d) ∈ where_ p l ↔ l !! i = Some d ∧ p d.
Proof.
  unfold where_. rewrite list_elem_of_filter, elem_of_lookup_imap. simpl. split.
  - intros [Hp (j & y & [= -> ->] & Hl)]. done.
  - intros [Hl Hp]. split; [done|]. by exists i, d.
Qed.

Lemma where_data_from (g : nat → D → nat * D) (l : list D) :
  (∀ i d, (g i d).2 = d) →
  (filter (λ s, p s.2) (imap g l)).*2 = filter (λ d, p d) l.
Proof.
  revert g. induction l as [|d l IH]; intros g Hg; [done|].
  rewrite imap_cons, !filter_cons. rewrite Hg.
  destruct (decide (p d)); simpl; rewrite IH by (intros; apply Hg); by rewrite ?Hg.
Qed.

(** The data of the streamed documents are the matching documents, in
    the order of the collection. *)
Lemma where_data (l : list D) : (where_ p l).*2 = filter (λ d, p d) l.
Proof. by apply where_data_from. Qed.

Lemma where_length (l : list D) : length (where_ p l) = length (filter (λ d, p d) l).
Proof. by rewrite <- where_data, length_fmap. Qed.

End Where.

(** ** CategoryRegistry *)

Section Registry.

Context {amount : Type}.
Implicit Types (st : firestore amount) (user_id : string).

(** Where ['Otros'] ends up, whatever the sorted list. *)
Lemma otros_last (result : list string) :
  StronglySorted PyStr.le result → NoDup result →
  ∃ before,
    (if bool_decide (OTROS ∈ result)
     then list_remove OTROS result ++ [OTROS] else result ++ [OTROS]) = before ++ [OTROS]
    ∧ StronglySorted PyStr.le before ∧ NoDup (before ++ [OTROS])
    ∧ ∀ x, x ∈ before ↔ x ∈ result ∧ x ≠ OTROS.
Proof.
  intros Hs Hn. case_bool_decide as Hin.
  - exists (list_remove OTROS result).
    destruct (list_remove_NoDup OTROS result Hn) as [Hn' Hout].
    split_and!; [done|by apply list_remove_StronglySorted| |].
    + apply NoDup_app. split_and!; [done| |apply NoDup_singleton].
      intros x Hx ->%list_elem_of_singleton. done.
    + intros x. destruct (decide (x = OTROS)) as [->|Hne].
      * split; [done|]. by intros [_ ?].
      * rewrite elem_of_list_remove by done. naive_solver.
  - exists result. split_and!; [done..| |].
    + apply NoDup_app. split_and!; [done| |apply NoDup_singleton].
      intros x Hx ->%list_elem_of_singleton. done.
    + intros x. split; [|naive_solver]. intros Hx. split; [done|]. by intros ->.
Qed.

(** The set that the loop over the category documents builds. *)
Lemma elem_of_all_categories (docs : list (nat * category_doc)) (acc : gset string) x :
  x ∈ foldl (λ acc doc,
               match c_name doc.2 with
               | Some category_name =>
                   if PyStr.truthy category_name then acc ∪ {[category_name]} else acc
               | None => acc
               end) acc docs
  ↔ x ∈ acc ∨ ∃ doc, doc ∈ docs ∧ c_name doc.2 = Some x ∧ PyStr.truthy x = true.
Proof.
  revert acc. induction docs as [|doc docs IH]; intros acc; simpl.
  - split; [by left|]. intros [?|(doc & Hdoc & _)]; [done|]. by apply elem_of_nil in Hdoc.
  - rewrite IH. split.
    + intros [Hacc|(doc' & Hin & Hn & Ht)].
      * destruct (c_name doc.2) as [n|] eqn:Hn; [|by left].
        destruct (PyStr.truthy n) eqn:Ht; [|by left].
        apply elem_of_union in Hacc as [?|Hx]; [by left|].
        apply elem_of_singleton in Hx as ->.
        right. exists doc. split_and!; [left|done|done].
      * right. exists doc'. split_and!; [by right|done|done].
    + intros [Hacc|(doc' & Hin & Hn & Ht)].
      * left. destruct (c_name doc.2) as [n|]; [|done].
        destruct (PyStr.truthy n); [|done]. apply elem_of_union. by left.
      * apply elem_of_cons in Hin as [->|Hin].
        -- left. rewrite Hn, Ht. apply elem_of_union. right. by apply elem_of_singleton.
        -- right. by exists doc'.
Qed.

Lemma elem_of_custom_names st user_id x :
  x ∈ custom_names st user_id ↔
  PyStr.truthy x = true ∧ ∃ d, d ∈ categories st ∧ names_category user_id x d.
Proof.
  unfold custom_names, names_category. rewrite list_elem_of_omap. split.
  - intros (d & Hd & Hx). case_bool_decide; [|done].
    destruct (c_name d) as [n|] eqn:Hn; [|done].
    destruct (PyStr.truthy n) eqn:Ht; [|done]. injection Hx as ->. eauto.
  - intros (Ht & d & Hd & Hu & Hn). exists d. split; [done|].
    rewrite bool_decide_eq_true_2, Hn, Ht; done.
Qed.

(** What [_get_user_categories] computes on a store whose [categories]
    collection answers. *)
Lemma get_user_categories_run st user_id :
  unavailable st Categories = false →
  ∃ before,
    _get_user_categories user_id (Some st) = (Return (before ++ [OTROS]), Some st)
    ∧ StronglySorted PyStr.le before
    ∧ NoDup (before ++ [OTROS])
    ∧ ∀ x, x ∈ before ↔
           (x ∈ DEFAULT_CATEGORIES ∨ x ∈ custom_names st user_id) ∧ x ≠ OTROS.
Proof.
  intros Hup.
  unfold _get_user_categories, stream_categories, on_collection, mbind, M_bind, mret, M_ret.
  rewrite Hup.
  set (docs := where_ _ (categories st)).
  set (all_categories := foldl _ _ docs).
  destruct (otros_last (sorted (elements all_categories))) as (before & -> & Hs & Hn & Hb).
  { apply sorted_StronglySorted. }
  { rewrite sorted_Permutation. apply NoDup_elements. }
  exists before. split_and!; [done..|].
  intros x. rewrite Hb, sorted_Permutation, elem_of_elements.
  unfold all_categories. rewrite elem_of_all_categories, elem_of_list_to_set.
  rewrite elem_of_custom_names.
  assert ((∃ doc, doc ∈ docs ∧ c_name doc.2 = Some x ∧ PyStr.truthy x = true) ↔
          (PyStr.truthy x = true ∧ ∃ d, d ∈ categories st ∧ names_category user_id x d))
    as ->; [|done].
  unfold docs, names_category. split.
  - intros ([i d] & Hin & Hname & Ht). apply elem_of_where_ in Hin as [Hl Hp].
    apply bool_decide_unpack in Hp. split; [done|]. exists d.
    split_and!; [by eapply list_elem_of_lookup_2|done..].
  - intros (Ht & d & Hd & Hu & Hname). apply list_elem_of_lookup in Hd as [i Hi].
    exists (i, d). split_and!; [|done..]. apply elem_of_where_. split; [done|].
    by apply bool_decide_pack.
Qed.

End Registry.

(** C1. On a store whose [categories] collection answers, the list that
    [_get_user_categories] returns ends with ['Otros'], holds no name
    twice, and is sorted in ascending order before ['Otros']. *)
Theorem list_categories_otros_last {amount} (st : firestore amount) (user_id : string) :
  unavailable st Categories = false →
  ∃ before,
    _get_user_categories user_id (Some st) = (Return (before ++ [OTROS]), Some st)
    ∧ last (before ++ [OTROS]) = Some OTROS
    ∧ NoDup (before ++ [OTROS])
    ∧ StronglySorted PyStr.le before.
Proof.
  intros Hup. destruct (get_user_categories_run st user_id Hup) as (before & Hrun & Hs & Hn & _).
  exists before. split_and!; [done| |done..]. apply last_snoc.
Qed.

Lemma list_categories_otros_last_witness :
  unavailable Sample.viajes Categories = false ∧
  ∃ before,
    _get_user_categories "u1" (Some Sample.viajes)
    = (Return (before ++ [OTROS]), Some Sample.viajes)
    ∧ last (before ++ [OTROS]) = Some OTROS
    ∧ NoDup (before ++ [OTROS])
    ∧ StronglySorted PyStr.le before.
Proof.
  split; [reflexivity|]. apply (list_categories_otros_last Sample.viajes "u1"). reflexivity.
Defined.





(** ** Running computations *)

Section Runs.

Context {amount : Type}.
Implicit Types (st : firestore amount) (db : option (firestore amount)).

Lemma mbind_Return {A B} (m : M amount A) (k : A → M amount B) db a db' :
  m db = (Return a, db') → (m ≫= k) db = k a db'.
Proof. intros Hm. unfold mbind, M_bind. by rewrite Hm. Qed.

Lemma truthy_iff (s : string) : PyStr.truthy s = true ↔ s ≠ "".
Proof. destruct s; simpl; split; congruence. Qed.

(** The queue of a batch: one update for each streamed document. *)
Lemma queue_updates_eq (c : string) (docs : list (nat * transaction_doc amount)) :
  queue_updates c docs = ((λ s, (s.1, c)) <$> docs, length docs).
Proof.
  unfold queue_updates.
  assert (∀ batch n,
    foldl (λ bc (transaction_doc : nat * transaction_doc amount),
             (bc.1 ++ [(transaction_doc.1, c)], S bc.2)) (batch, n) docs
    = (batch ++ ((λ s, (s.1, c)) <$> docs), n + length docs)) as H.
  { induction docs as [|d docs IH]; intros batch n; simpl.
    - by rewrite app_nil_r, Nat.add_0_r.
    - rewrite IH. simpl. by rewrite <- app_assoc, Nat.add_succ_r. }
  apply H.
Qed.

(** The effect of a committed batch on one document. *)
Lemma lookup_commit (c : string) (refs : list nat) (l : list (transaction_doc amount)) i :
  foldl (λ l w, alter (set_category w.2) w.1 l) l ((λ r, (r, c)) <$> refs) !! i
  = if decide (i ∈ refs) then set_category c <$> l !! i else l !! i.
Proof.
  revert l. induction refs as [|r refs IH]; intros l; simpl.
  - done.
  - rewrite IH. destruct (decide (i = r)) as [->|Hne].
    + rewrite list_lookup_alter. rewrite (decide_True _ _ (list_elem_of_here r refs)).
      rewrite (decide_True (P := r = r)) by done.
      case_decide; [|done]. by destruct (l !! r).
    + rewrite list_lookup_alter_ne by done.
      destruct (decide (i ∈ refs)) as [Hin|Hout].
      * by rewrite decide_True by (by right).
      * rewrite decide_False; [done|]. intros [?|?]%elem_of_cons; done.
Qed.

(** Committing the batch queued for the documents that match [p] moves
    exactly these documents. *)
Lemma commit_where (p : transaction_doc amount → bool) (c : string)
    (l : list (transaction_doc amount)) :
  foldl (λ l w, alter (set_category w.2) w.1 l) l ((λ s, (s.1, c)) <$> where_ p l)
  = (λ d, if p d then set_category c d else d) <$> l.
Proof.
  replace ((λ s : nat * transaction_doc amount, (s.1, c)) <$> where_ p l)
    with ((λ r, (r, c)) <$> (where_ p l).*1) by (by rewrite <- list_fmap_compose).
  apply list_eq. intros i. rewrite lookup_commit, list_lookup_fmap.
  destruct (l !! i) as [d|] eqn:Hl; simpl.
  - destruct (p d) eqn:Hp.
    + rewrite decide_True; [done|]. apply list_elem_of_fmap. exists (i, d).
      split; [done|]. apply elem_of_where_. by rewrite Hp.
    + rewrite decide_False; [done|]. intros ([j d'] & -> & Hin)%list_elem_of_fmap.
      apply elem_of_where_ in Hin as [Hl' Hp']. simpl in *.
      rewrite Hl in Hl'. injection Hl' as <-. by rewrite Hp in Hp'.
  - by case_decide.
Qed.

(** The first streamed document is the first matching one. *)
Lemma take_1_where_from {D} (p : D → bool) (f : nat → nat) (l : list D) :
  take 1 (filter (λ s, p s.2) (imap (λ i d, (f i, d)) l))
  = option_list (prod_map f id <$> list_find (λ d, p d) l).
Proof.
  revert f. induction l as [|d l IH]; intros f; [done|].
  rewrite imap_cons, filter_cons. simpl.
  destruct (decide (p d)) as [Hp|Hp]; simpl.
  - done.
  - change (imap _ l) with (imap (λ i d0, ((f ∘ S) i, d0)) l). rewrite (IH (f ∘ S)).
    by destruct (list_find _ l) as [[??]|].
Qed.

Lemma take_1_where {D} (p : D → bool) (l : list D) :
  take 1 (where_ p l) = option_list (list_find (λ d, p d) l).
Proof.
  unfold where_. rewrite (take_1_where_from p id).
  by destruct (list_find _ l) as [[??]|].
Qed.

End Runs.

(** ** CategoryMutationService: the steps *)

Section Steps.

Context {amount : Type}.
Implicit Types (st : firestore amount) (user_id : string).

Lemma update_category_transactions_run st user_id old_name new_name :
  unavailable st Transactions = false →
  update_category_transactions user_id old_name new_name (Some st)
  = (Return (length (filter (in_category user_id old_name) (transactions st))),
     Some (with_transactions (reassigned user_id old_name new_name (transactions st)) st)).
Proof.
  intros Hup.
  unfold update_category_transactions, stream_transactions, batch_commit, on_collection,
    mbind, M_bind, mret, M_ret.
  rewrite Hup, queue_updates_eq, Hup, commit_where, where_length.
  f_equal.
  - do 2 f_equal. apply list_filter_iff. intros d. unfold in_category.
    by rewrite bool_decide_spec.
  - do 2 f_equal. apply list_fmap_ext. intros _ d _.
    unfold in_category. case_bool_decide; by case_decide.
Qed.

Lemma delete_category_transactions_run st user_id category_to_delete :
  unavailable st Transactions = false →
  delete_category_transactions user_id category_to_delete (Some st)
  = (Return (length (filter (in_category user_id category_to_delete) (transactions st))),
     Some (with_transactions
             (reassigned user_id category_to_delete OTROS (transactions st)) st)).
Proof. apply update_category_transactions_run. Qed.

Lemma stream_first_category st user_id name :
  unavailable st Categories = false →
  limit 1 (stream_categories
             (λ d, bool_decide (c_userId d = user_id ∧ c_name d = Some name))) (Some st)
  = (Return (option_list (list_find (names_category user_id name) (categories st))), Some st).
Proof.
  intros Hup. unfold limit, stream_categories, on_collection, mbind, M_bind, mret, M_ret.
  rewrite Hup, take_1_where. do 3 f_equal. apply list_find_ext. intros d.
  unfold names_category. by rewrite bool_decide_spec.
Qed.

Lemma update_category_doc_run st user_id old_name new_name :
  unavailable st Categories = false →
  update_category_doc user_id old_name new_name (Some st)
  = match list_find (names_category user_id old_name) (categories st) with
    | Some (i, _) =>
        (Return true, Some (with_categories (alter (set_name new_name) i (categories st)) st))
    | None => (Return false, Some st)
    end.
Proof.
  intros Hup. unfold update_category_doc.
  erewrite mbind_Return by (by apply stream_first_category).
  destruct (list_find _ _) as [[i d]|]; simpl; [|done].
  unfold update_category_ref, on_collection, mbind, M_bind, mret, M_ret. by rewrite Hup.
Qed.

Lemma delete_category_doc_run st user_id category_to_delete :
  unavailable st Categories = false →
  delete_category_doc user_id category_to_delete (Some st)
  = match list_find (names_category user_id category_to_delete) (categories st) with
    | Some (i, _) => (Return 1, Some (with_categories (delete i (categories st)) st))
    | None => (Return 0, Some st)
    end.
Proof.
  intros Hup. unfold delete_category_doc.
  erewrite mbind_Return by (by apply stream_first_category).
  destruct (list_find _ _) as [[i d]|]; simpl; [|done].
  unfold delete_category_ref, on_collection, mbind, M_bind, mret, M_ret. by rewrite Hup.
Qed.

Lemma list_find_names_category st user_id name :
  (∃ d, d ∈ categories st ∧ names_category user_id name d) →
  ∃ i d, list_find (names_category user_id name) (categories st) = Some (i, d).
Proof.
  intros (d & Hd & Hn).
  destruct (list_find_elem_of (names_category user_id name) _ d Hd Hn) as [[i d'] H].
  by exists i, d'.
Qed.

End Steps.

(** ** CategoryMutationService: the views *)

(** C3, as the code has it.  When both normalised names are non-empty and
    the old name is a default category or names a category document of the
    user, [update_category] moves every transaction of the user stored
    under the old name to the new name, and the count in its answer is the
    number of these transactions before the call. *)
Theorem rename_reassigns_transactions {amount} (st : firestore amount)
    (user_id arg_old_name arg_new_name : string) :
  let old_name := normalize arg_old_name in
  let new_name := normalize arg_new_name in
  old_name ≠ "" → new_name ≠ "" →
  unavailable st Categories = false → unavailable st Transactions = false →
  (old_name ∈ DEFAULT_CATEGORIES ∨
   ∃ d, d ∈ categories st ∧ names_category user_id old_name d) →
  ∃ st',
    update_category user_id arg_old_name arg_new_name (Some st)
    = ((Body_status ("Categoría actualizada de '" +:+ old_name +:+ "' a '" +:+ new_name +:+
                     "' y " +:+
                     pretty (length (filter (in_category user_id old_name) (transactions st)))
                     +:+ " transacciones actualizadas."), 200), Some st')
    ∧ transactions st' = reassigned user_id old_name new_name (transactions st)
    ∧ categories st'
      = match list_find (names_category user_id old_name) (categories st) with
        | Some (i, _) => alter (set_name new_name) i (categories st)
        | None => categories st
        end.
Proof.
  intros old_name new_name Hold Hnew Hcat Htx Hknown.
  unfold update_category, try_except. cbv zeta. fold old_name new_name.
  rewrite (proj2 (truthy_iff old_name) Hold), (proj2 (truthy_iff new_name) Hnew). simpl.
  pose proof (update_category_doc_run st user_id old_name new_name Hcat) as Hdoc.
  destruct (list_find _ _) as [[i d]|] eqn:Hfind.
  - erewrite mbind_Return by exact Hdoc. simpl.
    erewrite mbind_Return by (by apply update_category_transactions_run).
    eexists. split_and!; [reflexivity|done..].
  - erewrite mbind_Return by exact Hdoc. simpl.
    destruct Hknown as [Hdef|Hex].
    + rewrite bool_decide_eq_true_2 by done. simpl.
      erewrite mbind_Return by (by apply update_category_transactions_run).
      eexists. split_and!; [reflexivity|done..].
    + destruct (list_find_names_category st user_id old_name Hex) as (i & d & Hsome).
      congruence.
Qed.

Lemma rename_reassigns_transactions_witness :
  ∃ st',
    update_category "u1" " viajes" "paseos " (Some Sample.viajes)
    = ((Body_status "Categoría actualizada de 'Viajes' a 'Paseos' y 3 transacciones actualizadas.",
        200), Some st')
    ∧ transactions st' = reassigned "u1" "Viajes" "Paseos" (transactions Sample.viajes)
    ∧ categories st' = [Sample.custom "u2" "Mascotas"; Sample.custom "u1" "Paseos"].
Proof.
  apply (rename_reassigns_transactions Sample.viajes "u1" " viajes" "paseos ");
    [discriminate|discriminate|reflexivity|reflexivity|].
  right. exists (Sample.custom "u1" "Viajes"). split; [|done].
  apply elem_of_cons. right. apply elem_of_cons. by left.
Defined.

(** C3 fails as stated: a name that is neither a default category nor the
    name of a category document is answered with 404, and the transactions
    stored under it stay where they are. *)
Lemma rename_unregistered_category :
  update_category "u1" "viajes" "paseos" (Some Sample.unregistered)
  = ((Body_error "Categoría 'Viajes' no encontrada o no es personalizable.", 404),
     Some Sample.unregistered)
  ∧ normalize "viajes" = "Viajes" ∧ normalize "paseos" = "Paseos"
  ∧ length (filter (in_category "u1" "Viajes") (transactions Sample.unregistered)) = 2.
Proof. split_and!; vm_compute; reflexivity. Qed.

(** C4, as the code has it.  For a custom category of the user that is not
    a default one and has a category document, [delete_category] deletes
    one document, the first one of that name, moves every transaction of
    the user stored under the name to ['Otros'], and answers 200 with one
    sentence, which names the category and the number of these
    transactions.  The number of deleted documents, the [deleted_count] of
    step 1, is 1 and is no part of the answer. *)
Theorem delete_reassigns_to_otros {amount} (st : firestore amount) (user_id name : string) :
  let category_to_delete := normalize name in
  category_to_delete ≠ "" → category_to_delete ∉ DEFAULT_CATEGORIES →
  unavailable st Categories = false → unavailable st Transactions = false →
  (∃ d, d ∈ categories st ∧ names_category user_id category_to_delete d) →
  ∃ i d st',
    list_find (names_category user_id category_to_delete) (categories st) = Some (i, d)
    ∧ (delete_category_doc user_id category_to_delete (Some st)).1 = Return 1
    ∧ delete_category user_id name (Some st)
      = ((Body_status ("Categoría '" +:+ category_to_delete +:+ "' eliminada y " +:+
                       pretty (length (filter (in_category user_id category_to_delete)
                                              (transactions st)))
                       +:+ " transacciones reasignadas a 'Otros'."), 200), Some st')
    ∧ categories st' = delete i (categories st)
    ∧ length (categories st') + 1 = length (categories st)
    ∧ transactions st' = reassigned user_id category_to_delete OTROS (transactions st).
Proof.
  intros category Hname Hdef Hcat Htx Hex.
  destruct (list_find_names_category st user_id category Hex) as (i & d & Hfind).
  pose proof (delete_category_doc_run st user_id category Hcat) as Hdoc.
  rewrite Hfind in Hdoc.
  exists i, d. eexists. split; [done|]. split; [by rewrite Hdoc|].
  unfold delete_category, try_except. cbv zeta. fold category.
  rewrite (proj2 (truthy_iff category) Hname). simpl.
  rewrite bool_decide_eq_false_2 by done.
  erewrite mbind_Return by exact Hdoc. simpl.
  erewrite mbind_Return by (by apply delete_category_transactions_run).
  split_and!; [reflexivity|done| |done]. simpl.
  apply list_find_Some in Hfind as (Hi & _). apply lookup_lt_Some in Hi.
  rewrite length_delete by eauto using lookup_lt_is_Some_2. lia.
Qed.

Lemma delete_reassigns_to_otros_witness :
  ∃ i d st',
    list_find (names_category "u1" "Viajes") (categories Sample.viajes) = Some (i, d)
    ∧ (delete_category_doc "u1" "Viajes" (Some Sample.viajes)).1 = Return 1
    ∧ delete_category "u1" "viajes " (Some Sample.viajes)
      = ((Body_status "Categoría 'Viajes' eliminada y 3 transacciones reasignadas a 'Otros'.",
          200), Some st')
    ∧ categories st' = delete i (categories Sample.viajes)
    ∧ length (categories st') + 1 = length (categories Sample.viajes)
    ∧ transactions st' = reassigned "u1" "Viajes" OTROS (transactions Sample.viajes).
Proof.
  apply (delete_reassigns_to_otros Sample.viajes "u1" "viajes ");
    [discriminate| |reflexivity|reflexivity|].
  - intros H. vm_compute in H. repeat (apply elem_of_cons in H as [H|H]; [discriminate|]).
    by apply elem_of_nil in H.
  - exists (Sample.custom "u1" "Viajes"). split; [|done].
    apply elem_of_cons. right. apply elem_of_cons. by left.
Defined.

(** The example of C4, evaluated: the three transactions of the user under
    "Viajes" end under "Otros", the others and the documents of the other
    user are untouched. *)
Example delete_viajes :
  delete_category "u1" "Viajes" (Some Sample.viajes)
  = ((Body_status "Categoría 'Viajes' eliminada y 3 transacciones reasignadas a 'Otros'.", 200),
     Some (Sample.store
             [Sample.custom "u2" "Mascotas"]
             [Sample.expense "u1" "Otros" 120%float (Sample.date 2024 2 3);
              Sample.expense "u1" "Comida" 45%float (Sample.date 2024 2 9);
              Sample.expense "u2" "Viajes" 80%float (Sample.date 2024 2 11);
              Sample.expense "u1" "Otros" 60%float (Sample.date 2024 3 1);
              Sample.expense "u1" "Otros" 15%float (Sample.date 2024 3 20)]
             ∅)).
Proof. vm_compute. reflexivity. Qed.

(** C4 fails as stated: the answer holds one count, the one of the
    reassigned transactions, inside its sentence.  The number of deleted
    documents is counted in step 1 and is not returned. *)
Lemma delete_answers_one_count :
  (delete_category_doc "u1" "Viajes" (Some Sample.viajes)).1 = Return 1
  ∧ (delete_category "u1" "Viajes" (Some Sample.viajes)).1
    = (Body_status "Categoría 'Viajes' eliminada y 3 transacciones reasignadas a 'Otros'.",
       200).
Proof. split; vm_compute; reflexivity. Qed.





(** The three answers of [create_category], evaluated. *)
Example create_category_examples :
  create_category (Sample.date 2024 4 1) "u1" "  " (Some Sample.viajes)
  = ((Body_error "Nombre de categoría requerido", 400), Some Sample.viajes)
  ∧ create_category (Sample.date 2024 4 1) "u1" " comida" (Some Sample.viajes)
    = ((Body_error "La categoría ya existe.", 409), Some Sample.viajes)
  ∧ create_category (Sample.date 2024 4 1) "u1" "VIAJES " (Some Sample.viajes)
    = ((Body_error "La categoría ya existe.", 409), Some Sample.viajes)
  ∧ create_category (Sample.date 2024 4 1) "u1" "mascotas" (Some Sample.viajes)
    = ((Body_status_name "Categoría creada ✅" "Mascotas", 201),
       Some (with_categories
               (categories Sample.viajes ++
                [{| c_userId := "u1"; c_name := Some "Mascotas";
                    c_createdAt := Sample.date 2024 4 1 |}]) Sample.viajes)).
Proof. split_and!; vm_compute; reflexivity. Qed.

(** C8. [delete_category] on a name whose normalised form is a default
    category answers 403 and leaves the store as it is: no category document
    is deleted and no transaction is moved. *)
Theorem delete_default_forbidden {amount} (st : firestore amount) (user_id name : string) :
  normalize name ∈ DEFAULT_CATEGORIES →
  delete_category user_id name (Some st)
  = ((Body_error ("La categoría '" +:+ normalize name +:+
                  "' es estándar y no puede ser eliminada."), 403), Some st).
Proof.
  intros Hdef. unfold delete_category, try_except. cbv zeta.
  assert (PyStr.truthy (normalize name) = true) as ->.
  { unfold DEFAULT_CATEGORIES in Hdef.
    repeat (apply elem_of_cons in Hdef as [->|Hdef]; [done|]). by apply elem_of_nil in Hdef. }
  simpl. by rewrite bool_decide_eq_true_2.
Qed.

Lemma delete_default_forbidden_witness :
  normalize " renta" ∈ DEFAULT_CATEGORIES
  ∧ delete_category "u1" " renta" (Some Sample.viajes)
    = ((Body_error "La categoría 'Renta' es estándar y no puede ser eliminada.", 403),
       Some Sample.viajes).
Proof.
  assert (normalize " renta" ∈ DEFAULT_CATEGORIES) as Hdef.
  { change (normalize " renta") with "Renta". unfold DEFAULT_CATEGORIES.
    do 4 (apply elem_of_cons; right). apply elem_of_cons. by left. }
  split; [exact Hdef|]. exact (delete_default_forbidden Sample.viajes "u1" " renta" Hdef).
Defined.

(** C10. For a non-empty normalised name that is not a default category and
    names no category document of the user, [delete_category] answers 404
    before it reaches the transactions: the store is left as it is. *)
Theorem delete_unknown_not_found {amount} (st : firestore amount) (user_id name : string) :
  let category_to_delete := normalize name in
  category_to_delete ≠ "" → category_to_delete ∉ DEFAULT_CATEGORIES →
  unavailable st Categories = false →
  (∀ d, d ∈ categories st → ¬ names_category user_id category_to_delete d) →
  delete_category user_id name (Some st)
  = ((Body_error ("Categoría '" +:+ category_to_delete +:+
                  "' no encontrada en las categorías personalizadas."), 404), Some st).
Proof.
  intros category Hname Hdef Hcat Hnone.
  pose proof (delete_category_doc_run st user_id category Hcat) as Hdoc.
  assert (list_find (names_category user_id category) (categories st) = None) as Hfind.
  { apply list_find_None, Forall_forall. exact Hnone. }
  rewrite Hfind in Hdoc.
  unfold delete_category, try_except. cbv zeta. fold category.
  rewrite (proj2 (truthy_iff category) Hname). simpl.
  rewrite bool_decide_eq_false_2 by done.
  by erewrite mbind_Return by exact Hdoc.
Qed.

Lemma delete_unknown_not_found_witness :
  delete_category "u1" "viajes" (Some Sample.unregistered)
  = ((Body_error "Categoría 'Viajes' no encontrada en las categorías personalizadas.", 404),
     Some Sample.unregistered).
Proof.
  apply (delete_unknown_not_found Sample.unregistered "u1" "viajes");
    [discriminate| |reflexivity|].
  - intros H. vm_compute in H. repeat (apply elem_of_cons in H as [H|H]; [discriminate|]).
    by apply elem_of_nil in H.
  - intros d Hd. by apply elem_of_nil in Hd.
Defined.

(** The other answer of [update_category] on non-empty names: a name that
    is neither a default category nor the name of a category document of the
    user is answered 404, and the store is left as it is. *)
Lemma update_category_unknown {amount} (st : firestore amount)
    (user_id arg_old_name arg_new_name : string) :
  let old_name := normalize arg_old_name in
  old_name ≠ "" → normalize arg_new_name ≠ "" →
  unavailable st Categories = false →
  old_name ∉ DEFAULT_CATEGORIES →
  (∀ d, d ∈ categories st → ¬ names_category user_id old_name d) →
  update_category user_id arg_old_name arg_new_name (Some st)
  = ((Body_error ("Categoría '" +:+ old_name +:+
                  "' no encontrada o no es personalizable."), 404), Some st).
Proof.
  intros old_name Hold Hnew Hcat Hdef Hnone.
  pose proof (update_category_doc_run st user_id old_name (normalize arg_new_name) Hcat)
    as Hdoc.
  assert (list_find (names_category user_id old_name) (categories st) = None) as Hfind.
  { apply list_find_None, Forall_forall. exact Hnone. }
  rewrite Hfind in Hdoc.
  unfold update_category, try_except. cbv zeta. fold old_name.
  rewrite (proj2 (truthy_iff old_name) Hold), (proj2 (truthy_iff _) Hnew). simpl.
  erewrite mbind_Return by exact Hdoc. simpl.
  by rewrite bool_decide_eq_false_2.
Qed.

(** ** The views store normalised names

    [create_category], [update_category] and [delete_category] keep
    [names_normalized]: the names they write are normalised. *)

Section Normalized.

Context {amount : Type}.
Implicit Types (st : firestore amount).

Lemma names_normalized_add st user_id name now :
  names_normalized st →
  names_normalized
    (with_categories (categories st ++ [{| c_userId := user_id; c_name := Some (normalize name);
                                           c_createdAt := now |}]) st).
Proof.
  intros Hst d n [Hd|Hd]%elem_of_app Hn; [by eapply Hst|].
  apply list_elem_of_singleton in Hd as ->. injection Hn as <-. apply normalize_idemp.
Qed.

Lemma names_normalized_alter st i name :
  names_normalized st →
  names_normalized (with_categories (alter (set_name (normalize name)) i (categories st)) st).
Proof.
  intros Hst d n Hd Hn. simpl in Hd. apply list_elem_of_lookup in Hd as [j Hj].
  rewrite list_lookup_alter in Hj. case_decide as Hij.
  - destruct (categories st !! i) as [d'|] eqn:Hd'; simpl in Hj; [|done].
    injection Hj as <-. injection Hn as <-. apply normalize_idemp.
  - eapply Hst; [|done]. by eapply list_elem_of_lookup_2.
Qed.

Lemma names_normalized_delete st i :
  names_normalized st → names_normalized (with_categories (delete i (categories st)) st).
Proof.
  intros Hst d n Hd Hn. eapply Hst; [|done]. simpl in Hd.
  by eapply list_elem_of_delete_inv.
Qed.

Lemma create_category_normalized st now user_id name st' :
  names_normalized st →
  (create_category now user_id name (Some st)).2 = Some st' → names_normalized st'.
Proof.
  intros Hst. unfold create_category, try_except, _get_user_categories, add_category,
    stream_categories, on_collection, mbind, M_bind, mret, M_ret. cbv zeta.
  destruct (PyStr.truthy (normalize name)); simpl; [|by intros [= <-]].
  destruct (unavailable st Categories) eqn:Hcat; [by intros [= <-]|].
  case_bool_decide; [by intros [= <-]|]. rewrite Hcat. intros [= <-].
  by apply names_normalized_add.
Qed.

Lemma update_category_normalized st user_id arg_old_name arg_new_name st' :
  names_normalized st →
  (update_category user_id arg_old_name arg_new_name (Some st)).2 = Some st' →
  names_normalized st'.
Proof.
  intros Hst. unfold update_category, try_except, update_category_doc,
    update_category_transactions, limit, update_category_ref, batch_commit,
    stream_categories, stream_transactions, on_collection, mbind, M_bind, mret, M_ret.
  cbv zeta.
  destruct (PyStr.truthy (normalize arg_old_name)), (PyStr.truthy (normalize arg_new_name));
    simpl; try by intros [= <-].
  destruct (unavailable st Categories) eqn:Hcat; [by intros [= <-]|].
  destruct (take 1 _) as [|[i d] ?]; simpl.
  - case_bool_decide; simpl; [|by intros [= <-]].
    destruct (unavailable st Transactions) eqn:Htx; [by intros [= <-]|].
    destruct (queue_updates _ _). rewrite Htx. by intros [= <-].
  - rewrite Hcat. simpl.
    destruct (unavailable st Transactions) eqn:Htx.
    + intros [= <-]. by apply names_normalized_alter.
    + destruct (queue_updates _ _). simpl. rewrite Htx. intros [= <-].
      by apply (names_normalized_alter st i arg_new_name).
Qed.

Lemma delete_category_normalized st user_id name st' :
  names_normalized st →
  (delete_category user_id name (Some st)).2 = Some st' → names_normalized st'.
Proof.
  intros Hst. unfold delete_category, try_except, delete_category_doc,
    delete_category_transactions, limit, delete_category_ref, batch_commit,
    stream_categories, stream_transactions, on_collection, mbind, M_bind, mret, M_ret.
  cbv zeta.
  destruct (PyStr.truthy (normalize name)); simpl; [|by intros [= <-]].
  case_bool_decide; [by intros [= <-]|].
  destruct (unavailable st Categories) eqn:Hcat; [by intros [= <-]|].
  destruct (take 1 _) as [|[i d] [|p l]] eqn:Htake; simpl.
  - by intros [= <-].
  - unfold mbind, M_bind, mret, M_ret, on_collection. rewrite Hcat. simpl.
    destruct (unavailable st Transactions) eqn:Htx.
    + intros [= <-]. by apply names_normalized_delete.
    + destruct (queue_updates _ _). simpl. rewrite Htx. intros [= <-].
      by apply (names_normalized_delete st i).
  - apply (f_equal length) in Htake. rewrite length_take in Htake.
    change (length ((i, d) :: p :: l)) with (S (S (length l))) in Htake. lia.
Qed.

End Normalized.

(** ** Dictionaries *)

Section Dict.

Context {V : Type}.
Implicit Types (d : list (string * V)) (k : string).

Lemma dict_get_upsert k f d : dict_get k (dict_upsert k f d) = Some (f (dict_get k d)).
Proof.
  induction d as [|[k' v] d IH]; simpl.
  - by rewrite decide_True.
  - destruct (decide (k = k')) as [->|Hne]; simpl.
    + by rewrite decide_True.
    + by rewrite decide_False.
Qed.

Lemma dict_get_upsert_ne k k' f d :
  k ≠ k' → dict_get k' (dict_upsert k f d) = dict_get k' d.
Proof.
  intros Hne. induction d as [|[k'' v] d IH]; simpl.
  - by rewrite decide_False.
  - destruct (decide (k = k'')) as [->|Hne']; simpl; [by rewrite !decide_False|].
    by rewrite IH.
Qed.

Lemma dict_upsert_keys k f d k' :
  k' ∈ (dict_upsert k f d).*1 ↔ k' = k ∨ k' ∈ d.*1.
Proof.
  induction d as [|[k'' v] d IH]; simpl.
  - rewrite list_elem_of_singleton. split; [by left|]. intros [?|H]; [done|].
    by apply elem_of_nil in H.
  - destruct (decide (k = k'')) as [->|Hne]; simpl.
    + rewrite !elem_of_cons. naive_solver.
    + rewrite !elem_of_cons, IH. naive_solver.
Qed.

Lemma dict_upsert_NoDup k f d : NoDup d.*1 → NoDup (dict_upsert k f d).*1.
Proof.
  induction d as [|[k' v] d IH]; simpl; intros Hn.
  - apply NoDup_singleton.
  - apply NoDup_cons in Hn as [Hk' Hn].
    destruct (decide (k = k')) as [->|Hne]; simpl.
    + by apply NoDup_cons.
    + apply NoDup_cons. split; [|by apply IH].
      rewrite dict_upsert_keys. intros [?|?]; by subst.
Qed.


Lemma elem_of_dict_get k v d : NoDup d.*1 → (k, v) ∈ d → dict_get k d = Some v.
Proof.
  induction d as [|[k' v'] d IH]; simpl; intros Hn Hin.
  - by apply elem_of_nil in Hin.
  - apply NoDup_cons in Hn as [Hk' Hn]. apply elem_of_cons in Hin as [[= -> ->]|Hin].
    + by rewrite decide_True.
    + rewrite decide_False; [by apply IH|]. intros ->. apply Hk'.
      apply list_elem_of_fmap. by exists (k', v).
Qed.

End Dict.

(** ** TransactionAggregator: [monthly_report] *)

Lemma dict_get_is_Some {V} (k : string) (d : list (string * V)) :
  is_Some (dict_get k d) ↔ k ∈ d.*1.
Proof.
  induction d as [|[k' v] d IH]; simpl.
  - split; [by intros [? ?]|]. intros H. by apply elem_of_nil in H.
  - rewrite elem_of_cons. destruct (decide (k = k')) as [->|Hne].
    + split; [by left|by eauto].
    + rewrite IH. naive_solver.
Qed.

Section ReportedDocuments.

Context {amount : Type}.

Lemma filter_typed_of_user user_id (l : list (transaction_doc amount)) :
  filter typed (filter (λ d, bool_decide (t_userId d = user_id)) l)
  = filter (reported user_id) l.
Proof.
  rewrite list_filter_filter. apply list_filter_iff. intros d. unfold reported.
  rewrite bool_decide_spec. tauto.
Qed.

End ReportedDocuments.

Section MonthlyReport.

Context {amount : Type} (azero : amount) (aplus : amount → amount → amount)
        (asum : list amount → amount).

Local Abbreviation build ds :=
  (foldl (λ acc d, monthly_step azero aplus acc (0, d)) ([], ∅) ds).
Local Abbreviation sel c m ds :=
  (filter (λ d : transaction_doc amount, category_of d = c ∧ month_of d = m)
          (filter typed ds)).

Lemma monthly_step_data acc (docs : list (nat * transaction_doc amount)) :
  foldl (monthly_step azero aplus) acc docs
  = foldl (λ acc d, monthly_step azero aplus acc (0, d)) acc docs.*2.
Proof. revert acc. induction docs as [|doc docs IH]; intros acc; simpl; [done|]. by rewrite <- IH. Qed.

Lemma total_snoc (l : list amount) a :
  total azero aplus (l ++ [a]) = aplus (total azero aplus l) a.
Proof. unfold total. by rewrite foldl_app. Qed.

Lemma sel_snoc_typed c m (ds : list (transaction_doc amount)) d :
  typed d →
  sel c m (ds ++ [d])
  = if decide (category_of d = c ∧ month_of d = m) then sel c m ds ++ [d] else sel c m ds.
Proof.
  intros Ht. rewrite filter_app, (filter_cons typed), decide_True by done.
  rewrite filter_nil, filter_app, filter_cons, filter_nil.
  case_decide; [done|]. by rewrite app_nil_r.
Qed.

Lemma sel_snoc_untyped c m (ds : list (transaction_doc amount)) d :
  ¬ typed d → sel c m (ds ++ [d]) = sel c m ds.
Proof.
  intros Ht. rewrite filter_app, (filter_cons typed), decide_False by done.
  by rewrite filter_nil, app_nil_r.
Qed.

Lemma monthly_step_typed acc (d : transaction_doc amount) :
  typed d →
  monthly_step azero aplus acc (0, d)
  = (dict_upsert (category_of d)
       (λ months,
          <[month_of d := aplus (default azero (default ∅ months !! month_of d))
                                (amount_of azero d)]> (default ∅ months))
       acc.1,
     <[category_of d := default "" (t_type d)]> acc.2).
Proof.
  intros (type & Ht & Hin). unfold monthly_step. simpl. rewrite Ht.
  by rewrite bool_decide_eq_true_2.
Qed.

Lemma monthly_step_untyped acc (d : transaction_doc amount) :
  ¬ typed d → monthly_step azero aplus acc (0, d) = acc.
Proof.
  intros Hn. unfold monthly_step. simpl. destruct (t_type d) as [type|] eqn:Ht; [|done].
  case_bool_decide as Hin; [|done]. destruct Hn. by exists type.
Qed.

(** What the loop of [monthly_report] has built after the documents
    [ds]. *)
Lemma monthly_data_invariant (ds : list (transaction_doc amount)) :
  NoDup (build ds).1.*1
  ∧ ∀ c,
      match dict_get c (build ds).1 with
      | Some months =>
          months ≠ ∅
          ∧ ∀ m, months !! m
                 = match sel c m ds with
                   | [] => None
                   | _ => Some (month_total azero aplus c m (filter typed ds))
                   end
      | None => ∀ m, sel c m ds = []
      end.
Proof.
  induction ds as [|d ds IH] using rev_ind.
  - split; [constructor|]. intros c. done.
  - destruct IH as [IHn IH]. rewrite foldl_app. simpl.
    destruct (decide (typed d)) as [Ht|Ht].
    + rewrite monthly_step_typed by done. simpl. split; [by apply dict_upsert_NoDup|].
      intros c. destruct (decide (category_of d = c)) as [<-|Hc].
      * rewrite dict_get_upsert. split; [apply insert_non_empty|].
        intros m. rewrite sel_snoc_typed by done.
        specialize (IH (category_of d)).
        destruct (decide (month_of d = m)) as [<-|Hm].
        -- rewrite lookup_insert_eq, decide_True by done.
           unfold month_total. rewrite sel_snoc_typed, decide_True by done.
           rewrite fmap_app, list_fmap_singleton, total_snoc.
           destruct (filter _ (filter typed ds) ++ [d]) eqn:Happ;
             [by apply app_nil in Happ as [_ ?]|]. clear Happ. f_equal. f_equal.
           destruct (dict_get _ _) as [months|]; simpl.
           ++ destruct IH as [_ IH]. rewrite IH.
              unfold month_total. by destruct (filter _ (filter typed ds)).
           ++ by rewrite lookup_empty, IH.
        -- rewrite lookup_insert_ne by done.
           rewrite decide_False by (intros [_ ?]; done).
           unfold month_total. rewrite sel_snoc_typed by done.
           rewrite decide_False by (intros [_ ?]; done).
           destruct (dict_get _ _) as [months|]; simpl.
           ++ destruct IH as [_ IH]. by rewrite IH.
           ++ by rewrite lookup_empty, IH.
      * rewrite dict_get_upsert_ne by done. specialize (IH c).
        assert (∀ m, sel c m (ds ++ [d]) = sel c m ds) as Hsel.
        { intros m. rewrite sel_snoc_typed by done.
          by rewrite decide_False by (intros [? _]; done). }
        destruct (dict_get c _) as [months|].
        -- destruct IH as [Hne IH]. split; [done|]. intros m.
           unfold month_total. by rewrite !Hsel, IH.
        -- intros m. by rewrite Hsel.
    + rewrite monthly_step_untyped by done. split; [done|]. intros c. specialize (IH c).
      destruct (dict_get c _) as [months|].
      * destruct IH as [Hne IH]. split; [done|]. intros m.
        unfold month_total. by rewrite !sel_snoc_untyped, IH.
      * intros m. by rewrite sel_snoc_untyped.
Qed.

Lemma trend_padding (trend : list amount) :
  match trend with [x] => [azero; x] | _ => trend end
  = (if decide (length trend = 1) then [azero] else []) ++ trend.
Proof. by destruct trend as [|x [|y l]]. Qed.

Lemma monthly_report_run (st : firestore amount) user_id :
  user_id ≠ "" → unavailable st Transactions = false →
  monthly_report azero aplus asum user_id (Some st)
  = ((Body_report
        (trend_of azero asum
           (build (filter (λ d, bool_decide (t_userId d = user_id)) (transactions st))).2
         <$> (build (filter (λ d, bool_decide (t_userId d = user_id)) (transactions st))).1),
      200), Some st).
Proof.
  intros Huser Htx. unfold monthly_report, try_except.
  rewrite (proj2 (truthy_iff user_id) Huser). simpl.
  unfold stream_transactions, on_collection, mbind, M_bind, mret, M_ret. rewrite Htx.
  rewrite monthly_step_data, where_data.
  by destruct (foldl _ _ _) as [monthly_data types_dict].
Qed.

(** The categories that the loop of [monthly_report] has met after the
    documents [ds]. *)
Lemma report_names (ds : list (transaction_doc amount)) c :
  c ∈ (build ds).1.*1 ↔ ∃ d, d ∈ filter typed ds ∧ category_of d = c.
Proof.
  destruct (monthly_data_invariant ds) as [_ Hinv].
  rewrite <- dict_get_is_Some. specialize (Hinv c).
  destruct (dict_get c _) as [months|].
  - destruct Hinv as [Hne Hlook]. split; [intros _|by eauto].
    destruct (map_choose months Hne) as (m & a & Hm). rewrite Hlook in Hm.
    destruct (filter _ (filter typed ds)) as [|d l] eqn:Hf; [done|]. exists d.
    assert (d ∈ filter (λ d, category_of d = c ∧ month_of d = m) (filter typed ds)) as Hd
      by (rewrite Hf; by left).
    apply list_elem_of_filter in Hd as [[Hc _] Hd]. done.
  - split; [by intros [? ?]|]. intros (d & Hd & Hc). exfalso.
    assert (d ∈ filter (λ d', category_of d' = c ∧ month_of d' = month_of d) (filter typed ds))
      as Hin by (by apply list_elem_of_filter).
    rewrite Hinv in Hin. by apply elem_of_nil in Hin.
Qed.

Lemma trend_names (ds : list (transaction_doc amount)) :
  category_name <$> (trend_of azero asum (build ds).2 <$> (build ds).1) = (build ds).1.*1.
Proof. rewrite <- list_fmap_compose. apply list_fmap_ext. by intros _ [c months] _. Qed.

(** C5.  [monthly_report] answers with one entry for each normalised
    category under which the user has kept transactions.  The trend of an
    entry lists the summed amounts of the months in which the user has
    such transactions, in ascending order of the month key; when there is
    one such month a zero is put in front, so that the trend has at least
    two points.  The total is [sum] of the trend: with one month, where
    [sum([0, x])] is [0 + x], the trend is the zero and the sum of the
    month, and the total is that sum added to zero. *)
Theorem monthly_trend_by_month (st : firestore amount) (user_id : string) :
  user_id ≠ "" → unavailable st Transactions = false →
  (∀ x, asum [azero; x] = aplus azero x) →
  let docs := filter (reported user_id) (transactions st) in
  ∃ entries,
    monthly_report azero aplus asum user_id (Some st) = ((Body_report entries, 200), Some st)
    ∧ NoDup (category_name <$> entries)
    ∧ (∀ d, d ∈ docs → ∃ e, e ∈ entries ∧ category_name e = category_of d)
    ∧ ∀ e, e ∈ entries →
        ∃ months,
          StronglySorted PyStr.le months ∧ NoDup months ∧ months ≠ []
          ∧ (∀ m, m ∈ months ↔
                  ∃ d, d ∈ docs ∧ category_of d = category_name e ∧ month_of d = m)
          ∧ monthly_trend e
            = (if decide (length months = 1) then [azero] else [])
              ++ ((λ m, month_total azero aplus (category_name e) m docs) <$> months)
          ∧ (2 ≤ length (monthly_trend e))%nat
          ∧ total_amount e = asum (monthly_trend e)
          ∧ (∀ m, months = [m] →
                  monthly_trend e
                  = [azero; month_total azero aplus (category_name e) m docs]
                  ∧ total_amount e
                    = aplus azero (month_total azero aplus (category_name e) m docs)).
Proof.
  intros Huser Htx Hsum docs. eexists. split; [by apply monthly_report_run|].
  set (ds := filter (λ d, bool_decide (t_userId d = user_id)) (transactions st)).
  assert (filter typed ds = docs) as Hdocs by apply filter_typed_of_user.
  destruct (monthly_data_invariant ds) as [Hn Hinv].
  split; [by rewrite trend_names|]. split.
  { intros d Hd.
    assert (category_of d ∈ (build ds).1.*1) as Hin.
    { apply report_names. exists d. by rewrite Hdocs. }
    rewrite <- trend_names in Hin.
    apply list_elem_of_fmap in Hin as (e & He & Hin). by exists e. }
  intros e He. apply list_elem_of_fmap in He as ([c months] & -> & Hin).
  specialize (Hinv c). rewrite (elem_of_dict_get c months _ Hn Hin) in Hinv.
  destruct Hinv as [Hne Hlook]. rewrite Hdocs in Hlook.
  assert (∀ m, m ∈ sorted (elements (dom months)) ↔
               ∃ d, d ∈ docs ∧ category_of d = c ∧ month_of d = m) as Hmem.
  { intros m. rewrite sorted_Permutation, elem_of_elements, elem_of_dom, Hlook.
    destruct (filter _ docs) as [|d l] eqn:Hf.
    - split; [by intros [? ?]|]. intros (d & Hd & Hc & Hm).
      assert (d ∈ filter (λ d, category_of d = c ∧ month_of d = m) docs) as Hin'
        by (by apply list_elem_of_filter).
      rewrite Hf in Hin'. by apply elem_of_nil in Hin'.
    - split; [|by eauto]. intros _.
      assert (d ∈ filter (λ d, category_of d = c ∧ month_of d = m) docs) as Hin'
        by (rewrite Hf; by left).
      apply list_elem_of_filter in Hin' as [[Hc Hm] Hd]. by exists d. }
  exists (sorted (elements (dom months))).
  assert (monthly_trend (trend_of azero asum (build ds).2 (c, months))
          = (if decide (length (sorted (elements (dom months))) = 1) then [azero] else [])
            ++ ((λ m, month_total azero aplus c m docs) <$> sorted (elements (dom months))))
    as Htrend.
  { simpl. rewrite trend_padding, length_fmap. f_equal.
    apply list_fmap_ext. intros i m Hi. rewrite Hlook.
    assert (m ∈ sorted (elements (dom months))) as Hm by (by eapply list_elem_of_lookup_2).
    apply Hmem in Hm as (d & Hd & Hc & Hm).
    destruct (filter _ docs) as [|d' l] eqn:Hf; [|done].
    assert (d ∈ filter (λ d, category_of d = c ∧ month_of d = m) docs) as Hin'
      by (by apply list_elem_of_filter).
    rewrite Hf in Hin'. by apply elem_of_nil in Hin'. }
  assert (sorted (elements (dom months)) ≠ []) as Hsome.
  { intros Hs. apply Hne. apply map_empty. intros m. apply not_elem_of_dom.
    rewrite <- elem_of_elements, <- sorted_Permutation, Hs. apply not_elem_of_nil. }
  split_and!.
  - apply sorted_StronglySorted.
  - rewrite sorted_Permutation. apply NoDup_elements.
  - exact Hsome.
  - exact Hmem.
  - exact Htrend.
  - rewrite Htrend, length_app, length_fmap.
    destruct (sorted (elements (dom months))) as [|m [|m' l]] eqn:Hs; simpl; [done|lia..].
  - done.
  - intros m Hm.
    assert (monthly_trend (trend_of azero asum (build ds).2 (c, months))
            = [azero; month_total azero aplus c m docs]) as Hone.
    { rewrite Htrend, Hm. done. }
    split; [exact Hone|].
    change (total_amount (trend_of azero asum (build ds).2 (c, months)))
      with (asum (monthly_trend (trend_of azero asum (build ds).2 (c, months)))).
    by rewrite Hone, Hsum.
Qed.

End MonthlyReport.

(** The example of C5, from the theorem: "Comida" has transactions in
    "2024-03" only, 60 and 40, and is reported with the trend [0, 100] and
    the total 100. *)
Lemma monthly_trend_by_month_witness :
  ∃ entries e,
    monthly_report Float64.zero Float64.add Float64.sum "u1" (Some Sample.one_month)
    = ((Body_report entries, 200), Some Sample.one_month)
    ∧ e ∈ entries ∧ category_name e = "Comida"
    ∧ monthly_trend e = [0%float; 100%float] ∧ total_amount e = 100%float.
Proof.
  destruct (monthly_trend_by_month Float64.zero Float64.add Float64.sum Sample.one_month "u1")
    as (entries & Hrun & _ & Hex & Hall); [discriminate|reflexivity|reflexivity|].
  destruct (Hex (Sample.expense "u1" "Comida" 60%float (Sample.date 2024 3 2)))
    as (e & He & Hname).
  { apply list_elem_of_filter. split; [|by left].
    split; [done|]. exists "expense". split; [done|by left]. }
  change (category_name e = "Comida") in Hname.
  destruct (Hall e He) as (months & _ & Hnd & Hne & Hmem & _ & _ & _ & Hone).
  assert (∀ m, m ∈ months → m = "2024-03") as Hm.
  { intros m Hin. apply Hmem in Hin as (d & Hd & Hc & <-). rewrite Hname in Hc.
    apply list_elem_of_filter in Hd as [_ Hd]. simpl in Hd.
    repeat (apply elem_of_cons in Hd as [->|Hd]; [done|]). by apply elem_of_nil in Hd. }
  assert (months = ["2024-03"]) as ->.
  { destruct months as [|m1 [|m2 l]]; [done| |].
    - by rewrite (Hm m1) by (by left).
    - apply NoDup_cons in Hnd as [Hnot _]. destruct Hnot.
      rewrite (Hm m1), (Hm m2); [by left|by right; left|by left]. }
  destruct (Hone "2024-03" eq_refl) as [Htrend Htotal]. rewrite Hname in Htrend, Htotal.
  exists entries, e. split_and!; [done..| |].
  - rewrite Htrend. vm_compute. reflexivity.
  - rewrite Htotal. vm_compute. reflexivity.
Defined.

(** The example of C5, evaluated: "Comida" has transactions in "2024-03"
    only, 60 and 40. *)
Example monthly_report_one_month :
  monthly_report Float64.zero Float64.add Float64.sum "u1" (Some Sample.one_month)
  = ((Body_report
        [{| category_name := "Comida"; total_amount := 100%float;
            monthly_trend := [0%float; 100%float]; entry_type := "expense" |};
         {| category_name := "Renta"; total_amount := 810%float;
            monthly_trend := [400%float; 410%float]; entry_type := "expense" |}], 200),
     Some Sample.one_month).
Proof. vm_compute. reflexivity. Qed.

(** ** TransactionAggregator: [get_most_problematic_category] *)

(** [a >= b] on datetimes, spelled out. *)
Lemma datetime_geb_spec (a b : datetime) :
  datetime_geb a b = true
  ↔ (year b < year a
     ∨ year a = year b
       ∧ (month b < month a
          ∨ month a = month b
            ∧ (day b < day a ∨ day a = day b ∧ micros b ≤ micros a)))%Z.
Proof.
  unfold datetime_geb.
  destruct (Z.compare_spec (year a) (year b)); [|split; [done|lia]|split; [lia|done]].
  destruct (Z.compare_spec (month a) (month b)); [|split; [done|lia]|split; [lia|done]].
  destruct (Z.compare_spec (day a) (day b)); [|split; [done|lia]|split; [lia|done]].
  rewrite Z.leb_le. lia.
Qed.

Section MonthExpenses.

Context {amount : Type}.


End MonthExpenses.

Section Problematic.

Context {amount : Type} (azero : amount) (aplus : amount → amount → amount)
        (agtb : amount → amount → bool) (a500 : amount).

Local Abbreviation totals ds :=
  (foldl (λ acc d, totals_step azero aplus acc (0, d)) [] ds).



Section Max.

Hypothesis agtb_irrefl : ∀ a, agtb a a = false.
Hypothesis agtb_trans : ∀ a b c, agtb a b = true → agtb b c = true → agtb a c = true.


End Max.



(** C9. When a read of the store fails inside
    [get_most_problematic_category], be it the read of the goal or the
    query on the transactions, the function does not raise: it returns the
    category ["Error"] with spend zero, goal zero and [exceeds_goal]
    false. *)
Theorem storage_failure_gives_error_sentinel (st : firestore amount) now user_id :
  unavailable st Settings = true ∨ unavailable st Transactions = true →
  get_most_problematic_category azero aplus agtb a500 now user_id (Some st)
  = {| category := Some "Error"; current_spend := azero; goal_amount := azero;
       exceeds_goal := false |}.
Proof.
  intros Hfail.
  unfold get_most_problematic_category, try_except, get_settings, stream_transactions,
    on_collection, mbind, M_bind, mret, M_ret.
  destruct (unavailable st Settings) eqn:Hset; [done|].
  destruct Hfail as [?|Htx]; [done|]. by rewrite Htx.
Qed.

(** Without a client ([db] is [None]) the category of the answer is
    [None], not ["Error"]. *)
Lemma get_most_problematic_category_None now user_id :
  get_most_problematic_category azero aplus agtb a500 now user_id None
  = {| category := None; current_spend := azero; goal_amount := azero;
       exceeds_goal := false |}.
Proof. done. Qed.

End Problematic.

(** ** The order of Python floats *)






(** The example of C6, evaluated: the expenses of March 2024 are 600 under
    "Comida" and 400 under "Renta", and the goal is 500. *)
Example most_problematic_category_march :
  get_most_problematic_category Float64.zero Float64.add Float64.gt Float64.goal (Sample.date 2024 3 15) "u1"
    (Some Sample.march)
  = {| category := Some "Comida"; current_spend := 600%float; goal_amount := 500%float;
       exceeds_goal := true |}.
Proof. vm_compute. reflexivity. Qed.

(** C6 fails as stated: a user without any expense and with the goal -1 is
    answered that the goal is exceeded. *)
Lemma no_expense_negative_goal :
  filter (expense_of_month (Sample.date 2024 3 15) "u1") (transactions Sample.negative_goal) = []
  ∧ get_most_problematic_category Float64.zero Float64.add Float64.gt Float64.goal (Sample.date 2024 3 15) "u1"
      (Some Sample.negative_goal)
    = {| category := Some "Otros"; current_spend := 0%float; goal_amount := (-1)%float;
         exceeds_goal := true |}.
Proof. split; vm_compute; reflexivity. Qed.


Lemma storage_failure_gives_error_sentinel_witness :
  unavailable Sample.unreachable Transactions = true
  ∧ get_most_problematic_category Float64.zero Float64.add Float64.gt Float64.goal (Sample.date 2024 3 15) "u1"
      (Some Sample.unreachable)
    = {| category := Some "Error"; current_spend := 0%float; goal_amount := 0%float;
         exceeds_goal := false |}.
Proof.
  split; [reflexivity|].
  apply (storage_failure_gives_error_sentinel Float64.zero Float64.add Float64.gt Float64.goal Sample.unreachable).
  right. reflexivity.
Defined.

(** * Further properties *)

(** ** Blank names *)

Lemma lstrip_empty_iff s : PyStr.lstrip s = "" ↔ blank s = true.
Proof.
  induction s as [|c s IH]; simpl; [done|].
  destruct (PyStr.isspace c); simpl; [done|]. split; discriminate.
Qed.

Lemma rstrip_empty_iff s : PyStr.rstrip s = "" ↔ blank s = true.
Proof.
  induction s as [|c s IH]; simpl; [done|].
  destruct (PyStr.rstrip s) as [|c' r] eqn:Hr.
  - destruct (PyStr.isspace c); simpl; [|split; discriminate].
    by rewrite <- IH.
  - rewrite andb_true_iff, <- IH. split; [discriminate|]. by intros [_ ?].
Qed.

Lemma blank_lstrip s : blank (PyStr.lstrip s) = blank s.
Proof.
  induction s as [|c s IH]; simpl; [done|].
  destruct (PyStr.isspace c) eqn:Hc; simpl; [done|]. by rewrite Hc.
Qed.

Lemma title_from_empty_iff b s : PyStr.title_from b s = "" ↔ s = "".
Proof. destruct s; simpl; split; congruence. Qed.

Lemma normalize_empty_iff raw : normalize raw = "" ↔ blank raw = true.
Proof.
  unfold normalize, PyStr.title, PyStr.strip.
  by rewrite title_from_empty_iff, rstrip_empty_iff, blank_lstrip.
Qed.

Lemma truthy_normalize raw : PyStr.truthy (normalize raw) = negb (blank raw).
Proof.
  destruct (blank raw) eqn:Hb.
  - apply normalize_empty_iff in Hb. by rewrite Hb.
  - apply truthy_iff. intros He%normalize_empty_iff. congruence.
Qed.


(** ** ASCII names *)

Lemma isascii_upper c :
  (PyStr.ord c <? 128)%nat = true → (PyStr.ord (PyStr.upper c) <? 128)%nat = true.
Proof. by destruct c as [[] [] [] [] [] [] [] []]. Qed.

Lemma isascii_lower c :
  (PyStr.ord c <? 128)%nat = true → (PyStr.ord (PyStr.lower c) <? 128)%nat = true.
Proof. by destruct c as [[] [] [] [] [] [] [] []]. Qed.

Lemma isascii_lstrip s : isascii s = true → isascii (PyStr.lstrip s) = true.
Proof.
  induction s as [|c s IH]; simpl; [done|]. intros [Hc Hs]%andb_true_iff.
  destruct (PyStr.isspace c); [by apply IH|]. simpl. by rewrite Hc, Hs.
Qed.

Lemma isascii_rstrip s : isascii s = true → isascii (PyStr.rstrip s) = true.
Proof.
  induction s as [|c s IH]; simpl; [done|]. intros [Hc Hs]%andb_true_iff.
  specialize (IH Hs). destruct (PyStr.rstrip s) as [|c' r].
  - destruct (PyStr.isspace c); simpl; [done|]. by rewrite Hc.
  - change (isascii (String c (String c' r))) with
      ((PyStr.ord c <? 128)%nat && isascii (String c' r)). by rewrite Hc, IH.
Qed.

Lemma isascii_title_from b s : isascii s = true → isascii (PyStr.title_from b s) = true.
Proof.
  revert b. induction s as [|c s IH]; intros b; simpl; [done|].
  intros [Hc Hs]%andb_true_iff. rewrite (IH _ Hs), andb_true_r.
  destruct b; [by apply isascii_lower|by apply isascii_upper].
Qed.

Lemma plain_normalize raw : isascii raw = true → plain (normalize raw).
Proof.
  intros Hraw. split; [|apply normalize_idemp].
  by apply isascii_title_from, isascii_rstrip, isascii_lstrip.
Qed.

Section Outcomes.

Context {amount : Type}.
Implicit Types (st : firestore amount) (user_id : string).

(** The status of an answer against the blankness of the names. *)
Local Ltac status :=
  simpl; split; [intros ?; first [done | by eauto] | intros Hs; first [done | by destruct Hs]].

(** The view stops with the store [s]. *)
Local Ltac stops s :=
  eexists _, s; split; [reflexivity|]; split; [status|]; split_and!; by eauto.

Lemma mbind_Raise {A B} (m : M amount A) (k : A → M amount B) db db' :
  m db = (Raise, db') → (m ≫= k) db = (Raise, db').
Proof. intros Hm. unfold mbind, M_bind. by rewrite Hm. Qed.

Lemma update_category_doc_unavailable st user_id old_name new_name :
  unavailable st Categories = true →
  update_category_doc user_id old_name new_name (Some st) = (Raise, Some st).
Proof.
  intros Hcat. unfold update_category_doc, limit, stream_categories, on_collection,
    mbind, M_bind. by rewrite Hcat.
Qed.

Lemma delete_category_doc_unavailable st user_id name :
  unavailable st Categories = true →
  delete_category_doc user_id name (Some st) = (Raise, Some st).
Proof.
  intros Hcat. unfold delete_category_doc, limit, stream_categories, on_collection,
    mbind, M_bind. by rewrite Hcat.
Qed.

Lemma update_category_transactions_unavailable st user_id old_name new_name :
  unavailable st Transactions = true →
  update_category_transactions user_id old_name new_name (Some st) = (Raise, Some st).
Proof.
  intros Htx. unfold update_category_transactions, stream_transactions, on_collection,
    mbind, M_bind. by rewrite Htx.
Qed.

(** Every store that [update_category] can leave behind. *)
Lemma update_category_outcome st user_id arg_old_name arg_new_name :
  ∃ resp st',
    update_category user_id arg_old_name arg_new_name (Some st) = (resp, Some st')
    ∧ (resp.2 = 400 ↔ blank arg_old_name = true ∨ blank arg_new_name = true)
    ∧ settings st' = settings st ∧ unavailable st' = unavailable st
    ∧ (categories st' = categories st
       ∨ ∃ i d, list_find (names_category user_id (normalize arg_old_name)) (categories st)
                = Some (i, d)
                ∧ categories st'
                  = alter (set_name (normalize arg_new_name)) i (categories st))
    ∧ (transactions st' = transactions st
       ∨ transactions st'
         = reassigned user_id (normalize arg_old_name) (normalize arg_new_name)
             (transactions st)).
Proof.
  unfold update_category, try_except. cbv zeta. rewrite !truthy_normalize.
  destruct (blank arg_old_name), (blank arg_new_name);
    simpl; try (by stops st).
  destruct (unavailable st Categories) eqn:Hcat.
  { erewrite mbind_Raise by (by apply update_category_doc_unavailable).
    by stops st. }
  pose proof (update_category_doc_run st user_id (normalize arg_old_name)
                (normalize arg_new_name) Hcat) as Hdoc.
  destruct (list_find _ _) as [[i d]|] eqn:Hfind.
  - erewrite mbind_Return by exact Hdoc. simpl.
    set (st1 := with_categories _ st).
    destruct (unavailable st Transactions) eqn:Htx.
    + erewrite mbind_Raise by (by apply update_category_transactions_unavailable).
      eexists _, st1. split; [reflexivity|]. split; [status|].
      split_and!; [done..| |by left]. right. by exists i, d.
    + erewrite mbind_Return by (by apply update_category_transactions_run).
      eexists _, _. split; [reflexivity|]. split; [status|].
      split_and!; [done..| |by right]. right. by exists i, d.
  - erewrite mbind_Return by exact Hdoc. simpl.
    case_bool_decide; simpl; [|by stops st].
    destruct (unavailable st Transactions) eqn:Htx.
    + erewrite mbind_Raise by (by apply update_category_transactions_unavailable).
      by stops st.
    + erewrite mbind_Return by (by apply update_category_transactions_run).
      eexists _, _. split; [reflexivity|]. split; [status|].
      split_and!; [done..|by left|by right].
Qed.

(** Every store that [delete_category] can leave behind. *)
Lemma delete_category_outcome st user_id name :
  ∃ resp st',
    delete_category user_id name (Some st) = (resp, Some st')
    ∧ (resp.2 = 400 ↔ blank name = true)
    ∧ settings st' = settings st ∧ unavailable st' = unavailable st
    ∧ (categories st' = categories st
       ∨ ∃ i d, list_find (names_category user_id (normalize name)) (categories st)
                = Some (i, d)
                ∧ categories st' = delete i (categories st))
    ∧ (transactions st' = transactions st
       ∨ transactions st' = reassigned user_id (normalize name) OTROS (transactions st)).
Proof.
  unfold delete_category, try_except. cbv zeta. rewrite truthy_normalize.
  destruct (blank name); simpl; [by stops st|].
  case_bool_decide; [by stops st|].
  destruct (unavailable st Categories) eqn:Hcat.
  { erewrite mbind_Raise by (by apply delete_category_doc_unavailable).
    by stops st. }
  pose proof (delete_category_doc_run st user_id (normalize name) Hcat) as Hdoc.
  destruct (list_find _ _) as [[i d]|] eqn:Hfind.
  - erewrite mbind_Return by exact Hdoc. simpl.
    set (st1 := with_categories _ st).
    destruct (unavailable st Transactions) eqn:Htx.
    + erewrite mbind_Raise by (by apply update_category_transactions_unavailable).
      eexists _, st1. split; [reflexivity|]. split; [status|].
      split_and!; [done..| |by left]. right. by exists i, d.
    + erewrite mbind_Return by (by apply delete_category_transactions_run).
      eexists _, _. split; [reflexivity|]. split; [status|].
      split_and!; [done..| |by right]. right. by exists i, d.
  - erewrite mbind_Return by exact Hdoc. simpl. by stops st.
Qed.

(** Every store that [create_category] can leave behind. *)
Lemma create_category_outcome st now user_id name :
  ∃ resp st',
    create_category now user_id name (Some st) = (resp, Some st')
    ∧ (resp.2 = 400 ↔ blank name = true)
    ∧ settings st' = settings st ∧ unavailable st' = unavailable st
    ∧ transactions st' = transactions st
    ∧ (categories st' = categories st
       ∨ categories st'
         = categories st ++ [{| c_userId := user_id; c_name := Some (normalize name);
                                c_createdAt := now |}]).
Proof.
  unfold create_category, try_except, _get_user_categories, add_category,
    stream_categories, on_collection, mbind, M_bind, mret, M_ret. cbv zeta.
  rewrite truthy_normalize.
  destruct (blank name); simpl; [by stops st|].
  destruct (unavailable st Categories) eqn:Hcat; [by stops st|].
  case_bool_decide; [by stops st|]. rewrite Hcat.
  eexists _, _. split; [reflexivity|]. split; [status|]. split_and!; [done..|by right].
Qed.

End Outcomes.
(** X1. On ASCII names [raw.strip().title()] is idempotent: the normalised
    name is an ASCII name that a second normalisation leaves as it is. *)
Theorem normalize_idempotent (raw : string) :
  isascii raw = true →
  isascii (normalize raw) = true ∧ normalize (normalize raw) = normalize raw.
Proof. intros Hraw. by apply plain_normalize. Qed.

Lemma normalize_idempotent_witness :
  isascii (normalize "  viAJes de-verano ") = true
  ∧ normalize (normalize "  viAJes de-verano ") = normalize "  viAJes de-verano ".
Proof. apply (normalize_idempotent "  viAJes de-verano "). reflexivity. Defined.

(** X2. On an initialised handle and on ASCII names, the category views
    answer 400 exactly on blank names: [create_category] and
    [delete_category] when the name is made of white space only (or is
    empty), [update_category] when the old or the new name is. *)
Theorem category_views_reject_blank_names {amount} (st : firestore amount)
    (now : datetime) (user_id name other : string) :
  isascii name = true → isascii other = true →
  ((create_category now user_id name (Some st)).1.2 = 400 ↔ blank name = true)
  ∧ ((delete_category user_id name (Some st)).1.2 = 400 ↔ blank name = true)
  ∧ ((update_category user_id name other (Some st)).1.2 = 400
     ↔ blank name = true ∨ blank other = true).
Proof.
  intros _ _.
  destruct (create_category_outcome st now user_id name) as (r1 & s1 & -> & H1 & _).
  destruct (delete_category_outcome st user_id name) as (r2 & s2 & -> & H2 & _).
  destruct (update_category_outcome st user_id name other) as (r3 & s3 & -> & H3 & _).
  done.
Qed.

Lemma category_views_reject_blank_names_witness :
  ((create_category (Sample.date 2024 4 1) "u1" "  " (Some Sample.viajes)).1.2 = 400
   ↔ blank "  " = true)
  ∧ ((delete_category "u1" "  " (Some Sample.viajes)).1.2 = 400 ↔ blank "  " = true)
  ∧ ((update_category "u1" "  " "Paseos" (Some Sample.viajes)).1.2 = 400
     ↔ blank "  " = true ∨ blank "Paseos" = true).
Proof.
  apply (category_views_reject_blank_names Sample.viajes (Sample.date 2024 4 1)
           "u1" "  " "Paseos"); reflexivity.
Defined.
(** ** Listing after a change *)

Section Listing.

Context {amount : Type}.
Implicit Types (st : firestore amount) (user_id : string).

(** The names that [_get_user_categories] lists. *)
Lemma get_user_categories_elem_of st user_id :
  unavailable st Categories = false →
  ∃ l, _get_user_categories user_id (Some st) = (Return l, Some st)
       ∧ ∀ x, x ∈ l ↔ x = OTROS ∨ x ∈ DEFAULT_CATEGORIES ∨ x ∈ custom_names st user_id.
Proof.
  intros Hcat. destruct (get_user_categories_run st user_id Hcat) as (before & Hrun & _ & _ & Hb).
  exists (before ++ [OTROS]). split; [done|]. intros x.
  rewrite elem_of_app, Hb, list_elem_of_singleton.
  destruct (decide (x = OTROS)); naive_solver.
Qed.

(** The listing reads the category documents only. *)
Lemma get_user_categories_same_categories st st' user_id :
  categories st' = categories st → unavailable st' = unavailable st →
  (_get_user_categories user_id (Some st')).1 = (_get_user_categories user_id (Some st)).1.
Proof.
  intros Hc Hu. unfold _get_user_categories, stream_categories, on_collection,
    mbind, M_bind, mret, M_ret. rewrite Hc, Hu.
  by destruct (unavailable st Categories).
Qed.

Lemma custom_names_add st user_id name now :
  normalize name ≠ "" →
  custom_names
    (with_categories (categories st ++ [{| c_userId := user_id; c_name := Some (normalize name);
                                           c_createdAt := now |}]) st) user_id
  = custom_names st user_id ++ [normalize name].
Proof.
  intros Hname. unfold custom_names. simpl. rewrite omap_app. f_equal. simpl.
  rewrite bool_decide_eq_true_2 by done. by rewrite (proj2 (truthy_iff _) Hname).
Qed.

End Listing.

(** X3. After [create_category] has stored a name, [_get_user_categories]
    lists what it listed before and the normalised name, and a second
    [create_category] with the same name is answered 409 and stores
    nothing. *)
Theorem create_then_list {amount} (st : firestore amount) (now : datetime)
    (user_id name : string) (before : list string) :
  unavailable st Categories = false →
  normalize name ≠ "" →
  (_get_user_categories user_id (Some st)).1 = Return before →
  normalize name ∉ before →
  ∃ st' after,
    create_category now user_id name (Some st)
    = ((Body_status_name "Categoría creada ✅" (normalize name), 201), Some st')
    ∧ (_get_user_categories user_id (Some st')).1 = Return after
    ∧ (∀ x, x ∈ after ↔ x ∈ before ∨ x = normalize name)
    ∧ create_category now user_id name (Some st')
      = ((Body_error "La categoría ya existe.", 409), Some st').
Proof.
  intros Hcat Hname Hbefore Hout.
  destruct (get_user_categories_elem_of st user_id Hcat) as (l & Hrun & Hl).
  rewrite Hrun in Hbefore. injection Hbefore as ->.
  set (doc := {| c_userId := user_id; c_name := Some (normalize name); c_createdAt := now |}).
  set (st' := with_categories (categories st ++ [doc]) st).
  assert (unavailable st' Categories = false) as Hcat' by done.
  destruct (get_user_categories_elem_of st' user_id Hcat') as (l' & Hrun' & Hl').
  assert (∀ x, x ∈ l' ↔ x ∈ before ∨ x = normalize name) as Hafter.
  { intros x. rewrite Hl', Hl. unfold st', doc. rewrite custom_names_add by done.
    rewrite elem_of_app, list_elem_of_singleton. tauto. }
  exists st', l'. split_and!.
  - unfold create_category, try_except. cbv zeta.
    rewrite (proj2 (truthy_iff _) Hname). simpl.
    erewrite mbind_Return by exact Hrun. rewrite bool_decide_eq_false_2 by done.
    unfold add_category, on_collection, mbind, M_bind, mret, M_ret. by rewrite Hcat.
  - by rewrite Hrun'.
  - done.
  - unfold create_category, try_except. cbv zeta.
    rewrite (proj2 (truthy_iff _) Hname). simpl.
    erewrite mbind_Return by exact Hrun'. rewrite bool_decide_eq_true_2; [done|].
    apply Hafter. by right.
Qed.

Lemma create_then_list_witness :
  ∃ st' after,
    create_category (Sample.date 2024 4 1) "u1" " mascotas" (Some Sample.viajes)
    = ((Body_status_name "Categoría creada ✅" "Mascotas", 201), Some st')
    ∧ (_get_user_categories "u1" (Some st')).1 = Return after
    ∧ (∀ x, x ∈ after ↔
            x ∈ ["Comida"; "Entretenimiento"; "Renta"; "Servicios"; "Transporte"; "Viajes";
                 "Otros"] ∨ x = "Mascotas")
    ∧ create_category (Sample.date 2024 4 1) "u1" " mascotas" (Some st')
      = ((Body_error "La categoría ya existe.", 409), Some st').
Proof.
  apply (create_then_list Sample.viajes (Sample.date 2024 4 1) "u1" " mascotas");
    [reflexivity|discriminate|vm_compute; reflexivity|].
  intros H. repeat (apply elem_of_cons in H as [H|H]; [discriminate|]).
  by apply elem_of_nil in H.
Defined.
(** Names that stay plain. *)
Lemma names_plain_alter {amount} (st : firestore amount) i name :
  plain name → names_plain st →
  names_plain (with_categories (alter (set_name name) i (categories st)) st).
Proof.
  intros Hname Hst d n Hd Hn. simpl in Hd. apply list_elem_of_lookup in Hd as [j Hj].
  rewrite list_lookup_alter in Hj. case_decide as Hij.
  - destruct (categories st !! i) as [d'|] eqn:Hd'; simpl in Hj; [|done].
    injection Hj as <-. by injection Hn as <-.
  - eapply Hst; [|done]. by eapply list_elem_of_lookup_2.
Qed.

(** X4. On ASCII names the category views write plain names only: when
    every stored category name is an ASCII name that normalisation leaves
    as it is, it is so in the store that [create_category],
    [update_category] or [delete_category] leaves behind, whatever the
    answer. *)
Theorem category_views_keep_names_normalized {amount} (st st' : firestore amount)
    (now : datetime) (user_id name other : string) :
  isascii name = true → isascii other = true →
  names_plain st →
  (create_category now user_id name (Some st)).2 = Some st'
  ∨ (update_category user_id name other (Some st)).2 = Some st'
  ∨ (delete_category user_id name (Some st)).2 = Some st' →
  names_plain st'.
Proof.
  intros Hname Hother Hst [H|[H|H]].
  - destruct (create_category_outcome st now user_id name)
      as (r & st1 & Hrun & _ & _ & _ & _ & Hc).
    rewrite Hrun in H. injection H as <-. intros d n Hd Hn.
    destruct Hc as [Hc|Hc]; rewrite Hc in Hd; [by eapply Hst|].
    apply elem_of_app in Hd as [Hd|Hd]; [by eapply Hst|].
    apply list_elem_of_singleton in Hd as ->. injection Hn as <-.
    by apply plain_normalize.
  - destruct (update_category_outcome st user_id name other)
      as (r & st1 & Hrun & _ & _ & _ & Hc & _).
    rewrite Hrun in H. injection H as <-. intros d n Hd Hn.
    destruct Hc as [Hc|(i & d' & _ & Hc)]; rewrite Hc in Hd; [by eapply Hst|].
    eapply (names_plain_alter st i (normalize other)); [by apply plain_normalize|done..].
  - destruct (delete_category_outcome st user_id name)
      as (r & st1 & Hrun & _ & _ & _ & Hc & _).
    rewrite Hrun in H. injection H as <-. intros d n Hd Hn.
    destruct Hc as [Hc|(i & d' & _ & Hc)]; rewrite Hc in Hd; [by eapply Hst|].
    eapply Hst; [|done]. by eapply list_elem_of_delete_inv.
Qed.

Lemma category_views_keep_names_normalized_witness :
  names_plain Sample.viajes
  ∧ ∀ st', (update_category "u1" "viajes" " paseos" (Some Sample.viajes)).2 = Some st' →
           names_plain st'.
Proof.
  assert (names_plain Sample.viajes) as Hst.
  { intros d n Hd Hn. simpl in Hd.
    repeat (apply elem_of_cons in Hd as [->|Hd]; [by injection Hn as <-|]).
    by apply elem_of_nil in Hd. }
  split; [exact Hst|]. intros st' H.
  apply (category_views_keep_names_normalized Sample.viajes st' (Sample.date 2024 4 1)
           "u1" "viajes" " paseos"); [reflexivity|reflexivity|exact Hst|].
  right. by left.
Defined.

(** X5. Renaming a default category that has no category document moves
    the transactions but changes no category document: the old name is
    listed after the rename as it was before. *)
Theorem rename_default_keeps_listing {amount} (st : firestore amount)
    (user_id arg_old_name arg_new_name : string) :
  let old_name := normalize arg_old_name in
  old_name ∈ DEFAULT_CATEGORIES → normalize arg_new_name ≠ "" →
  unavailable st Categories = false → unavailable st Transactions = false →
  (∀ d, d ∈ categories st → ¬ names_category user_id old_name d) →
  ∃ body st' listing,
    update_category user_id arg_old_name arg_new_name (Some st) = ((body, 200), Some st')
    ∧ categories st' = categories st
    ∧ transactions st'
      = reassigned user_id old_name (normalize arg_new_name) (transactions st)
    ∧ (_get_user_categories user_id (Some st)).1 = Return listing
    ∧ (_get_user_categories user_id (Some st')).1 = Return listing
    ∧ old_name ∈ listing.
Proof.
  intros old_name Hdef Hnew Hcat Htx Hnone.
  assert (old_name ≠ "") as Hold.
  { intros He. rewrite He in Hdef. unfold DEFAULT_CATEGORIES in Hdef.
    repeat (apply elem_of_cons in Hdef as [Hdef|Hdef]; [discriminate|]).
    by apply elem_of_nil in Hdef. }
  pose proof (update_category_doc_run st user_id old_name (normalize arg_new_name) Hcat)
    as Hdoc.
  assert (list_find (names_category user_id old_name) (categories st) = None) as Hfind.
  { apply list_find_None, Forall_forall. exact Hnone. }
  rewrite Hfind in Hdoc.
  destruct (get_user_categories_elem_of st user_id Hcat) as (l & Hrun & Hl).
  eexists _, (with_transactions _ st), l. split_and!.
  - unfold update_category, try_except. cbv zeta. fold old_name.
    rewrite (proj2 (truthy_iff old_name) Hold), (proj2 (truthy_iff _) Hnew). simpl.
    erewrite mbind_Return by exact Hdoc. simpl.
    rewrite bool_decide_eq_true_2 by done. simpl.
    erewrite mbind_Return by (by apply update_category_transactions_run). reflexivity.
  - done.
  - done.
  - by rewrite Hrun.
  - rewrite (get_user_categories_same_categories st) by done. by rewrite Hrun.
  - apply Hl. right. by left.
Qed.

Lemma rename_default_keeps_listing_witness :
  ∃ body st' listing,
    update_category "u1" "comida" "alimentos" (Some Sample.viajes) = ((body, 200), Some st')
    ∧ categories st' = categories Sample.viajes
    ∧ transactions st' = reassigned "u1" "Comida" "Alimentos" (transactions Sample.viajes)
    ∧ (_get_user_categories "u1" (Some Sample.viajes)).1 = Return listing
    ∧ (_get_user_categories "u1" (Some st')).1 = Return listing
    ∧ "Comida" ∈ listing.
Proof.
  apply (rename_default_keeps_listing Sample.viajes "u1" "comida" "alimentos");
    [|discriminate|reflexivity|reflexivity|].
  - change (normalize "comida") with "Comida". unfold DEFAULT_CATEGORIES.
    apply elem_of_cons. right. apply elem_of_cons. by left.
  - intros d Hd [Hu Hn]. simpl in Hd.
    repeat (apply elem_of_cons in Hd as [->|Hd]; [discriminate|]).
    by apply elem_of_nil in Hd.
Defined.

(** X6. The two steps of a rename are not one transaction: when the
    category document is found and the request on the transactions then
    fails, [update_category] answers 500 with the category already renamed
    and no transaction moved. *)
Theorem rename_fails_after_first_step {amount} (st : firestore amount)
    (user_id arg_old_name arg_new_name : string) (i : nat) (d : category_doc) :
  let old_name := normalize arg_old_name in
  let new_name := normalize arg_new_name in
  old_name ≠ "" → new_name ≠ "" →
  unavailable st Categories = false → unavailable st Transactions = true →
  list_find (names_category user_id old_name) (categories st) = Some (i, d) →
  update_category user_id arg_old_name arg_new_name (Some st)
  = ((Body_error "Fallo interno al modificar categoría", 500),
     Some (with_categories (alter (set_name new_name) i (categories st)) st)).
Proof.
  intros old_name new_name Hold Hnew Hcat Htx Hfind.
  pose proof (update_category_doc_run st user_id old_name new_name Hcat) as Hdoc.
  rewrite Hfind in Hdoc.
  unfold update_category, try_except. cbv zeta. fold old_name new_name.
  rewrite (proj2 (truthy_iff old_name) Hold), (proj2 (truthy_iff new_name) Hnew). simpl.
  erewrite mbind_Return by exact Hdoc. simpl.
  by erewrite mbind_Raise by (by apply update_category_transactions_unavailable).
Qed.

(** X7. The two steps of a deletion are not one transaction either: when
    the category document is found and the request on the transactions
    then fails, [delete_category] answers 500 with the category document
    deleted and its transactions still under the deleted name. *)
Theorem delete_fails_after_first_step {amount} (st : firestore amount)
    (user_id name : string) (i : nat) (d : category_doc) :
  let category_to_delete := normalize name in
  category_to_delete ≠ "" → category_to_delete ∉ DEFAULT_CATEGORIES →
  unavailable st Categories = false → unavailable st Transactions = true →
  list_find (names_category user_id category_to_delete) (categories st) = Some (i, d) →
  delete_category user_id name (Some st)
  = ((Body_error "Fallo interno al eliminar categoría", 500),
     Some (with_categories (delete i (categories st)) st)).
Proof.
  intros category Hname Hdef Hcat Htx Hfind.
  pose proof (delete_category_doc_run st user_id category Hcat) as Hdoc.
  rewrite Hfind in Hdoc.
  unfold delete_category, try_except. cbv zeta. fold category.
  rewrite (proj2 (truthy_iff category) Hname). simpl.
  rewrite bool_decide_eq_false_2 by done.
  erewrite mbind_Return by exact Hdoc. simpl.
  by erewrite mbind_Raise by (by apply update_category_transactions_unavailable).
Qed.
Lemma rename_fails_after_first_step_witness :
  update_category "u1" "viajes" "paseos" (Some Cases.half_down)
  = ((Body_error "Fallo interno al modificar categoría", 500),
     Some (with_categories [Sample.custom "u2" "Mascotas"; Sample.custom "u1" "Paseos"]
             Cases.half_down)).
Proof.
  apply (rename_fails_after_first_step Cases.half_down "u1" "viajes" "paseos" 1
           (Sample.custom "u1" "Viajes"));
    [discriminate|discriminate|reflexivity|reflexivity|vm_compute; reflexivity].
Defined.

Lemma delete_fails_after_first_step_witness :
  delete_category "u1" "viajes" (Some Cases.half_down)
  = ((Body_error "Fallo interno al eliminar categoría", 500),
     Some (with_categories [Sample.custom "u2" "Mascotas"] Cases.half_down)).
Proof.
  apply (delete_fails_after_first_step Cases.half_down "u1" "viajes" 1
           (Sample.custom "u1" "Viajes"));
    [discriminate| |reflexivity|reflexivity|vm_compute; reflexivity].
  intros H. vm_compute in H. repeat (apply elem_of_cons in H as [H|H]; [discriminate|]).
  by apply elem_of_nil in H.
Defined.
(** ** What the category views leave alone *)

Section Untouched.

Context {amount : Type}.
Implicit Types (st : firestore amount) (user_id : string).

Lemma filter_alter_other {D} (P : D → Prop) `{∀ x, Decision (P x)} (f : D → D)
    (l : list D) i d :
  l !! i = Some d → ¬ P d → ¬ P (f d) → filter P (alter f i l) = filter P l.
Proof.
  revert i. induction l as [|x l IH]; intros i Hi Hd Hfd; [done|].
  destruct i as [|i].
  - injection Hi as ->. change (alter f 0 (d :: l)) with (f d :: l).
    by rewrite !filter_cons, !decide_False.
  - change (alter f (S i) (x :: l)) with (x :: alter f i l).
    rewrite !filter_cons. by rewrite (IH i).
Qed.

Lemma filter_delete_other {D} (P : D → Prop) `{∀ x, Decision (P x)} (l : list D) i d :
  l !! i = Some d → ¬ P d → filter P (delete i l) = filter P l.
Proof.
  revert i. induction l as [|x l IH]; intros i Hi Hd; [done|].
  destruct i as [|i].
  - injection Hi as ->. change (delete 0 (d :: l)) with l.
    by rewrite filter_cons, decide_False.
  - change (delete (S i) (x :: l)) with (x :: delete i l).
    rewrite !filter_cons. by rewrite (IH i).
Qed.

Lemma filter_reassigned_other user_id old new (l : list (transaction_doc amount)) :
  filter (λ d, t_userId d ≠ user_id) (reassigned user_id old new l)
  = filter (λ d, t_userId d ≠ user_id) l.
Proof.
  unfold reassigned. induction l as [|d l IH]; [done|].
  rewrite fmap_cons, !filter_cons, IH.
  destruct (decide (in_category user_id old d)) as [[Hu _]|Hn]; [|done]. simpl.
  by rewrite !decide_False by (intros ?; done).
Qed.

Lemma without_category_reassigned user_id old new (l : list (transaction_doc amount)) :
  without_category <$> reassigned user_id old new l = without_category <$> l.
Proof.
  unfold reassigned. rewrite <- list_fmap_compose. apply list_fmap_ext.
  intros _ d _. simpl. by case_decide.
Qed.

End Untouched.

(** X8. The category views of one user never touch what belongs to another
    user, whatever their answer: after [create_category], [update_category]
    or [delete_category] for [user_id] the category documents and the
    transactions of the other users, and the settings, are as they were. *)
Theorem category_views_leave_other_users {amount} (st : firestore amount)
    (now : datetime) (user_id name other : string) :
  let kept st' :=
    filter (λ d, c_userId d ≠ user_id) (categories st')
    = filter (λ d, c_userId d ≠ user_id) (categories st)
    ∧ filter (λ d, t_userId d ≠ user_id) (transactions st')
      = filter (λ d, t_userId d ≠ user_id) (transactions st)
    ∧ settings st' = settings st in
  (∃ st', (create_category now user_id name (Some st)).2 = Some st' ∧ kept st')
  ∧ (∃ st', (update_category user_id name other (Some st)).2 = Some st' ∧ kept st')
  ∧ (∃ st', (delete_category user_id name (Some st)).2 = Some st' ∧ kept st').
Proof.
  intros kept. unfold kept. split_and!.
  - destruct (create_category_outcome st now user_id name)
      as (r & st' & -> & _ & Hs & _ & Ht & Hc).
    exists st'. split; [done|]. rewrite Ht. split_and!; [|done..].
    destruct Hc as [->| ->]; [done|].
    rewrite filter_app, filter_cons, decide_False by (intros ?; done).
    by rewrite filter_nil, app_nil_r.
  - destruct (update_category_outcome st user_id name other)
      as (r & st' & -> & _ & Hs & _ & Hc & Ht).
    exists st'. split; [done|]. split_and!; [| |done].
    + destruct Hc as [->|(i & d & Hfind & ->)]; [done|].
      apply list_find_Some in Hfind as (Hi & [Hu _] & _).
      by apply (filter_alter_other _ _ _ i d); [|intros ?..].
    + destruct Ht as [->| ->]; [done|]. apply filter_reassigned_other.
  - destruct (delete_category_outcome st user_id name)
      as (r & st' & -> & _ & Hs & _ & Hc & Ht).
    exists st'. split; [done|]. split_and!; [| |done].
    + destruct Hc as [->|(i & d & Hfind & ->)]; [done|].
      apply list_find_Some in Hfind as (Hi & [Hu _] & _).
      by apply (filter_delete_other _ _ i d); [|intros ?].
    + destruct Ht as [->| ->]; [done|]. apply filter_reassigned_other.
Qed.

(** X9. The category views never add, remove or reorder a transaction, and
    change no field of a transaction but its category: [create_category]
    leaves the transactions as they are, and after [update_category] or
    [delete_category] the transactions are the same ones up to their
    categories, whatever the answer. *)
Theorem category_views_keep_transactions {amount} (st : firestore amount)
    (now : datetime) (user_id name other : string) :
  (∃ st', (create_category now user_id name (Some st)).2 = Some st'
          ∧ transactions st' = transactions st)
  ∧ (∃ st', (update_category user_id name other (Some st)).2 = Some st'
            ∧ without_category <$> transactions st' = without_category <$> transactions st)
  ∧ (∃ st', (delete_category user_id name (Some st)).2 = Some st'
            ∧ without_category <$> transactions st' = without_category <$> transactions st).
Proof.
  split_and!.
  - destruct (create_category_outcome st now user_id name)
      as (r & st' & -> & _ & _ & _ & Ht & _). by exists st'.
  - destruct (update_category_outcome st user_id name other)
      as (r & st' & -> & _ & _ & _ & _ & Ht).
    exists st'. split; [done|]. destruct Ht as [->| ->]; [done|].
    apply without_category_reassigned.
  - destruct (delete_category_outcome st user_id name)
      as (r & st' & -> & _ & _ & _ & _ & Ht).
    exists st'. split; [done|]. destruct Ht as [->| ->]; [done|].
    apply without_category_reassigned.
Qed.
(** ** Deleting and listing *)

Lemma filter_delete_match {D} (P : D → Prop) `{∀ x, Decision (P x)} (l : list D) i d :
  l !! i = Some d → P d → length (filter P l) = S (length (filter P (delete i l))).
Proof.
  revert i. induction l as [|x l IH]; intros i Hi Hd; [done|].
  destruct i as [|i].
  - injection Hi as ->. change (delete 0 (d :: l)) with l.
    by rewrite filter_cons, decide_True.
  - change (delete (S i) (x :: l)) with (x :: delete i l).
    rewrite !filter_cons. destruct (decide (P x)); simpl; by rewrite (IH i).
Qed.

(** X10. After [delete_category] has deleted the only category document of
    a name other than ['Otros'], which is always listed, the name is no
    longer listed by [_get_user_categories], and a second
    [delete_category] of the name is answered 404 and changes nothing. *)
Theorem delete_then_list {amount} (st : firestore amount) (user_id name : string)
    (d : category_doc) :
  let category_to_delete := normalize name in
  category_to_delete ≠ "" → category_to_delete ∉ DEFAULT_CATEGORIES →
  category_to_delete ≠ OTROS →
  unavailable st Categories = false → unavailable st Transactions = false →
  filter (names_category user_id category_to_delete) (categories st) = [d] →
  ∃ body st' listing,
    delete_category user_id name (Some st) = ((body, 200), Some st')
    ∧ (_get_user_categories user_id (Some st')).1 = Return listing
    ∧ (category_to_delete ∉ listing)
    ∧ delete_category user_id name (Some st')
      = ((Body_error ("Categoría '" +:+ category_to_delete +:+
                      "' no encontrada en las categorías personalizadas."), 404), Some st').
Proof.
  intros category Hname Hdef Hotros Hcat Htx Hone.
  assert (∃ i d', list_find (names_category user_id category) (categories st) = Some (i, d'))
    as (i & d' & Hfind).
  { apply list_find_names_category. exists d.
    assert (d ∈ filter (names_category user_id category) (categories st)) as Hd
      by (rewrite Hone; by left).
    by apply list_elem_of_filter in Hd as [? ?]. }
  pose proof (delete_category_doc_run st user_id category Hcat) as Hdoc.
  rewrite Hfind in Hdoc.
  set (st1 := with_categories (delete i (categories st)) st) in Hdoc.
  set (st' := with_transactions (reassigned user_id category OTROS (transactions st)) st1).
  assert (filter (names_category user_id category) (categories st') = []) as Hgone.
  { apply list_find_Some in Hfind as (Hi & Hd' & _).
    pose proof (filter_delete_match (names_category user_id category) _ i d' Hi Hd') as Hlen.
    rewrite Hone in Hlen. simpl in Hlen. apply nil_length_inv. simpl. lia. }
  assert (unavailable st' Categories = false) as Hcat' by done.
  destruct (get_user_categories_elem_of st' user_id Hcat') as (l & Hrun & Hl).
  eexists _, st', l. split_and!.
  - unfold delete_category, try_except. cbv zeta. fold category.
    rewrite (proj2 (truthy_iff category) Hname). simpl.
    rewrite bool_decide_eq_false_2 by done.
    erewrite mbind_Return by exact Hdoc. simpl.
    erewrite mbind_Return by (by apply delete_category_transactions_run). reflexivity.
  - by rewrite Hrun.
  - rewrite Hl. intros [?|[?|Hc]]; [done..|].
    apply elem_of_custom_names in Hc as (_ & d'' & Hd'' & Hn).
    assert (d'' ∈ filter (names_category user_id category) (categories st')) as Hin
      by (by apply list_elem_of_filter).
    rewrite Hgone in Hin. by apply elem_of_nil in Hin.
  - pose proof (delete_category_doc_run st' user_id category Hcat') as Hdoc'.
    assert (list_find (names_category user_id category) (categories st') = None) as Hnone.
    { apply list_find_None, Forall_forall. intros d'' Hd'' Hn.
      assert (d'' ∈ filter (names_category user_id category) (categories st')) as Hin
        by (by apply list_elem_of_filter).
      rewrite Hgone in Hin. by apply elem_of_nil in Hin. }
    rewrite Hnone in Hdoc'.
    unfold delete_category, try_except. cbv zeta. fold category.
    rewrite (proj2 (truthy_iff category) Hname). simpl.
    rewrite bool_decide_eq_false_2 by done.
    by erewrite mbind_Return by exact Hdoc'.
Qed.

Lemma delete_then_list_witness :
  ∃ body st' listing,
    delete_category "u1" "viajes" (Some Sample.viajes) = ((body, 200), Some st')
    ∧ (_get_user_categories "u1" (Some st')).1 = Return listing
    ∧ ("Viajes" ∉ listing)
    ∧ delete_category "u1" "viajes" (Some st')
      = ((Body_error "Categoría 'Viajes' no encontrada en las categorías personalizadas.",
          404), Some st').
Proof.
  apply (delete_then_list Sample.viajes "u1" "viajes" (Sample.custom "u1" "Viajes"));
    [discriminate| |discriminate|reflexivity|reflexivity|vm_compute; reflexivity].
  intros H. vm_compute in H. repeat (apply elem_of_cons in H as [H|H]; [discriminate|]).
  by apply elem_of_nil in H.
Defined.

(** X11. [get_categories] never changes the store.  It answers 500 exactly
    when the handle is initialised and the read of the category documents
    fails; otherwise it answers 200 with a list, in which ['Otros'] is
    present exactly when the handle is initialised: without a client the
    list is the default one, which lacks ['Otros']. *)
Theorem get_categories_answers {amount} (db : option (firestore amount)) (user_id : string) :
  ∃ body code,
    get_categories user_id db = ((body, code), db)
    ∧ (code = 500 ↔ ∃ st, db = Some st ∧ unavailable st Categories = true)
    ∧ (code ≠ 500 →
       code = 200 ∧ ∃ l, body = Body_categories l ∧ (OTROS ∈ l ↔ db ≠ None)).
Proof.
  destruct db as [st|].
  - destruct (unavailable st Categories) eqn:Hcat.
    + eexists _, 500. split_and!.
      * unfold get_categories, try_except, _get_user_categories, stream_categories,
          on_collection, mbind, M_bind. by rewrite Hcat.
      * split; [|done]. intros _. by exists st.
      * done.
    + destruct (get_user_categories_elem_of st user_id Hcat) as (l & Hrun & Hl).
      eexists _, 200. split_and!.
      * unfold get_categories, try_except. by erewrite mbind_Return by exact Hrun.
      * split; [done|]. intros (st' & [= <-] & ?). congruence.
      * intros _. split; [done|]. exists l. split; [done|]. split; [done|].
        intros _. apply Hl. by left.
  - eexists _, 200. split_and!; [reflexivity| |].
    + split; [done|]. by intros (st & ? & _).
    + intros _. split; [done|]. eexists. split; [reflexivity|]. split; [|done].
      unfold DEFAULT_CATEGORIES. intros H.
      repeat (apply elem_of_cons in H as [H|H]; [discriminate|]). by apply elem_of_nil in H.
Qed.
(** ** The entries of the monthly report *)

Section ReportEntries.

Context {amount : Type} (azero : amount) (aplus : amount → amount → amount)
        (asum : list amount → amount).

Local Abbreviation build ds :=
  (foldl (λ acc d, monthly_step azero aplus acc (0, d)) ([], ∅) ds).

(** The type that the loop of [monthly_report] has kept for a category
    after the documents [ds]: the one of the last kept document of the
    category. *)
Lemma types_dict_invariant (ds : list (transaction_doc amount)) c :
  (build ds).2 !! c
  = last (filter (λ d, category_of d = c) (filter typed ds)) ≫= t_type.
Proof.
  induction ds as [|d ds IH] using rev_ind; [done|].
  rewrite foldl_app. simpl. destruct (decide (typed d)) as [Ht|Ht].
  - rewrite monthly_step_typed by done. simpl.
    rewrite filter_app, (filter_cons typed), decide_True by done.
    rewrite filter_nil, filter_app, filter_cons, filter_nil.
    destruct (decide (category_of d = c)) as [<-|Hc].
    + rewrite lookup_insert_eq, last_snoc. simpl.
      destruct Ht as (type & -> & _). done.
    + rewrite lookup_insert_ne by done. by rewrite app_nil_r.
  - rewrite monthly_step_untyped by done.
    rewrite filter_app, (filter_cons typed), decide_False by done.
    by rewrite filter_nil, app_nil_r.
Qed.

(** X12. In the answer of [monthly_report] no category comes twice, and
    the categories are exactly the normalised categories of the
    transactions of the user that have the type income or expense. *)
Theorem monthly_report_categories (st : firestore amount) (user_id : string) :
  user_id ≠ "" → unavailable st Transactions = false →
  ∃ entries,
    monthly_report azero aplus asum user_id (Some st) = ((Body_report entries, 200), Some st)
    ∧ NoDup (category_name <$> entries)
    ∧ ∀ c, c ∈ category_name <$> entries ↔
           ∃ d, d ∈ filter (reported user_id) (transactions st) ∧ category_of d = c.
Proof.
  intros Huser Htx. eexists. split; [by apply monthly_report_run|].
  rewrite trend_names. split; [apply monthly_data_invariant|].
  intros c. rewrite report_names. by rewrite (filter_typed_of_user user_id).
Qed.

(** X13. The type of an entry of [monthly_report] is the type of the last
    transaction of its category in stream order, among those of the user
    with the type income or expense: a category with both types is reported
    under the later one. *)
Theorem monthly_report_type_of_last (st : firestore amount) (user_id : string) :
  user_id ≠ "" → unavailable st Transactions = false →
  ∃ entries,
    monthly_report azero aplus asum user_id (Some st) = ((Body_report entries, 200), Some st)
    ∧ ∀ e, e ∈ entries →
        ∃ d, last (filter (λ d, category_of d = category_name e)
                          (filter (reported user_id) (transactions st))) = Some d
             ∧ t_type d = Some (entry_type e).
Proof.
  intros Huser Htx. eexists. split; [by apply monthly_report_run|].
  set (ds := filter _ (transactions st)).
  set (docs := filter (reported user_id) (transactions st)).
  assert (filter typed ds = docs) as Hdocs by apply filter_typed_of_user.
  intros e He. apply list_elem_of_fmap in He as ([c months] & -> & Hin). simpl.
  rewrite types_dict_invariant, Hdocs.
  destruct (monthly_data_invariant azero aplus ds) as [Hn Hinv].
  specialize (Hinv c). rewrite (elem_of_dict_get c months _ Hn Hin) in Hinv.
  destruct Hinv as [Hne Hlook].
  destruct (map_choose months Hne) as (m & a & Hm). rewrite Hlook, Hdocs in Hm.
  destruct (filter (λ d, category_of d = c ∧ month_of d = m) docs) as [|d0 l0] eqn:Hf;
    [done|].
  assert (d0 ∈ filter (λ d, category_of d = c) docs) as Hd0.
  { assert (d0 ∈ filter (λ d, category_of d = c ∧ month_of d = m) docs) as Hd
      by (rewrite Hf; by left).
    apply list_elem_of_filter in Hd as [[Hc _] Hd]. by apply list_elem_of_filter. }
  destruct (last (filter (λ d, category_of d = c) docs)) as [d|] eqn:Hlast.
  - exists d. split; [done|]. simpl.
    assert (d ∈ filter (λ d, category_of d = c) docs) as Hd.
    { apply last_Some in Hlast as [l' ->]. apply elem_of_app. right. by left. }
    apply list_elem_of_filter in Hd as [_ Hd]. unfold docs in Hd.
    apply list_elem_of_filter in Hd as [[_ (type & -> & _)] _]. done.
  - apply last_None in Hlast. rewrite Hlast in Hd0. by apply elem_of_nil in Hd0.
Qed.

End ReportEntries.

Lemma monthly_report_categories_witness :
  ∃ entries,
    monthly_report Float64.zero Float64.add Float64.sum "u1" (Some Sample.one_month)
    = ((Body_report entries, 200), Some Sample.one_month)
    ∧ NoDup (category_name <$> entries)
    ∧ ∀ c, c ∈ category_name <$> entries ↔
           ∃ d, d ∈ filter (reported "u1") (transactions Sample.one_month)
                ∧ category_of d = c.
Proof.
  apply (monthly_report_categories Float64.zero Float64.add Float64.sum Sample.one_month "u1");
    [discriminate|reflexivity].
Defined.

Lemma monthly_report_type_of_last_witness :
  ∃ entries,
    monthly_report Float64.zero Float64.add Float64.sum "u1" (Some Sample.one_month)
    = ((Body_report entries, 200), Some Sample.one_month)
    ∧ ∀ e, e ∈ entries →
        ∃ d, last (filter (λ d, category_of d = category_name e)
                          (filter (reported "u1") (transactions Sample.one_month))) = Some d
             ∧ t_type d = Some (entry_type e).
Proof.
  apply (monthly_report_type_of_last Float64.zero Float64.add Float64.sum Sample.one_month
           "u1"); [discriminate|reflexivity].
Defined.

(** ** Adding a transaction *)

Section AddTransaction.

Context {amount raw : Type}.
Context (to_float : raw → option amount) (strptime_Ymd : string → option datetime).
Implicit Types (st : firestore amount) (data : transaction_body raw) (user_id : string).

Lemma required_fields_present data :
  list_find (λ field, has_field data field = false) required_fields = None
  ↔ is_Some (b_type data) ∧ is_Some (b_amount data) ∧ is_Some (b_category data)
    ∧ is_Some (b_description data) ∧ is_Some (b_date data).
Proof.
  destruct data as [[t|] [a|] [c|] [de|] [da|]]; vm_compute;
    (split; [intros H; first [discriminate | by eauto 10]
            |intros (H1 & H2 & H3 & H4 & H5); first [done | by destruct H1 | by destruct H2
               | by destruct H3 | by destruct H4 | by destruct H5]]).
Qed.

(** What [add_transaction] does, case by case. *)
Lemma add_transaction_run st user_id data :
  add_transaction to_float strptime_Ymd user_id data (Some st)
  = match list_find (λ field, has_field data field = false) required_fields with
    | Some (_, field) => ((Body_error ("Falta campo " +:+ field), 400), Some st)
    | None =>
        match document_of to_float strptime_Ymd user_id data with
        | Some d =>
            if unavailable st Transactions
            then ((Body_error "Fallo interno del servidor", 500), Some st)
            else ((Body_status "Transacción guardada ✅", 201),
                  Some (with_transactions (transactions st ++ [d]) st))
        | None => ((Body_error "Fallo interno del servidor", 500), Some st)
        end
    end.
Proof.
  unfold add_transaction, try_except.
  destruct (list_find _ _) as [[i field]|] eqn:Hfind; [done|].
  apply required_fields_present in Hfind
    as ([t Ht] & [a Ha] & [c Hc] & [de Hde] & [da Hda]).
  unfold document_of. rewrite Ht, Ha, Hc, Hde, Hda. simpl.
  unfold mbind at 1, M_bind, or_raise. simpl.
  destruct (to_float a) as [x|]; simpl; [|done].
  unfold mbind at 1. simpl. unfold mbind at 1. simpl.
  destruct da as [da|]; simpl; [|by destruct c].
  unfold mbind at 1. simpl.
  destruct (strptime_Ymd da) as [date|]; simpl; [|by destruct c].
  unfold mbind at 1. simpl. unfold mbind at 1. simpl.
  destruct c as [c|]; simpl; [|done].
  unfold mbind, add_transaction_ref, on_collection. simpl.
  by destruct (unavailable st Transactions).
Qed.

Lemma document_of_fields user_id data d :
  document_of to_float strptime_Ymd user_id data = Some d →
  list_find (λ field, has_field data field = false) required_fields = None
  ∧ t_userId d = user_id ∧ t_type d = b_type data
  ∧ ∃ c, b_category data = Some (Text c) ∧ t_category d = Some (normalize c).
Proof.
  unfold document_of. intros Hd.
  destruct (b_type data) as [t|] eqn:Ht; [|done]. simpl in Hd.
  destruct (b_amount data) as [a|] eqn:Ha; [|done]. simpl in Hd.
  destruct (to_float a) as [x|]; [|done]. simpl in Hd.
  destruct (b_category data) as [[c|]|] eqn:Hc; [|done..]. simpl in Hd.
  destruct (b_description data) as [de|] eqn:Hde; [|done]. simpl in Hd.
  destruct (b_date data) as [[da|]|] eqn:Hda; [|done..]. simpl in Hd.
  destruct (strptime_Ymd da) as [date|]; [|done]. injection Hd as <-.
  split. { apply required_fields_present. rewrite Ht, Ha, Hc, Hde, Hda. by eauto 10. }
  split_and!; [done..|]. by exists c.
Qed.

(** Every store that [add_transaction] can leave behind. *)
Lemma add_transaction_outcome st user_id data :
  ∃ resp st',
    add_transaction to_float strptime_Ymd user_id data (Some st) = (resp, Some st')
    ∧ categories st' = categories st ∧ settings st' = settings st
    ∧ unavailable st' = unavailable st
    ∧ ((resp.2 = 201 ∧ unavailable st Transactions = false
        ∧ ∃ d, document_of to_float strptime_Ymd user_id data = Some d
               ∧ transactions st' = transactions st ++ [d])
       ∨ (resp.2 ≠ 201 ∧ st' = st
          ∧ (document_of to_float strptime_Ymd user_id data = None
             ∨ unavailable st Transactions = true))).
Proof.
  rewrite add_transaction_run.
  destruct (list_find _ _) as [[i field]|] eqn:Hfind.
  { eexists _, st. split_and!; [done..|]. right. split_and!; [done..|]. left.
    destruct (document_of _ _ _ _) as [d|] eqn:Hd; [|done].
    apply document_of_fields in Hd as [Hnone _]. congruence. }
  destruct (document_of _ _ _ _) as [d|] eqn:Hd.
  - destruct (unavailable st Transactions) eqn:Htx.
    + eexists _, st. split_and!; [done..|]. right. split_and!; [done..|]. by right.
    + eexists _, _. split_and!; [done..|]. left. split_and!; [done..|]. by exists d.
  - eexists _, st. split_and!; [done..|]. right. split_and!; [done..|]. by left.
Qed.

End AddTransaction.

(** X14. [add_transaction] checks the body before it touches the store:
    the first of the entries type, amount, category, description and date
    that the body lacks is named in an answer 400, and the store is left as
    it is, also when the collection is out of reach. *)
Theorem add_transaction_first_missing_field {amount raw}
    (to_float : raw → option amount) (strptime_Ymd : string → option datetime)
    (st : firestore amount) (user_id : string) (data : transaction_body raw)
    (i : nat) (field : string) :
  required_fields !! i = Some field →
  has_field data field = false →
  (∀ j f, (j < i)%nat → required_fields !! j = Some f → has_field data f = true) →
  add_transaction to_float strptime_Ymd user_id data (Some st)
  = ((Body_error ("Falta campo " +:+ field), 400), Some st).
Proof.
  intros Hi Hfield Hbefore. rewrite add_transaction_run.
  assert (list_find (λ field, has_field data field = false) required_fields
          = Some (i, field)) as ->; [|done].
  apply list_find_Some. split_and!; [done..|].
  intros j f Hj Hlt. rewrite (Hbefore j f Hlt Hj). done.
Qed.

Lemma add_transaction_first_missing_field_witness :
  add_transaction Requests.to_float Requests.strptime_Ymd "u1" Requests.incomplete
    (Some Cases.half_down)
  = ((Body_error "Falta campo category", 400), Some Cases.half_down).
Proof.
  apply (add_transaction_first_missing_field Requests.to_float Requests.strptime_Ymd
           Cases.half_down "u1" Requests.incomplete 2 "category");
    [reflexivity|reflexivity|].
  intros j f Hj Hf. destruct j as [|[|j]]; [by injection Hf as <-..|lia].
Defined.

(** X15. [add_transaction] stores a document exactly when it answers 201,
    which it does exactly when every entry is present, the category and
    the date are strings, the amount and the date parse and the collection
    answers; a category or a date of another JSON type is never answered
    201.  The document goes into the collection of transactions, under
    [user_id] and under the normalised category of the body; with any
    other answer the store is as it was.  The categories and the settings
    are never touched. *)
Theorem add_transaction_stores {amount raw}
    (to_float : raw → option amount) (strptime_Ymd : string → option datetime)
    (st : firestore amount) (user_id : string) (data : transaction_body raw) :
  ∃ resp st',
    add_transaction to_float strptime_Ymd user_id data (Some st) = (resp, Some st')
    ∧ categories st' = categories st ∧ settings st' = settings st
    ∧ (resp.2 = 201
       ↔ is_Some (document_of to_float strptime_Ymd user_id data)
         ∧ unavailable st Transactions = false)
    ∧ (b_category data = Some Other ∨ b_date data = Some Other → resp.2 ≠ 201)
    ∧ (resp.2 = 201 →
       ∃ d c, transactions st' = transactions st ++ [d]
              ∧ t_userId d = user_id ∧ b_category data = Some (Text c)
              ∧ t_category d = Some (normalize c))
    ∧ (resp.2 ≠ 201 → st' = st).
Proof.
  destruct (add_transaction_outcome to_float strptime_Ymd st user_id data)
    as (resp & st' & Hrun & Hc & Hs & _ & H).
  exists resp, st'. split_and!; [done..| | | |].
  - destruct H as [(Hr & Htx & d & Hd & _)|(Hr & _ & H)].
    + split; [|done]. intros _. by rewrite Hd.
    + split; [done|]. intros [[d Hd] Htx]. destruct H; congruence.
  - intros Hother Hr. destruct H as [(_ & _ & d & Hd & _)|(? & _)]; [|done].
    unfold document_of in Hd.
    destruct (b_type data); [|done]. simpl in Hd.
    destruct (b_amount data) as [a|]; [|done]. simpl in Hd.
    destruct (to_float a); [|done]. simpl in Hd.
    destruct (b_category data) as [[c|]|]; [|done..]. simpl in Hd.
    destruct (b_description data); [|done]. simpl in Hd.
    destruct (b_date data) as [[da|]|]; [|done..].
    by destruct Hother.
  - intros Hr. destruct H as [(_ & _ & d & Hd & Ht)|(? & _)]; [|done].
    apply document_of_fields in Hd as (_ & Hu & _ & c & Hc' & Hcat). by exists d, c.
  - intros Hr. by destruct H as [(? & _)|(_ & -> & _)].
Qed.

(** ** Plain categories of transactions *)

Section CategoriesPlain.

Context {amount : Type}.
Implicit Types (st : firestore amount).

Lemma reassigned_plain user_id old new (l : list (transaction_doc amount)) :
  plain new →
  (∀ d c, d ∈ l → t_category d = Some c → plain c) →
  ∀ d c, d ∈ reassigned user_id old new l → t_category d = Some c → plain c.
Proof.
  intros Hnew Hl d c Hd Hc. unfold reassigned in Hd.
  apply list_elem_of_fmap in Hd as (d0 & -> & Hd0).
  destruct (decide (in_category user_id old d0)); [|by eapply Hl].
  simpl in Hc. by injection Hc as <-.
Qed.

End CategoriesPlain.

(** X16. On ASCII names the views write plain categories only: when the
    category of every stored transaction is an ASCII name that
    normalisation leaves as it is, it is so in the store that
    [add_transaction], [create_category], [update_category] or
    [delete_category] leaves behind, whatever the answer. *)
Theorem views_keep_transactions_normalized {amount raw}
    (to_float : raw → option amount) (strptime_Ymd : string → option datetime)
    (st st' : firestore amount) (now : datetime) (user_id name other : string)
    (data : transaction_body raw) :
  isascii name = true → isascii other = true →
  (∀ c, b_category data = Some (Text c) → isascii c = true) →
  categories_plain st →
  (add_transaction to_float strptime_Ymd user_id data (Some st)).2 = Some st'
  ∨ (create_category now user_id name (Some st)).2 = Some st'
  ∨ (update_category user_id name other (Some st)).2 = Some st'
  ∨ (delete_category user_id name (Some st)).2 = Some st' →
  categories_plain st'.
Proof.
  intros Hname Hother Hbody Hst [H|[H|[H|H]]].
  - destruct (add_transaction_outcome to_float strptime_Ymd st user_id data)
      as (resp & st1 & Hrun & _ & _ & _ & Hout).
    rewrite Hrun in H. injection H as <-.
    destruct Hout as [(_ & _ & d & Hd & Ht)|(_ & -> & _)]; [|done].
    intros d' c Hd' Hc. rewrite Ht in Hd'. apply elem_of_app in Hd' as [Hd'|Hd'].
    + by eapply Hst.
    + apply list_elem_of_singleton in Hd' as ->.
      apply document_of_fields in Hd as (_ & _ & _ & c' & Hc' & Hcat).
      rewrite Hcat in Hc. injection Hc as <-. apply plain_normalize. by apply Hbody.
  - destruct (create_category_outcome st now user_id name)
      as (resp & st1 & Hrun & _ & _ & _ & Ht & _).
    rewrite Hrun in H. injection H as <-. unfold categories_plain. by rewrite Ht.
  - destruct (update_category_outcome st user_id name other)
      as (resp & st1 & Hrun & _ & _ & _ & _ & Ht).
    rewrite Hrun in H. injection H as <-. unfold categories_plain.
    destruct Ht as [->| ->]; [done|].
    apply reassigned_plain; [by apply plain_normalize|done].
  - destruct (delete_category_outcome st user_id name)
      as (resp & st1 & Hrun & _ & _ & _ & _ & Ht).
    rewrite Hrun in H. injection H as <-. unfold categories_plain.
    destruct Ht as [->| ->]; [done|].
    apply reassigned_plain; [by split|done].
Qed.

Lemma views_keep_transactions_normalized_witness :
  categories_plain Sample.viajes
  ∧ ∀ st', (add_transaction Requests.to_float Requests.strptime_Ymd "u1" Requests.taxi
              (Some Sample.viajes)).2 = Some st' →
           categories_plain st'.
Proof.
  assert (categories_plain Sample.viajes) as Hst.
  { intros d c Hd Hc. simpl in Hd.
    repeat (apply elem_of_cons in Hd as [->|Hd]; [by injection Hc as <-|]).
    by apply elem_of_nil in Hd. }
  split; [exact Hst|]. intros st' H.
  apply (views_keep_transactions_normalized Requests.to_float Requests.strptime_Ymd
           Sample.viajes st' (Sample.date 2024 4 1) "u1" "" "" Requests.taxi);
    [reflexivity|reflexivity| |exact Hst|by left].
  intros c [= <-]. reflexivity.
Defined.

(** ** Adding and reporting *)

(** X17. A transaction that [add_transaction] has stored with the type
    income or expense and an ASCII category shows in the next
    [monthly_report] of the user, under the normalised category of the
    body. *)
Theorem add_transaction_then_report {amount raw}
    (to_float : raw → option amount) (strptime_Ymd : string → option datetime)
    (azero : amount) (aplus : amount → amount → amount) (asum : list amount → amount)
    (st st' : firestore amount) (user_id : string) (data : transaction_body raw)
    (body : json amount) (c type : string) :
  user_id ≠ "" →
  add_transaction to_float strptime_Ymd user_id data (Some st) = ((body, 201), Some st') →
  b_category data = Some (Text c) → isascii c = true → b_type data = Some type →
  type ∈ ["expense"; "income"] →
  ∃ entries,
    monthly_report azero aplus asum user_id (Some st') = ((Body_report entries, 200), Some st')
    ∧ normalize c ∈ category_name <$> entries.
Proof.
  intros Huser Hrun Hc Hascii Htype Hin.
  destruct (add_transaction_outcome to_float strptime_Ymd st user_id data)
    as (resp & st1 & Hrun' & _ & _ & Hun & Hout).
  rewrite Hrun in Hrun'. injection Hrun' as <- <-.
  destruct Hout as [(_ & Htx & d & Hd & Ht)|(? & _)]; [|done].
  apply document_of_fields in Hd as (_ & Hu & Hty & c' & Hc' & Hcat).
  assert (c' = c) as -> by congruence.
  eexists. split; [apply monthly_report_run; [done|by rewrite Hun]|].
  rewrite trend_names. apply report_names. exists d. split.
  - rewrite (filter_typed_of_user user_id). apply list_elem_of_filter. split.
    + split; [done|]. exists type. split; [congruence|done].
    + rewrite Ht. apply elem_of_app. right. by left.
  - unfold category_of. rewrite Hcat. simpl. apply normalize_idemp.
Qed.

Lemma add_transaction_then_report_witness :
  ∃ entries,
    monthly_report Float64.zero Float64.add Float64.sum "u1"
      (Some (with_transactions
               (transactions Sample.viajes
                ++ [{| t_userId := "u1"; t_type := Some "expense"; t_amount := Some 85%float;
                       t_category := Some "Taxi"; t_description := "Aeropuerto";
                       t_date := Sample.date 2024 4 2 |}])
               Sample.viajes))
    = ((Body_report entries, 200),
       Some (with_transactions
               (transactions Sample.viajes
                ++ [{| t_userId := "u1"; t_type := Some "expense"; t_amount := Some 85%float;
                       t_category := Some "Taxi"; t_description := "Aeropuerto";
                       t_date := Sample.date 2024 4 2 |}])
               Sample.viajes))
    ∧ "Taxi" ∈ category_name <$> entries.
Proof.
  apply (add_transaction_then_report Requests.to_float Requests.strptime_Ymd
           Float64.zero Float64.add Float64.sum Sample.viajes _ "u1" Requests.taxi
           (Body_status "Transacción guardada ✅") " taxi " "expense");
    [discriminate|reflexivity|reflexivity|reflexivity|reflexivity|by left].
Defined.

(** ** The balance *)

Section Balance.

Context {amount : Type} (azero : amount) (aplus aminus : amount → amount → amount).
Implicit Types (st : firestore amount) (user_id : string).

Local Abbreviation step := (λ balance d, balance_step azero aplus aminus balance (0, d)).

Lemma balance_step_data z (docs : list (nat * transaction_doc amount)) :
  foldl (balance_step azero aplus aminus) z docs = foldl step z docs.*2.
Proof. revert z. induction docs as [|doc docs IH]; intros z; simpl; [done|]. by rewrite <- IH. Qed.

Lemma get_balance_run st user_id :
  unavailable st Transactions = false →
  get_balance azero aplus aminus user_id (Some st)
  = ((Body_balance
        (foldl step azero (filter (λ d, bool_decide (t_userId d = user_id)) (transactions st))),
      200), Some st).
Proof.
  intros Htx. unfold get_balance, try_except, stream_transactions, on_collection,
    mbind, M_bind, mret, M_ret.
  rewrite Htx. by rewrite balance_step_data, where_data.
Qed.

Lemma get_balance_unavailable st user_id :
  unavailable st Transactions = true →
  get_balance azero aplus aminus user_id (Some st)
  = ((Body_failure "Fallo interno del servidor", 500), Some st).
Proof.
  intros Htx. unfold get_balance, try_except, stream_transactions, on_collection,
    mbind, M_bind. by rewrite Htx.
Qed.

(** A transaction that is neither an income nor an expense leaves the
    balance as it is. *)
Lemma balance_step_untyped z (d : transaction_doc amount) :
  ¬ typed d → step z d = z.
Proof.
  intros Hd. unfold balance_step. simpl.
  case_bool_decide as H1; [destruct Hd; exists "income"; split; [done|set_solver]|].
  case_bool_decide as H2; [destruct Hd; exists "expense"; split; [done|set_solver]|].
  done.
Qed.

Lemma balance_reported z user_id (l : list (transaction_doc amount)) :
  foldl step z (filter (λ d, bool_decide (t_userId d = user_id)) l)
  = foldl step z (filter (reported user_id) l).
Proof.
  revert z. induction l as [|d l IH]; intros z; [done|].
  rewrite !filter_cons. destruct (decide (t_userId d = user_id)) as [Hu|Hu].
  - rewrite decide_True by (by apply bool_decide_spec).
    destruct (decide (typed d)) as [Ht|Ht].
    + rewrite decide_True by done. simpl. apply IH.
    + rewrite decide_False by (by intros [_ ?]). simpl.
      rewrite (balance_step_untyped z d Ht). apply IH.
  - rewrite decide_False by (by rewrite bool_decide_spec).
    rewrite decide_False by (by intros [? _]). apply IH.
Qed.

(** The balance reads the user, the type and the amount of a transaction
    only. *)
Lemma balance_without_category z user_id (l l' : list (transaction_doc amount)) :
  without_category <$> l = without_category <$> l' →
  foldl step z (filter (λ d, bool_decide (t_userId d = user_id)) l)
  = foldl step z (filter (λ d, bool_decide (t_userId d = user_id)) l').
Proof.
  revert z l'. induction l as [|d l IH]; intros z [|d' l'] Heq; try done.
  injection Heq as Hu Hty Ha _ _ Heq. rewrite !filter_cons, Hu.
  destruct (decide _); [|by apply IH]. simpl.
  assert (step z d = step z d') as ->; [|by apply IH].
  unfold balance_step. simpl. by rewrite Hty, Ha.
Qed.

Lemma get_balance_without_category st st' user_id :
  unavailable st' = unavailable st →
  without_category <$> transactions st' = without_category <$> transactions st →
  (get_balance azero aplus aminus user_id (Some st')).1
  = (get_balance azero aplus aminus user_id (Some st)).1.
Proof.
  intros Hun Heq. destruct (unavailable st Transactions) eqn:Htx.
  - rewrite !get_balance_unavailable; [done..|by rewrite Hun].
  - rewrite !get_balance_run; [|done|by rewrite Hun]. simpl.
    by rewrite (balance_without_category _ _ _ _ Heq).
Qed.

(** X18. [get_balance] reads the incomes and the expenses of the user
    only: two stores on which these are the same transactions, in the same
    order, give the same answer, whatever else they hold. *)
Theorem get_balance_reads_reported st st' user_id :
  unavailable st Transactions = false → unavailable st' Transactions = false →
  filter (reported user_id) (transactions st) = filter (reported user_id) (transactions st') →
  (get_balance azero aplus aminus user_id (Some st)).1
  = (get_balance azero aplus aminus user_id (Some st')).1.
Proof.
  intros Htx Htx' Heq. rewrite !get_balance_run by done. simpl.
  by rewrite !balance_reported, Heq.
Qed.

(** X19. The category views change no balance: after [create_category],
    [update_category] or [delete_category] for any user, [get_balance]
    answers for [reader] as it did before, whatever the views answered. *)
Theorem category_views_keep_balance st (now : datetime) user_id (name other reader : string) :
  let balance db := (get_balance azero aplus aminus reader db).1 in
  balance (create_category now user_id name (Some st)).2 = balance (Some st)
  ∧ balance (update_category user_id name other (Some st)).2 = balance (Some st)
  ∧ balance (delete_category user_id name (Some st)).2 = balance (Some st).
Proof.
  intros balance. unfold balance. split_and!.
  - destruct (create_category_outcome st now user_id name)
      as (r & st' & -> & _ & _ & Hun & Ht & _).
    apply get_balance_without_category; [done|by rewrite Ht].
  - destruct (update_category_outcome st user_id name other)
      as (r & st' & -> & _ & _ & Hun & _ & Ht).
    apply get_balance_without_category; [done|].
    destruct Ht as [->| ->]; [done|]. apply without_category_reassigned.
  - destruct (delete_category_outcome st user_id name)
      as (r & st' & -> & _ & _ & Hun & _ & Ht).
    apply get_balance_without_category; [done|].
    destruct Ht as [->| ->]; [done|]. apply without_category_reassigned.
Qed.

End Balance.

Lemma get_balance_reads_reported_witness :
  (get_balance Float64.zero Float64.add Requests.sub "u1" (Some Sample.viajes)).1
  = (get_balance Float64.zero Float64.add Requests.sub "u1" (Some Cases.mixed)).1.
Proof.
  apply (get_balance_reads_reported Float64.zero Float64.add Requests.sub
           Sample.viajes Cases.mixed "u1"); reflexivity.
Defined.

(** ** The latest transactions *)

Section Latest.

Context {amount : Type}.
Implicit Types (st : firestore amount) (user_id : string).

#[global] Instance newer_total : Total (@newer amount).
Proof. intros a b. unfold newer. rewrite !datetime_geb_spec. lia. Qed.

#[global] Instance newer_trans : Transitive (@newer amount).
Proof. intros a b c. unfold newer. rewrite !datetime_geb_spec. lia. Qed.

Lemma foldl_snoc_fmap {A B} (f : A → B) (acc : list B) (l : list A) :
  foldl (λ acc x, acc ++ [f x]) acc l = acc ++ (f <$> l).
Proof.
  revert acc. induction l as [|x l IH]; intros acc; simpl; [by rewrite app_nil_r|].
  by rewrite IH, <- app_assoc.
Qed.

Lemma where_NoDup {D} (p : D → bool) (l : list D) : NoDup (where_ p l).*1.
Proof.
  unfold where_. eapply sublist_NoDup; [|apply fmap_sublist, sublist_filter].
  rewrite fmap_imap. rewrite (imap_ext _ (λ j _, j)) by done.
  rewrite (imap_seq_0 l (λ j, j)), list_fmap_id. apply NoDup_seq.
Qed.

(** The snapshots that [get_latest_transactions] reads. *)
Lemma get_latest_transactions_run st user_id n :
  unavailable st Transactions = false →
  get_latest_transactions user_id n (Some st)
  = ((Body_transactions
        (entry_of <$> take n (merge_sort newer
                                (where_ (λ d, bool_decide (t_userId d = user_id))
                                        (transactions st)))),
      200), Some st).
Proof.
  intros Htx. unfold get_latest_transactions, try_except, limit, order_by_date_descending,
    stream_transactions, on_collection, mbind, M_bind, mret, M_ret.
  rewrite Htx. by rewrite foldl_snoc_fmap.
Qed.

(** X20. [get_latest_transactions] answers with transactions of the user
    only, each one once and as it is stored: with as many as the user has,
    up to the limit. *)
Theorem latest_transactions_of_user st user_id (n : nat) :
  unavailable st Transactions = false →
  ∃ entries,
    get_latest_transactions user_id n (Some st) = ((Body_transactions entries, 200), Some st)
    ∧ length entries
      = n `min` length (filter (λ d, t_userId d = user_id) (transactions st))
    ∧ NoDup (j_id <$> entries)
    ∧ ∀ e, e ∈ entries →
        ∃ d, transactions st !! j_id e = Some d ∧ t_userId d = user_id
             ∧ e = entry_of (j_id e, d).
Proof.
  intros Htx. eexists. split; [by apply get_latest_transactions_run|].
  set (found := where_ _ (transactions st)).
  pose proof (merge_sort_Permutation newer found) as Hperm.
  split_and!.
  - rewrite length_fmap, length_take, Hperm. unfold found. rewrite where_length.
    f_equal. f_equal. apply list_filter_iff. intros d. by rewrite bool_decide_spec.
  - rewrite <- list_fmap_compose.
    eapply sublist_NoDup; [|apply fmap_sublist, sublist_take].
    change (j_id ∘ entry_of) with (@fst nat (transaction_doc amount)).
    rewrite Hperm. apply where_NoDup.
  - intros e He. apply list_elem_of_fmap in He as ([i d] & -> & Hin).
    apply elem_of_take in Hin as (k & Hk & _). apply list_elem_of_lookup_2 in Hk.
    rewrite Hperm in Hk. apply elem_of_where_ in Hk as [Hl Hu].
    exists d. simpl. split_and!; [done| |done]. by apply bool_decide_spec in Hu.
Qed.

(** X21. [get_latest_transactions] answers with the most recent
    transactions of the user, the most recent first: no entry is older than
    an entry that follows it, nor than a transaction of the user that is
    left out. *)
Theorem latest_transactions_most_recent st user_id (n : nat) :
  unavailable st Transactions = false →
  ∃ refs,
    get_latest_transactions user_id n (Some st)
    = ((Body_transactions (entry_of <$> refs), 200), Some st)
    ∧ StronglySorted newer refs
    ∧ ∀ i d, transactions st !! i = Some d → t_userId d = user_id → (i, d) ∉ refs →
             ∀ r, r ∈ refs → newer r (i, d).
Proof.
  intros Htx. eexists. split; [by apply get_latest_transactions_run|].
  set (found := where_ _ (transactions st)).
  pose proof (merge_sort_Permutation newer found) as Hperm.
  pose proof (StronglySorted_merge_sort newer found) as Hsorted.
  rewrite <- (take_drop n (merge_sort newer found)) in Hsorted.
  split; [by eapply StronglySorted_app_1_l|].
  intros i d Hi Hu Hout r Hr.
  eapply StronglySorted_app_1_elem_of; [exact Hsorted|done|].
  assert ((i, d) ∈ merge_sort newer found) as Hin.
  { rewrite Hperm. apply elem_of_where_. split; [done|]. by apply bool_decide_spec. }
  rewrite <- (take_drop n (merge_sort newer found)) in Hin.
  by apply elem_of_app in Hin as [Hin|Hin].
Qed.

End Latest.

Lemma latest_transactions_of_user_witness :
  ∃ entries,
    get_latest_transactions "u1" 2 (Some Sample.viajes)
    = ((Body_transactions entries, 200), Some Sample.viajes)
    ∧ length entries
      = 2 `min` length (filter (λ d, t_userId d = "u1") (transactions Sample.viajes))
    ∧ NoDup (j_id <$> entries)
    ∧ ∀ e, e ∈ entries →
        ∃ d, transactions Sample.viajes !! j_id e = Some d ∧ t_userId d = "u1"
             ∧ e = entry_of (j_id e, d).
Proof. apply (latest_transactions_of_user Sample.viajes "u1" 2). reflexivity. Defined.

Lemma latest_transactions_most_recent_witness :
  ∃ refs,
    get_latest_transactions "u1" 2 (Some Sample.viajes)
    = ((Body_transactions (entry_of <$> refs), 200), Some Sample.viajes)
    ∧ StronglySorted newer refs
    ∧ ∀ i d, transactions Sample.viajes !! i = Some d → t_userId d = "u1" → (i, d) ∉ refs →
             ∀ r, r ∈ refs → newer r (i, d).
Proof. apply (latest_transactions_most_recent Sample.viajes "u1" 2). reflexivity. Defined.

(** ** The PDF report *)

(** The row that follows the row number [k]: on the same page, 15 points
    lower, or at the top of the next page when that would be under
    50 points. *)
Lemma row_after (k : nat) :
  (if (row_height k - 15 <? 50)%Z then (S (row_page k), (height - 50 - 20)%Z)
   else (row_page k, (row_height k - 15)%Z))
  = (row_page (S k), row_height (S k)).
Proof.
  unfold row_page, row_height, height.
  destruct (decide (k < 35)%nat) as [Hk|Hk].
  - destruct (decide (S k < 35)%nat) as [Hk'|Hk'].
    + destruct (Z.ltb_spec (572 - 15 * Z.of_nat k - 15) 50); [lia|]. f_equal. lia.
    + assert (k = 34)%nat as -> by lia. reflexivity.
  - destruct (decide (S k < 35)%nat); [lia|].
    pose proof (Nat.div_mod_eq (k - 35) 45) as Hk1.
    pose proof (Nat.mod_upper_bound (k - 35) 45 ltac:(lia)) as Hk2.
    pose proof (Nat.div_mod_eq (S k - 35) 45) as Hk3.
    pose proof (Nat.mod_upper_bound (S k - 35) 45 ltac:(lia)) as Hk4.
    destruct (Z.ltb_spec (722 - 15 * Z.of_nat ((k - 35) mod 45) - 15) 50); f_equal; lia.
Qed.

Lemma row_bounds (i : nat) : (62 ≤ row_height i ≤ 722)%Z.
Proof.
  unfold row_height. destruct (decide (i < 35)%nat); [lia|].
  pose proof (Nat.mod_upper_bound (i - 35) 45 ltac:(lia)). lia.
Qed.

Lemma row_place_inj (i j : nat) :
  (row_page i, row_height i) = (row_page j, row_height j) → i = j.
Proof.
  unfold row_page, row_height. intros Heq.
  pose proof (Nat.div_mod_eq (i - 35) 45). pose proof (Nat.div_mod_eq (j - 35) 45).
  apply pair_equal_spec in Heq as [Hp Hy].
  destruct (decide (i < 35)%nat), (decide (j < 35)%nat); lia.
Qed.

Section Layout.

Context {amount : Type}.
Implicit Types (lista : list (movimiento amount)).

(** The state of the loop that draws the rows, after [lista]. *)
Lemma draw_loop_invariant lista :
  foldl draw_step ([], 0, (height - 200 - 20)%Z) lista
  = (imap (λ i mov, (row_page i, row_height i, mov)) lista,
     match length lista with O => 0%nat | S k => row_page k end,
     match length lista with O => (height - 200 - 20)%Z | S k => (row_height k - 15)%Z end).
Proof.
  induction lista as [|mov lista IH] using rev_ind; [done|].
  rewrite foldl_app, IH. simpl. rewrite imap_app, length_app, Nat.add_1_r. simpl.
  rewrite Nat.add_0_r.
  assert ((if (match length lista with
               | O => (height - 200 - 20)%Z | S k => (row_height k - 15)%Z
               end <? 50)%Z
           then (S (match length lista with O => 0%nat | S k => row_page k end),
                 (height - 50 - 20)%Z)
           else (match length lista with O => 0%nat | S k => row_page k end,
                 match length lista with
                 | O => (height - 200 - 20)%Z | S k => (row_height k - 15)%Z
                 end))
          = (row_page (length lista), row_height (length lista))) as ->; [|done].
  destruct (length lista) as [|k]; [done|]. apply row_after.
Qed.

(** X22. The listing of the PDF report is drawn row by row in the order
    of the list, 35 rows on the first page from the height 572 down and 45
    rows on every following page from the height 722 down, 15 points
    apart. *)
Theorem draw_rows_layout lista :
  draw_rows lista = imap (λ i mov, (row_page i, row_height i, mov)) lista.
Proof. unfold draw_rows. by rewrite draw_loop_invariant. Qed.

(** X23. No row of the listing is drawn under the bottom margin of 50
    points, nor above the height 722, and no two rows are drawn at the same
    place of the same page, however long the listing is. *)
Theorem draw_rows_apart lista :
  (∀ page y mov, (page, y, mov) ∈ draw_rows lista → (50 ≤ y ≤ 722)%Z)
  ∧ NoDup ((λ row, row.1) <$> draw_rows lista).
Proof.
  unfold draw_rows. rewrite draw_loop_invariant. simpl. split.
  - intros page y mov Hin. apply elem_of_lookup_imap in Hin as (i & mov' & [= -> -> ->] & _).
    pose proof (row_bounds i). lia.
  - rewrite fmap_imap.
    rewrite (imap_ext _ (λ i _, (row_page i, row_height i))) by done.
    rewrite (imap_seq_0 lista (λ i, (row_page i, row_height i))).
    apply NoDup_fmap_2_strong; [|apply NoDup_seq].
    intros i j _ _. apply row_place_inj.
Qed.

End Layout.

Section Statement.

Context {amount : Type} (azero : amount) (aplus aminus : amount → amount → amount).
Implicit Types (st : firestore amount) (user_id : string).

(** The row that the first loop of [generar_pdf_real] makes of a
    document. *)
Local Abbreviation row_of := (λ d : transaction_doc amount,
  {| fecha := strftime_Ymd (t_date d);
     cat := normalize (default "Varios" (t_category d));
     monto := default azero (t_amount d);
     tipo := default "expense" (t_type d) |}).

Local Abbreviation amounts type rows :=
  (monto <$> filter (λ mov : movimiento amount, tipo mov = type) rows).

(** The state of the first loop of [generar_pdf_real]: the totals are
    those of the rows. *)
Lemma movimientos_invariant rows ingresos gastos (docs : list (nat * transaction_doc amount)) :
  foldl (movimientos_step azero aplus) (rows, ingresos, gastos) docs
  = (rows ++ (row_of <$> docs.*2),
     foldl aplus ingresos (amounts "income" (row_of <$> docs.*2)),
     foldl aplus gastos (amounts "expense" (row_of <$> docs.*2))).
Proof.
  revert rows ingresos gastos.
  induction docs as [|doc docs IH]; intros rows ingresos gastos; simpl.
  { by rewrite app_nil_r. }
  rewrite !filter_cons. simpl.
  case_bool_decide as Hin; [|case_bool_decide as Hex];
    rewrite IH, <- app_assoc; simpl; repeat case_decide; try congruence; done.
Qed.

Lemma draw_rows_data (lista : list (movimiento amount)) : (draw_rows lista).*2 = lista.
Proof.
  unfold draw_rows. rewrite draw_loop_invariant. simpl. rewrite fmap_imap.
  rewrite (imap_ext _ (const id)) by done. by rewrite imap_const, list_fmap_id.
Qed.

Lemma generar_pdf_real_run st user_id :
  unavailable st Transactions = false →
  generar_pdf_real azero aplus aminus user_id (Some st)
  = (let rows := row_of <$> filter (λ d, bool_decide (t_userId d = user_id))
                                   (transactions st) in
     Some {| pdf_user := user_id;
             pdf_ingresos := total azero aplus (amounts "income" rows);
             pdf_gastos := total azero aplus (amounts "expense" rows);
             pdf_balance := aminus (total azero aplus (amounts "income" rows))
                                   (total azero aplus (amounts "expense" rows));
             pdf_rows := draw_rows rows |},
     Some st).
Proof.
  intros Htx. unfold generar_pdf_real, try_except, stream_transactions, on_collection,
    mbind, M_bind, mret, M_ret.
  rewrite Htx. rewrite movimientos_invariant. by rewrite where_data.
Qed.

Lemma generar_pdf_real_unavailable st user_id :
  unavailable st Transactions = true →
  generar_pdf_real azero aplus aminus user_id (Some st) = (None, Some st).
Proof.
  intros Htx. unfold generar_pdf_real, try_except, stream_transactions, on_collection,
    mbind, M_bind. by rewrite Htx.
Qed.

(** X24. The summary of the PDF report agrees with its listing: there is
    one row for each transaction of the user, in the order of the stream
    and under its normalised category (or ['Varios']), the totals of
    incomes and of expenses are the amounts of the rows of that type, added
    up in this order, and the balance is their difference. *)
Theorem pdf_summary_of_rows st user_id :
  unavailable st Transactions = false →
  ∃ file,
    generar_pdf_real azero aplus aminus user_id (Some st) = (Some file, Some st)
    ∧ cat <$> (pdf_rows file).*2
      = (λ d, normalize (default "Varios" (t_category d)))
          <$> filter (λ d, t_userId d = user_id) (transactions st)
    ∧ pdf_ingresos file = total azero aplus (amounts "income" (pdf_rows file).*2)
    ∧ pdf_gastos file = total azero aplus (amounts "expense" (pdf_rows file).*2)
    ∧ pdf_balance file = aminus (pdf_ingresos file) (pdf_gastos file).
Proof.
  intros Htx. eexists. split; [by apply generar_pdf_real_run|]. simpl.
  rewrite draw_rows_data. split_and!; [|done..].
  rewrite <- list_fmap_compose. f_equal.
  apply list_filter_iff. intros d. by rewrite bool_decide_spec.
Qed.

(** X25. [download_report] answers 400 exactly when no user is given, and
    500 exactly when the transactions of the given user cannot be read;
    otherwise it sends the report of this user.  It leaves the store as it
    is. *)
Theorem download_report_answers st user_id :
  ∃ body code,
    download_report azero aplus aminus user_id (Some st) = ((body, code), Some st)
    ∧ (code = 400 ↔ user_id = "")
    ∧ (code = 500 ↔ user_id ≠ "" ∧ unavailable st Transactions = true)
    ∧ (code ≠ 400 → code ≠ 500 →
       code = 200
       ∧ ∃ file, body = Body_pdf file
                 ∧ generar_pdf_real azero aplus aminus user_id (Some st)
                   = (Some file, Some st)
                 ∧ pdf_user file = user_id).
Proof.
  unfold download_report, try_except, mbind, M_bind, mret, M_ret.
  destruct (decide (user_id = "")) as [->|Huser].
  { eexists _, 400. split_and!; [done|done| |done]. split; [done|]. by intros [? _]. }
  rewrite (proj2 (truthy_iff user_id) Huser). cbn [negb].
  destruct (unavailable st Transactions) eqn:Htx.
  - rewrite generar_pdf_real_unavailable by done.
    eexists _, 500. split_and!; [done| |done|done]. done.
  - rewrite generar_pdf_real_run by done. cbv zeta.
    eexists _, 200. split_and!; [done|done| |].
    + split; [done|]. by intros [_ ?].
    + intros _ _. split; [done|]. eexists. by split_and!.
Qed.

(** X26. The views that report never write: [monthly_report],
    [get_latest_transactions], [get_balance], [generar_pdf_real] and
    [download_report] hand back the storage handle that they were given,
    whatever it is and whatever they answer. *)
Theorem reporting_views_keep_store (asum : list amount → amount)
    (db : option (firestore amount)) user_id (n : nat) :
  (monthly_report azero aplus asum user_id db).2 = db
  ∧ (get_latest_transactions user_id n db).2 = db
  ∧ (get_balance azero aplus aminus user_id db).2 = db
  ∧ (generar_pdf_real azero aplus aminus user_id db).2 = db
  ∧ (download_report azero aplus aminus user_id db).2 = db.
Proof.
  destruct db as [st|]; [|done]. split_and!.
  - unfold monthly_report. destruct (PyStr.truthy user_id); [|done]. simpl.
    unfold try_except, stream_transactions, on_collection, mbind, M_bind, mret, M_ret.
    destruct (unavailable st Transactions); [done|]. by destruct (foldl _ _ _).
  - unfold get_latest_transactions, try_except, limit, order_by_date_descending,
      stream_transactions, on_collection, mbind, M_bind, mret, M_ret.
    by destruct (unavailable st Transactions).
  - unfold get_balance, try_except, stream_transactions, on_collection,
      mbind, M_bind, mret, M_ret.
    by destruct (unavailable st Transactions).
  - destruct (unavailable st Transactions) eqn:Htx.
    + by rewrite generar_pdf_real_unavailable.
    + by rewrite generar_pdf_real_run.
  - unfold download_report. destruct (PyStr.truthy user_id); [|done]. cbn [negb].
    unfold try_except, mbind, M_bind, mret, M_ret.
    destruct (unavailable st Transactions) eqn:Htx.
    + by rewrite generar_pdf_real_unavailable.
    + by rewrite generar_pdf_real_run.
Qed.

End Statement.

Lemma pdf_summary_of_rows_witness :
  ∃ file,
    generar_pdf_real Float64.zero Float64.add Requests.sub "u1" (Some Sample.viajes)
    = (Some file, Some Sample.viajes)
    ∧ cat <$> (pdf_rows file).*2
      = (λ d, normalize (default "Varios" (t_category d)))
          <$> filter (λ d, t_userId d = "u1") (transactions Sample.viajes)
    ∧ pdf_ingresos file
      = total Float64.zero Float64.add
          (monto <$> filter (λ mov, tipo mov = "income") (pdf_rows file).*2)
    ∧ pdf_gastos file
      = total Float64.zero Float64.add
          (monto <$> filter (λ mov, tipo mov = "expense") (pdf_rows file).*2)
    ∧ pdf_balance file = Requests.sub (pdf_ingresos file) (pdf_gastos file).
Proof.
  apply (pdf_summary_of_rows Float64.zero Float64.add Requests.sub Sample.viajes "u1").
  reflexivity.
Defined.

(** ** Adding and listing the latest *)

(** X27. A transaction that [add_transaction] has stored with a date
    later than the date of every transaction that the user had comes first
    in the next answer of [get_latest_transactions], for any limit but 0. *)
Theorem added_transaction_comes_first {amount raw}
    (to_float : raw → option amount) (strptime_Ymd : string → option datetime)
    (st st' : firestore amount) (user_id : string) (data : transaction_body raw)
    (body : json amount) (d : transaction_doc amount) (n : nat) :
  add_transaction to_float strptime_Ymd user_id data (Some st) = ((body, 201), Some st') →
  document_of to_float strptime_Ymd user_id data = Some d →
  (∀ d0, d0 ∈ transactions st → t_userId d0 = user_id →
         datetime_geb (t_date d0) (t_date d) = false) →
  (0 < n)%nat →
  ∃ id entries,
    get_latest_transactions user_id n (Some st')
    = ((Body_transactions (entry_of (id, d) :: entries), 200), Some st').
Proof.
  intros Hrun Hd Hlater Hn.
  destruct (add_transaction_outcome to_float strptime_Ymd st user_id data)
    as (resp & st1 & Hrun' & _ & _ & Hun & Hout).
  rewrite Hrun in Hrun'. injection Hrun' as <- <-.
  destruct Hout as [(_ & Htx & d' & Hd' & Ht)|(? & _)]; [|done].
  assert (d' = d) as -> by congruence.
  apply document_of_fields in Hd as (_ & Hu & _).
  rewrite get_latest_transactions_run by (by rewrite Hun).
  set (found := where_ _ (transactions st')).
  pose proof (merge_sort_Permutation newer found) as Hperm.
  pose proof (StronglySorted_merge_sort newer found) as Hsorted.
  assert ((length (transactions st), d) ∈ merge_sort newer found) as Hin.
  { rewrite Hperm. apply elem_of_where_. rewrite Ht. split.
    - by rewrite list_lookup_middle.
    - by apply bool_decide_spec. }
  destruct (merge_sort newer found) as [|[i0 d0] rest] eqn:Hsort.
  { by apply elem_of_nil in Hin. }
  destruct n as [|m]; [lia|]. simpl.
  assert (d0 = d) as ->; [|by eauto].
  assert ((i0, d0) ∈ found) as Hfound by (rewrite <- Hperm; by left).
  apply elem_of_where_ in Hfound as [Hi0 Hu0]. apply bool_decide_spec in Hu0.
  apply elem_of_cons in Hin as [[= _ <-]|Hin]; [done|].
  apply StronglySorted_cons in Hsorted as [Hfirst _].
  rewrite Forall_forall in Hfirst. specialize (Hfirst _ Hin). unfold newer in Hfirst.
  simpl in Hfirst.
  rewrite Ht in Hi0. apply list_elem_of_lookup_2, elem_of_app in Hi0 as [Hold|Hnew].
  - rewrite (Hlater d0 Hold Hu0) in Hfirst. done.
  - by apply list_elem_of_singleton in Hnew.
Qed.

Lemma added_transaction_comes_first_witness :
  ∃ id entries,
    get_latest_transactions "u1" 3
      (Some (with_transactions
               (transactions Sample.viajes
                ++ [{| t_userId := "u1"; t_type := Some "expense"; t_amount := Some 85%float;
                       t_category := Some "Taxi"; t_description := "Aeropuerto";
                       t_date := Sample.date 2024 4 2 |}])
               Sample.viajes))
    = ((Body_transactions
          (entry_of (id, {| t_userId := "u1"; t_type := Some "expense";
                            t_amount := Some 85%float; t_category := Some "Taxi";
                            t_description := "Aeropuerto";
                            t_date := Sample.date 2024 4 2 |}) :: entries), 200),
       Some (with_transactions
               (transactions Sample.viajes
                ++ [{| t_userId := "u1"; t_type := Some "expense"; t_amount := Some 85%float;
                       t_category := Some "Taxi"; t_description := "Aeropuerto";
                       t_date := Sample.date 2024 4 2 |}])
               Sample.viajes)).
Proof.
  apply (added_transaction_comes_first Requests.to_float Requests.strptime_Ymd
           Sample.viajes _ "u1" Requests.taxi (Body_status "Transacción guardada ✅") _ 3);
    [reflexivity|reflexivity| |lia].
  intros d0 Hd0 _. simpl in Hd0.
  repeat (apply elem_of_cons in Hd0 as [->|Hd0]; [reflexivity|]).
  by apply elem_of_nil in Hd0.
Defined.
